(** * AgentCore travel planner: job lifecycle, idempotent persistence,
      credential cache and gateway tool discovery

    A shallow embedding of [src/app/jobs.py], [src/app/ddb_tools.py],
    [src/app/config.py] and [src/app/agent_builder.py], and the properties
    of the specification that concern them.

    Conventions of the embedding:
    - a Python [str] is the list of its code points ([list N]);
    - a DynamoDB item is a finite map from attribute names to values, the
      table a finite map from the primary key (userId, itineraryId) to items;
    - a function that touches the table, the logger or the token cache is a
      computation in the monad [M]: it takes the world and returns either a
      value or a raised exception, together with the new world;
    - what a call reads from its environment (clock, uuid4, the answer of the
      store or of an HTTP endpoint) is an explicit argument of the call. *)

From Stdlib Require Import ZArith NArith List String Ascii Bool Lia DecimalString.
From stdpp Require Import gmap list strings sorting.

Set Warnings "-register-all".
Local Open Scope N_scope.

(** ** Python strings *)

Abbreviation pystr := (list N).

Module Py.

(** A literal of the source, as code points. *)
Definition lit (s : string) : pystr :=
  List.map N_of_ascii (list_ascii_of_string s).

(** [str.isspace] on one code point: the characters CPython's
    [_PyUnicode_IsWhitespace] accepts. *)
Definition isspace (c : N) : bool :=
  ((9 <=? c) && (c <=? 13))
  || ((28 <=? c) && (c <=? 32))
  || (c =? 133) || (c =? 160) || (c =? 5760)
  || ((8192 <=? c) && (c <=? 8202))
  || (c =? 8232) || (c =? 8233) || (c =? 8239) || (c =? 8287)
  || (c =? 12288).

Fixpoint lstrip (s : pystr) : pystr :=
  match s with
  | c :: s' => if isspace c then lstrip s' else s
  | [] => []
  end.

Definition rstrip (s : pystr) : pystr := rev (lstrip (rev s)).

(** [s.strip()] *)
Definition strip (s : pystr) : pystr := rstrip (lstrip s).

(** [s.startswith(p)] *)
Fixpoint startswith (s p : pystr) {struct p} : bool :=
  match p, s with
  | [], _ => true
  | a :: p', b :: s' => (a =? b) && startswith s' p'
  | _ :: _, [] => false
  end.

(** [s[:n]] for a non-negative [n] *)
Definition slice_to (n : N) (s : pystr) : pystr := take (N.to_nat n) s.

(** truth value of a string: non-empty *)
Definition truthy (s : pystr) : bool :=
  match s with [] => false | _ => true end.

(** truth value of an [Optional[str]] *)
Definition truthy_opt (o : option pystr) : bool :=
  match o with Some s => truthy s | None => false end.

(** [x or ""] on an [Optional[str]] *)
Definition or_empty (o : option pystr) : pystr :=
  match o with Some s => s | None => [] end.

(** how an f-string renders an [Optional[str]] *)
Definition fmt_opt (o : option pystr) : pystr :=
  match o with Some s => s | None => lit "None" end.

(** how an f-string renders a non-negative [int] *)
Definition str_of_nat (n : nat) : pystr :=
  lit (NilZero.string_of_uint (Nat.to_uint n)).

(** [time.struct_time], the fields [strftime('%H:%M:%S')] reads *)
Record struct_time := { tm_hour : N; tm_min : N; tm_sec : N }.

Definition two_digits (n : N) : pystr :=
  [48 + (n / 10) mod 10; 48 + n mod 10].

(** [time.strftime('%H:%M:%S')] at local time [t] *)
Definition strftime_HMS (t : struct_time) : pystr :=
  two_digits (tm_hour t) ++ [58] ++ two_digits (tm_min t) ++ [58]
  ++ two_digits (tm_sec t).

End Py.

(** ** Exceptions, results, the world *)

(** The exceptions the modelled code can meet; all are subclasses of
    Python's [Exception]. [ClientError] carries
    [e.response["Error"]["Code"]]. *)
Inductive exn :=
| ClientError (code : pystr)
| OtherError (name : pystr).

Inductive result (A : Type) :=
| Ok (a : A)
| Raise (e : exn).
Arguments Ok {A} a.
Arguments Raise {A} e.

(** DynamoDB attribute values (and JSON-like Python values). *)
Inductive value :=
| VNull
| VBool (b : bool)
| VNum (z : Z)
| VStr (s : pystr)
| VList (l : list value)
| VMap (m : list (pystr * value)).

(** Python truth value *)
Definition value_truthy (v : value) : bool :=
  match v with
  | VNull => false
  | VBool b => b
  | VNum z => negb (z =? 0)%Z
  | VStr s => Py.truthy s
  | VList l => match l with [] => false | _ => true end
  | VMap m => match m with [] => false | _ => true end
  end.

Abbreviation item := (gmap pystr value).
Abbreviation table := (gmap (pystr * pystr) (gmap pystr value)).

Inductive level := DEBUG | INFO | WARNING | ERROR.

(** One emitted log record; [log_exc] is the exception that
    [log.exception] attaches. *)
Record log_record := { log_level : level; log_msg : pystr; log_exc : option exn }.

(** [_token_cache] of config.py *)
Record token_cache := { access_token : option pystr; exp : Z }.

Record World := {
  tbl : table;                 (* the DynamoDB table *)
  logs : list log_record;      (* what was logged, oldest first *)
  cache : token_cache;         (* config._token_cache *)
  http_posts : nat             (* requests sent to the token endpoint *)
}.

Definition M (A : Type) : Type := World -> result A * World.

Definition ret {A} (a : A) : M A := fun w => (Ok a, w).
Definition raise {A} (e : exn) : M A := fun w => (Raise e, w).
Definition bind {A B} (m : M A) (k : A -> M B) : M B :=
  fun w => match m w with
           | (Ok a, w') => k a w'
           | (Raise e, w') => (Raise e, w')
           end.

Notation "x <- c1 ;; c2" := (bind c1 (fun x => c2))
  (at level 100, c1 at next level, right associativity).
Notation "c1 ;;; c2" := (bind c1 (fun _ => c2))
  (at level 100, right associativity).

(** [try: body  except <class> as e: handler e]; [handler e = None] when no
    except clause matches [e], which then propagates. *)
Definition try_except {A} (body : M A) (handler : exn -> option (M A)) : M A :=
  fun w => match body w with
           | (Ok a, w') => (Ok a, w')
           | (Raise e, w') =>
               match handler e with
               | Some h => h w'
               | None => (Raise e, w')
               end
           end.

Definition set_tbl (t : table) (w : World) : World :=
  {| tbl := t; logs := logs w; cache := cache w; http_posts := http_posts w |}.

Definition set_cache (c : token_cache) (w : World) : World :=
  {| tbl := tbl w; logs := logs w; cache := c; http_posts := http_posts w |}.

Definition log_at (l : level) (msg : pystr) (e : option exn) : M unit :=
  fun w => (Ok tt,
            {| tbl := tbl w;
               logs := logs w ++ [{| log_level := l; log_msg := msg; log_exc := e |}];
               cache := cache w; http_posts := http_posts w |}).

Definition log_debug (msg : pystr) : M unit := log_at DEBUG msg None.
Definition log_info (msg : pystr) : M unit := log_at INFO msg None.
Definition log_warning (msg : pystr) (e : option exn) : M unit := log_at WARNING msg e.
(** [log.exception(msg)] inside a handler of [e] *)
Definition log_exception (msg : pystr) (e : exn) : M unit := log_at ERROR msg (Some e).

(** ** The key-value store *)

Module DDB.

Definition ConditionalCheckFailedException : pystr :=
  Eval cbv in Py.lit "ConditionalCheckFailedException".
Definition ValidationException : pystr :=
  Eval cbv in Py.lit "ValidationException".

Definition userId : pystr := Eval cbv in Py.lit "userId".
Definition itineraryId : pystr := Eval cbv in Py.lit "itineraryId".

(** What the service answers to one request: it serves it, or fails with
    an exception of its own (throttling, network, validation, ...). *)
Inductive fault :=
| NoFault
| Fault (e : exn).

(** primary key of an item: both key attributes must be strings *)
Definition key_of (it : item) : option (pystr * pystr) :=
  match it !! userId, it !! itineraryId with
  | Some (VStr u), Some (VStr i) => Some (u, i)
  | _, _ => None
  end.

(** [table.put_item(Item=it,
       ConditionExpression="attribute_not_exists(itineraryId)")]:
    the condition is evaluated on the stored item with the same primary
    key; an absent item has no attribute, a stored one has its key. *)
Definition put_item_if_absent (f : fault) (it : item) : M unit :=
  fun w =>
    match f with
    | Fault e => (Raise e, w)
    | NoFault =>
        match key_of it with
        | None => (Raise (ClientError ValidationException), w)
        | Some k =>
            match tbl w !! k with
            | Some _ => (Raise (ClientError ConditionalCheckFailedException), w)
            | None => (Ok tt, set_tbl (<[k := it]> (tbl w)) w)
            end
        end
    end.

(** Operands of a SET action, attribute-name and value placeholders
    already substituted. *)
Inductive operand :=
| OVal (v : value)
| OPath (a : pystr)
| OIfNotExists (a : pystr) (d : operand)
| OListAppend (x y : operand).

(** operands are evaluated on the item as it is before the update *)
Fixpoint eval (old : item) (o : operand) : option value :=
  match o with
  | OVal v => Some v
  | OPath a => old !! a
  | OIfNotExists a d =>
      match old !! a with
      | Some v => Some v
      | None => eval old d
      end
  | OListAppend x y =>
      match eval old x, eval old y with
      | Some (VList l1), Some (VList l2) => Some (VList (l1 ++ l2))
      | _, _ => None
      end
  end.

(** apply [SET a1 = o1, a2 = o2, ...] *)
Fixpoint apply_set (old : item) (acts : list (pystr * operand)) (cur : item)
  : option item :=
  match acts with
  | [] => Some cur
  | (a, o) :: rest =>
      match eval old o with
      | Some v => apply_set old rest (<[a := v]> cur)
      | None => None
      end
  end.

(** [table.update_item(Key=.., UpdateExpression="SET ..", ..)] without a
    condition: an upsert. An absent item starts as the key alone. *)
Definition update_item (f : fault) (k : pystr * pystr)
    (acts : list (pystr * operand)) : M unit :=
  fun w =>
    match f with
    | Fault e => (Raise e, w)
    | NoFault =>
        let old := match tbl w !! k with
                   | Some it => it
                   | None => <[userId := VStr (fst k)]>
                             (<[itineraryId := VStr (snd k)]> ∅)
                   end in
        match apply_set old acts old with
        | Some new => (Ok tt, set_tbl (<[k := new]> (tbl w)) w)
        | None => (Raise (ClientError ValidationException), w)
        end
    end.

End DDB.

(** ** jobs.py *)

Module Jobs.

Definition JOB_SK_PREFIX : pystr := Eval cbv in Py.lit "job#".

Definition _job_sk (request_id : pystr) : pystr := JOB_SK_PREFIX ++ request_id.

Definition a_type : pystr := Eval cbv in Py.lit "type".
Definition a_status : pystr := Eval cbv in Py.lit "status".
Definition a_startedAt : pystr := Eval cbv in Py.lit "startedAt".
Definition a_updatedAt : pystr := Eval cbv in Py.lit "updatedAt".
Definition a_progress : pystr := Eval cbv in Py.lit "progress".
Definition a_meta : pystr := Eval cbv in Py.lit "meta".
Definition a_runtimeJobId : pystr := Eval cbv in Py.lit "runtimeJobId".
Definition a_completedAt : pystr := Eval cbv in Py.lit "completedAt".
Definition a_finalMessage : pystr := Eval cbv in Py.lit "finalMessage".
Definition a_resultItineraryId : pystr := Eval cbv in Py.lit "resultItineraryId".

Definition RUNNING : pystr := Eval cbv in Py.lit "RUNNING".
Definition SUCCEEDED : pystr := Eval cbv in Py.lit "SUCCEEDED".
Definition FAILED : pystr := Eval cbv in Py.lit "FAILED".

(** the dict [create_job] builds; [t_started], [t_updated] are its two
    readings of [iso_now()] *)
Definition job_item (t_started t_updated : pystr) (user_id request_id : pystr)
    (meta : option value) (job_id : option pystr) : item :=
  let item : item :=
    <[DDB.userId := VStr user_id]>
    (<[DDB.itineraryId := VStr (_job_sk request_id)]>
    (<[a_type := VStr (Py.lit "job")]>
    (<[a_status := VStr RUNNING]>
    (<[a_startedAt := VStr t_started]>
    (<[a_updatedAt := VStr t_updated]>
    (<[a_progress := VList []]> ∅)))))) in
  let item :=
    match meta with
    | Some m => if value_truthy m then <[a_meta := m]> item else item
    | None => item
    end in
  match job_id with
  | Some j => if Py.truthy j then <[a_runtimeJobId := VStr j]> item else item
  | None => item
  end.

Definition create_job (t_started t_updated : pystr) (f : DDB.fault)
    (user_id request_id : pystr) (meta : option value) (job_id : option pystr)
  : M unit :=
  let item := job_item t_started t_updated user_id request_id meta job_id in
  try_except
    (DDB.put_item_if_absent f item ;;;
     log_info (Py.lit "[job] created userId=" ++ user_id
               ++ Py.lit " requestId=" ++ request_id))
    (fun e =>
       match e with
       | ClientError code =>
           Some (if bool_decide (code = DDB.ConditionalCheckFailedException)
                 then log_info (Py.lit "[job] already exists userId=" ++ user_id
                                ++ Py.lit " requestId=" ++ request_id)
                 else log_exception (Py.lit "[job] create_job error") e ;;; raise e)
       | OtherError _ => None
       end).

(** [(line or "").strip()]: a value without a [strip] method raises
    AttributeError *)
Definition or_empty_strip (line : value) : M pystr :=
  match (if value_truthy line then line else VStr []) with
  | VStr s => ret (Py.strip s)
  | _ => raise (OtherError (Py.lit "AttributeError"))
  end.

(** the cap and marker of [append_progress] *)
Definition cap_line (line : pystr) : pystr :=
  if (600 <? length line)%nat then Py.slice_to 600 line ++ Py.lit " ..." else line.

(** [f"{time.strftime('%H:%M:%S')}  {line}"] at local time [tm] *)
Definition stamped (tm : Py.struct_time) (line : pystr) : pystr :=
  Py.strftime_HMS tm ++ Py.lit "  " ++ line.

(** [SET #p = list_append(if_not_exists(#p, :empty), :line), updatedAt = :t] *)
Definition append_expression (tm : Py.struct_time) (t_now : pystr) (line : pystr)
  : list (pystr * DDB.operand) :=
  [(a_progress,
    DDB.OListAppend
      (DDB.OIfNotExists a_progress (DDB.OVal (VList [])))
      (DDB.OVal (VList [VStr (stamped tm line)])));
   (a_updatedAt, DDB.OVal (VStr t_now))].

(** [tm] is the local time [time.strftime] formats, [t_now] the reading of
    [iso_now()] *)
Definition append_progress (tm : Py.struct_time) (t_now : pystr) (f : DDB.fault)
    (user_id request_id : pystr) (line : value) : M unit :=
  try_except
    (line <- or_empty_strip line ;;
     if negb (Py.truthy line) then ret tt
     else
       let line := cap_line line in
       DDB.update_item f (user_id, _job_sk request_id)
         (append_expression tm t_now line))
    (fun e => Some (log_exception (Py.lit "[job] append_progress error") e)).

(** the SET actions [complete_job] joins into its update expression *)
Definition complete_expression (t_now status : pystr)
    (final_message itinerary_id : option pystr) : list (pystr * DDB.operand) :=
  let expr :=
    [(a_status, DDB.OVal (VStr status));
     (a_completedAt, DDB.OVal (VStr t_now));
     (a_updatedAt, DDB.OVal (VStr t_now))] in
  let expr :=
    if Py.truthy_opt final_message
    then expr ++ [(a_finalMessage,
                   DDB.OVal (VStr (Py.slice_to 180000 (Py.or_empty final_message))))]
    else expr in
  if Py.truthy_opt itinerary_id
  then expr ++ [(a_resultItineraryId, DDB.OVal (VStr (Py.or_empty itinerary_id)))]
  else expr.

Definition complete_job (t_now : pystr) (f : DDB.fault)
    (user_id request_id : pystr) (status : pystr)
    (final_message : option pystr) (itinerary_id : option pystr) : M unit :=
  try_except
    (DDB.update_item f (user_id, _job_sk request_id)
       (complete_expression t_now status final_message itinerary_id) ;;;
     log_info (Py.lit "[job] completed userId=" ++ user_id
               ++ Py.lit " requestId=" ++ request_id
               ++ Py.lit " status=" ++ status
               ++ Py.lit " iid=" ++ Py.fmt_opt itinerary_id))
    (fun e => Some (log_exception (Py.lit "[job] complete_job error") e)).

(** [JobProgressHandler]: the fields set by [__init__] *)
Record JobProgressHandler := { h_user_id : pystr; h_request_id : pystr }.

Definition mirrored_prefixes : list pystr :=
  Eval cbv in
    [Py.lit "STATUS:"; Py.lit "TOOL:"; Py.lit "TOOL_RESULT:"; Py.lit "Tool #"].

(** [any(msg.startswith(pfx) for pfx in (...))] *)
Definition is_mirrored (msg : pystr) : bool :=
  existsb (Py.startswith msg) mirrored_prefixes.

(** [emit]; [msg] is [self.format(record)] *)
Definition emit (self : JobProgressHandler)
    (tm : Py.struct_time) (t_now : pystr) (f : DDB.fault) (msg : pystr) : M unit :=
  if is_mirrored msg
  then append_progress tm t_now f (h_user_id self) (h_request_id self) (VStr msg)
  else ret tt.

End Jobs.

(** ** ddb_tools.py *)

Module DdbTools.
Section Builtins.

(** [str(uuid.uuid5(uuid.NAMESPACE_URL, name))]: a fixed function of
    [name] (SHA-1 based), left abstract. *)
Variable uuid5_url : pystr -> pystr.

(** [repr] of a value that is not a string, left abstract. *)
Variable py_repr : value -> pystr.

(** how an f-string renders a value: [str(v)] *)
Definition str_of (v : value) : pystr :=
  match v with
  | VStr s => s
  | _ => py_repr v
  end.

Definition a_destination : pystr := Eval cbv in Py.lit "destination".
Definition a_startDate : pystr := Eval cbv in Py.lit "startDate".
Definition a_endDate : pystr := Eval cbv in Py.lit "endDate".
Definition a_items : pystr := Eval cbv in Py.lit "items".
Definition a_sources : pystr := Eval cbv in Py.lit "sources".
Definition a_createdAt : pystr := Eval cbv in Py.lit "createdAt".

(** [d.setdefault(k, v)] *)
Definition setdefault (k : pystr) (v : value) (d : item) : item :=
  match d !! k with
  | Some _ => d
  | None => <[k := v]> d
  end.

(** [d.get(k, default)] *)
Definition get_or (d : item) (k : pystr) (default : value) : value :=
  match d !! k with
  | Some v => v
  | None => default
  end.

(** [fresh_uuid4] is [str(uuid.uuid4())], drawn on every call because the
    argument of [setdefault] is evaluated before the call. [itinerary] is
    [None] or a dict. *)
Definition _ensure_itinerary_shape (fresh_uuid4 : pystr) (itinerary : option item)
  : item :=
  let it : item := match itinerary with Some d => d | None => ∅ end in
  let it := setdefault DDB.itineraryId (VStr fresh_uuid4) it in
  let it := setdefault a_destination (VStr []) it in
  let it := setdefault a_startDate (VStr []) it in
  let it := setdefault a_endDate (VStr []) it in
  let it := setdefault a_items (VList []) it in
  setdefault a_sources (VList []) it.

Definition _stable_itinerary_id (user_id : pystr) (destination start end_ : value)
    (request_id : pystr) : pystr :=
  let base :=
    if Py.truthy request_id then request_id
    else user_id ++ [124] ++ str_of destination ++ [124] ++ str_of start
         ++ [124] ++ str_of end_ in
  uuid5_url (Py.lit "agentcore-poc:" ++ base).

(** the identity [save_itinerary] stores under *)
Definition itinerary_id_of (it : item) (userId requestId : pystr) : value :=
  let supplied := get_or it DDB.itineraryId VNull in
  if value_truthy supplied then supplied
  else VStr (_stable_itinerary_id userId
               (get_or it a_destination (VStr []))
               (get_or it a_startDate (VStr []))
               (get_or it a_endDate (VStr []))
               requestId).

(** the dict [save_itinerary] has built when it reaches the store, and the
    identity in it *)
Definition shaped (fresh_uuid4 : pystr) (userId : pystr) (itinerary : option item)
  : item :=
  <[DDB.userId := VStr userId]> (_ensure_itinerary_shape fresh_uuid4 itinerary).

Definition saved_id (fresh_uuid4 : pystr) (userId : pystr)
    (itinerary : option item) (requestId : pystr) : value :=
  itinerary_id_of (shaped fresh_uuid4 userId itinerary) userId requestId.

Definition saved_item (fresh_uuid4 t_now : pystr) (userId : pystr)
    (itinerary : option item) (requestId : pystr) : item :=
  <[a_createdAt := VStr t_now]>
    (<[DDB.itineraryId := saved_id fresh_uuid4 userId itinerary requestId]>
       (shaped fresh_uuid4 userId itinerary)).

Definition save_itinerary (fresh_uuid4 t_now : pystr) (f : DDB.fault)
    (userId : pystr) (itinerary : option item) (requestId : pystr) : M pystr :=
  let id := saved_id fresh_uuid4 userId itinerary requestId in
  let it := saved_item fresh_uuid4 t_now userId itinerary requestId in
  log_info (Py.lit "[tool] save_itinerary(userId=" ++ userId
            ++ Py.lit ", itineraryId=" ++ str_of id ++ Py.lit ")") ;;;
  try_except
    (DDB.put_item_if_absent f it ;;;
     log_info (Py.lit "[tool] save_itinerary -> saved:" ++ str_of id) ;;;
     ret (Py.lit "saved:" ++ str_of id))
    (fun e =>
       match e with
       | ClientError code =>
           Some (if bool_decide (code = DDB.ConditionalCheckFailedException)
                 then log_info (Py.lit "[tool] save_itinerary -> duplicate:"
                                ++ str_of id) ;;;
                      ret (Py.lit "duplicate:" ++ str_of id)
                 else log_exception (Py.lit "[tool] save_itinerary error") e ;;;
                      raise e)
       | OtherError _ => None
       end).

End Builtins.
End DdbTools.

(** ** config.py *)

Module Config.

(** the module constants read from the process environment *)
Record Settings := {
  GATEWAY_URL : pystr;
  GATEWAY_ACCESS_TOKEN : pystr;
  COGNITO_TOKEN_URL : pystr;
  COGNITO_CLIENT_ID : pystr;
  COGNITO_CLIENT_SECRET : pystr;
  COGNITO_SCOPE : pystr
}.

(** the [expires_in] member of the token payload *)
Inductive expires_in_field :=
| ExpAbsent                 (* no such member: the default 300 applies *)
| ExpInt (z : Z)            (* [int(...)] gives [z] *)
| ExpBad (e : exn).         (* [int(...)] raises [e] *)

Record payload := {
  p_access_token : option pystr;   (* [payload.get("access_token")] *)
  p_expires_in : expires_in_field
}.

(** How the token endpoint answers one POST. *)
Inductive token_response :=
| RequestFailed (e : exn)   (* [requests.post] or [raise_for_status] raises *)
| BadBody (e : exn)         (* 2xx, but [resp.json()] or [payload.get] raises *)
| Body (p : payload).       (* 2xx with a JSON object *)

(** an answer on which neither [resp.json()], [payload.get] nor [int(...)]
    raises *)
Definition well_formed (resp : token_response) : bool :=
  match resp with
  | RequestFailed _ => true
  | BadBody _ => false
  | Body p => match p_expires_in p with ExpBad _ => false | _ => true end
  end.

Definition empty_cache : token_cache := {| access_token := None; exp := 0 |}.

Definition cognito_configured (cfg : Settings) : bool :=
  Py.truthy (COGNITO_TOKEN_URL cfg) && Py.truthy (COGNITO_CLIENT_ID cfg)
  && Py.truthy (COGNITO_CLIENT_SECRET cfg).

(** [requests.post(...)] followed by [resp.raise_for_status()]: one
    request leaves the process whatever the answer *)
Definition requests_post (resp : token_response) : M token_response :=
  fun w =>
    let w' := {| tbl := tbl w; logs := logs w; cache := cache w;
                 http_posts := S (http_posts w) |} in
    match resp with
    | RequestFailed e => (Raise e, w')
    | _ => (Ok resp, w')
    end.

Definition store_access_token (tok : option pystr) : M unit :=
  fun w => (Ok tt, set_cache {| access_token := tok; exp := exp (cache w) |} w).

Definition store_exp (e : Z) : M unit :=
  fun w => (Ok tt,
            set_cache {| access_token := access_token (cache w); exp := e |} w).

(** [int(payload.get("expires_in", 300))] *)
Definition expires_in_int (x : expires_in_field) : M Z :=
  match x with
  | ExpAbsent => ret 300%Z
  | ExpInt z => ret z
  | ExpBad e => raise e
  end.

(** [resp] is the endpoint's answer, [t_mint] the reading of
    [int(time.time())] after it arrived *)
Definition _mint_cognito_token (cfg : Settings) (resp : token_response)
    (t_mint : Z) : M pystr :=
  if negb (cognito_configured cfg) then ret []
  else
    r <- try_except
           (x <- requests_post resp ;; ret (Some x))
           (fun e =>
              Some (log_warning (Py.lit "[gateway] failed to mint token via Cognito")
                      (Some e) ;;;
                    ret None)) ;;
    match r with
    | None => ret []
    | Some (RequestFailed e) => raise e
    | Some (BadBody e) => raise e
    | Some (Body p) =>
        store_access_token (p_access_token p) ;;;
        ttl <- expires_in_int (p_expires_in p) ;;
        store_exp (t_mint + ttl - 30)%Z ;;;
        ret (Py.or_empty (p_access_token p))
    end.

(** [now] is the reading of [int(time.time())] on entry *)
Definition get_gateway_access_token (cfg : Settings) (now : Z)
    (resp : token_response) (t_mint : Z) : M pystr :=
  if Py.truthy (GATEWAY_ACCESS_TOKEN cfg) then ret (GATEWAY_ACCESS_TOKEN cfg)
  else
    fun w =>
      if Py.truthy_opt (access_token (cache w)) && (now <? exp (cache w))%Z
      then (Ok (Py.or_empty (access_token (cache w))), w)
      else _mint_cognito_token cfg resp t_mint w.

End Config.

(** ** agent_builder.py *)

Module AgentBuilder.
Section Gateway.

(** [repr] of a value that is not a string, left abstract. *)
Variable py_repr : value -> pystr.

(** A tool as the gateway lists it: what [getattr(t, "tool_name", None)]
    gives, and the [tool_spec] attribute when there is one. *)
Record descriptor := { tool_name : value; tool_spec : option value }.

(** The proxy [_wrap_mcp_tool] returns, by the arguments it was
    decorated with. *)
Record proxy := { px_name : pystr; px_schema : value; px_description : value }.

(** The [strands.tool] decorator, left abstract: the exception it raises
    on these arguments, if it rejects them. *)
Variable tool_rejects : pystr -> value -> value -> option exn.

(** The MCP client, by what it was built from. *)
Record client := { c_url : pystr; c_token : pystr }.

(** How the gateway answers [with client as mcp: mcp.list_tools_sync()]. *)
Inductive listing :=
| ListFailed (e : exn)
| Listed (tools : option (list descriptor)).

(** [tools or []] *)
Definition or_nil (tools : option (list descriptor)) : list descriptor :=
  match tools with Some l => l | None => [] end.

(** [mcp_available]: the imports of [MCPClient] and
    [streamablehttp_client] succeeded *)
Definition _mcp_client_or_none (mcp_available : bool) (cfg : Config.Settings)
    (now : Z) (resp : Config.token_response) (t_mint : Z) : M (option client) :=
  if negb mcp_available then
    log_debug (Py.lit "[gateway] MCP libraries unavailable; cannot create client") ;;;
    ret None
  else if negb (Py.truthy (Config.GATEWAY_URL cfg)) then
    log_debug (Py.lit "[gateway] GATEWAY_URL unset; skipping gateway tools") ;;;
    ret None
  else
    log_debug (Py.lit "[gateway] preparing MCP client for " ++ Config.GATEWAY_URL cfg) ;;;
    token <- Config.get_gateway_access_token cfg now resp t_mint ;;
    if negb (Py.truthy token) then
      log_warning
        (Py.lit "[gateway] no access token available; proceeding without gateway tools")
        None ;;;
      ret None
    else
      log_debug (Py.lit "[gateway] MCP client instantiated successfully") ;;;
      ret (Some {| c_url := Config.GATEWAY_URL cfg; c_token := token |}).

Definition default_schema : value :=
  VMap [(Py.lit "type", VStr (Py.lit "object")); (Py.lit "properties", VMap [])].

Definition _wrap_mcp_tool (name : pystr) (schema description : value) : M proxy :=
  let schema := if value_truthy schema then schema else default_schema in
  let description :=
    if value_truthy description then description
    else VStr (Py.lit "MCP tool proxy for " ++ name) in
  match tool_rejects name schema description with
  | Some e => raise e
  | None =>
      log_debug (Py.lit "[gateway] wrapped MCP tool " ++ name) ;;;
      ret {| px_name := name; px_schema := schema; px_description := description |}
  end.

(** [spec.get(k)]: a dict answers with the member or [None]; anything else
    has no [get]. *)
Fixpoint assoc (m : list (pystr * value)) (k : pystr) : value :=
  match m with
  | [] => VNull
  | (k', v) :: m' => if bool_decide (k' = k) then v else assoc m' k
  end.

Definition spec_get (spec : value) (k : pystr) : M value :=
  match spec with
  | VMap m => ret (assoc m k)
  | _ => raise (OtherError (Py.lit "AttributeError"))
  end.

(** the names the first loop collects *)
Definition named (tools : list descriptor) : list pystr :=
  omap (fun t => match tool_name t with VStr n => Some n | _ => None end) tools.

(** body of the second loop for one descriptor, [wrapped] being the list
    built so far *)
Definition wrap_one (d : descriptor) (wrapped : list proxy) : M (list proxy) :=
  try_except
    (match tool_name d with
     | VStr name =>
         let spec :=
           match tool_spec d with
           | Some s => if value_truthy s then s else VMap []
           | None => VMap []
           end in
         s1 <- spec_get spec (Py.lit "inputSchema") ;;
         schema <- (if value_truthy s1 then ret s1
                    else spec_get spec (Py.lit "input_schema")) ;;
         description <- spec_get spec (Py.lit "description") ;;
         px <- _wrap_mcp_tool name schema description ;;
         ret (wrapped ++ [px])
     | _ => ret wrapped
     end)
    (fun e =>
       Some (log_exception
               (Py.lit "[gateway] failed to wrap tool "
                ++ match tool_name d with VStr n => n | v => py_repr v end) e ;;;
             ret wrapped)).

(** The proxy a descriptor yields when every step of the loop body
    succeeds on it, as a pure function: [None] for a descriptor the loop
    skips. *)
Definition wrappable (d : descriptor) : option proxy :=
  match tool_name d with
  | VStr name =>
      match (match tool_spec d with
             | Some s => if value_truthy s then s else VMap []
             | None => VMap []
             end) with
      | VMap m =>
          let s1 := assoc m (Py.lit "inputSchema") in
          let schema := if value_truthy s1 then s1 else assoc m (Py.lit "input_schema") in
          let description := assoc m (Py.lit "description") in
          let schema := if value_truthy schema then schema else default_schema in
          let description :=
            if value_truthy description then description
            else VStr (Py.lit "MCP tool proxy for " ++ name) in
          match tool_rejects name schema description with
          | None => Some {| px_name := name; px_schema := schema;
                            px_description := description |}
          | Some _ => None
          end
      | _ => None
      end
  | _ => None
  end.

Fixpoint wrap_all (tools : list descriptor) (wrapped : list proxy)
  : M (list proxy) :=
  match tools with
  | [] => ret wrapped
  | d :: rest => wrapped' <- wrap_one d wrapped ;; wrap_all rest wrapped'
  end.

Definition discover_gateway_tools (mcp_available : bool) (cfg : Config.Settings)
    (now : Z) (resp : Config.token_response) (t_mint : Z) (answer : listing)
  : M (list proxy) :=
  log_debug (Py.lit "[gateway] attempting to discover available tools") ;;;
  c <- _mcp_client_or_none mcp_available cfg now resp t_mint ;;
  match c with
  | None =>
      log_debug (Py.lit "[gateway] MCP client unavailable; returning no extra tools") ;;;
      ret []
  | Some _ =>
      match answer with
      | ListFailed e =>
          log_exception (Py.lit "[gateway] failed to list tools") e ;;;
          ret []
      | Listed tools =>
          log_debug (Py.lit "[gateway] list_tools_sync returned "
                     ++ Py.str_of_nat (length (or_nil tools))
                     ++ Py.lit " record(s)") ;;;
          let names := named (or_nil tools) in
          (match names with
           | [] => log_info (Py.lit "[gateway] list_tools_sync returned no named tools")
           | _ => log_info (Py.lit "[gateway] tools discovered: "
                            ++ py_repr (VList (List.map VStr names)))
           end) ;;;
          wrap_all (or_nil tools) []
      end
  end.

End Gateway.
End AgentBuilder.

(** ** What a reader of the table observes *)

Module Observe.

(** the job record of (owner, request) *)
Definition job_record (w : World) (user_id request_id : pystr) : option item :=
  tbl w !! (user_id, Jobs._job_sk request_id).

(** an attribute of the job record *)
Definition job_attr (w : World) (user_id request_id a : pystr) : option value :=
  job_record w user_id request_id ≫= (fun it => it !! a).

(** the list an append extends: the stored [progress], or the empty list
    when the record or the attribute is absent; [None] when the attribute
    is not a list *)
Definition progress_or_empty (w : World) (user_id request_id : pystr)
  : option (list value) :=
  match job_attr w user_id request_id Jobs.a_progress with
  | None => Some []
  | Some (VList l) => Some l
  | Some _ => None
  end.

(** the item an unconditional update starts from *)
Definition item_or_key (w : World) (k : pystr * pystr) : item :=
  match tbl w !! k with
  | Some it => it
  | None => <[DDB.userId := VStr (fst k)]> (<[DDB.itineraryId := VStr (snd k)]> ∅)
  end.

(** the record after the store served an append of [entry] to the list
    [old], and the world with it *)
Definition appended_item (before : item) (old : list value) (entry t_now : pystr)
  : item :=
  <[Jobs.a_updatedAt := VStr t_now]>
    (<[Jobs.a_progress := VList (old ++ [VStr entry])]> before).

Definition appended (w : World) (user_id request_id : pystr)
    (old : list value) (entry t_now : pystr) : World :=
  let k := (user_id, Jobs._job_sk request_id) in
  set_tbl (<[k := appended_item (item_or_key w k) old entry t_now]> (tbl w)) w.

(** the record after the store served a completion *)
Definition completed_item (before : item) (t_now status : pystr)
    (final_message itinerary_id : option pystr) : item :=
  let it :=
    <[Jobs.a_updatedAt := VStr t_now]>
      (<[Jobs.a_completedAt := VStr t_now]>
         (<[Jobs.a_status := VStr status]> before)) in
  let it :=
    if Py.truthy_opt final_message
    then <[Jobs.a_finalMessage :=
             VStr (Py.slice_to 180000 (Py.or_empty final_message))]> it
    else it in
  if Py.truthy_opt itinerary_id
  then <[Jobs.a_resultItineraryId := VStr (Py.or_empty itinerary_id)]> it
  else it.

Definition with_log (w : World) (r : log_record) : World :=
  {| tbl := tbl w; logs := logs w ++ [r]; cache := cache w;
     http_posts := http_posts w |}.

(** the token cache holds [tok] and the clock reading [now] is before its
    expiry *)
Definition cache_serves (w : World) (now : Z) (tok : pystr) : Prop :=
  access_token (cache w) = Some tok /\ tok <> [] /\ (now < exp (cache w))%Z.

End Observe.

(** Trimming, as the specification words it: [core] is [line] without its
    surrounding whitespace. *)
Definition is_trim_of (line core : pystr) : Prop :=
  exists a b : pystr,
    line = a ++ core ++ b
    /\ Forall (fun c => Py.isspace c = true) a
    /\ Forall (fun c => Py.isspace c = true) b
    /\ (forall c, head core = Some c -> Py.isspace c = false)
    /\ (forall c, last core = Some c -> Py.isspace c = false).

(** Concrete inputs used in the examples below. *)
Module Sample.

Definition w0 : World :=
  {| tbl := ∅; logs := []; cache := Config.empty_cache; http_posts := 0 |}.

Definition u1 : pystr := Eval cbv in Py.lit "u1".
Definition r1 : pystr := Eval cbv in Py.lit "r1".
Definition t0 : pystr := Eval cbv in Py.lit "2025-12-14T09:05:58.000001".
Definition t1 : pystr := Eval cbv in Py.lit "2025-12-14T09:05:59.000002".
Definition t2 : pystr := Eval cbv in Py.lit "2025-12-14T09:06:00.000003".
Definition tm0 : Py.struct_time :=
  {| Py.tm_hour := 9; Py.tm_min := 5; Py.tm_sec := 59 |}.

Definition status_line : pystr := Eval cbv in Py.lit "  STATUS: planning  ".
Definition tool_hash_line : pystr := Eval cbv in Py.lit "Tool #1: http_request".

Definition handler : Jobs.JobProgressHandler :=
  {| Jobs.h_user_id := u1; Jobs.h_request_id := r1 |}.

(** the settings with no static token; the Cognito settings are set *)
Definition cfg0 : Config.Settings :=
  {| Config.GATEWAY_URL := Py.lit "https://gateway.example/mcp";
     Config.GATEWAY_ACCESS_TOKEN := [];
     Config.COGNITO_TOKEN_URL := Py.lit "https://auth.example/oauth2/token";
     Config.COGNITO_CLIENT_ID := Py.lit "client";
     Config.COGNITO_CLIENT_SECRET := Py.lit "secret";
     Config.COGNITO_SCOPE := [] |}.

Definition tok1 : pystr := Eval cbv in Py.lit "eyJ.one".
Definition tok2 : pystr := Eval cbv in Py.lit "eyJ.two".

Definition granted (tok : pystr) (ttl : Z) : Config.token_response :=
  Config.Body {| Config.p_access_token := Some tok;
                 Config.p_expires_in := Config.ExpInt ttl |}.

(** two draws of [uuid.uuid4()] *)
Definition uuid_a : pystr :=
  Eval cbv in Py.lit "0b0e7a3c-5a8e-4d0c-9a51-1c2d3e4f5a6b".
Definition uuid_b : pystr :=
  Eval cbv in Py.lit "7f3c2b1a-9d8e-4c7b-8a6f-5e4d3c2b1a09".

(** an itinerary without an [itineraryId] *)
Definition kyoto : item :=
  <[DdbTools.a_destination := VStr (Py.lit "Kyoto")]> ∅.

(** the same with an empty [itineraryId] *)
Definition kyoto_blank_id : item :=
  <[DDB.itineraryId := VStr []]> kyoto.

End Sample.

(** ** ddb_tools.py: reading back *)

Module Query.

(** DynamoDB orders string sort keys by their UTF-8 bytes; on code points
    that is the lexicographic order. *)
Fixpoint key_le (a b : pystr) : bool :=
  match a, b with
  | [], _ => true
  | _ :: _, [] => false
  | x :: a', y :: b' =>
      if x <? y then true else if y <? x then false else key_le a' b'
  end.

(** [ScanIndexForward=False]: the higher sort key comes first *)
Definition newer_first (p q : pystr * item) : Prop :=
  key_le (fst q) (fst p) = true.

Global Instance newer_first_dec (p q : pystr * item) : Decision (newer_first p q).
Proof. unfold newer_first. apply _. Defined.

(** the records of one owner, each with its sort key *)
Definition owned (t : table) (userId : pystr) : list (pystr * item) :=
  omap (fun kv : pystr * pystr * item =>
          if bool_decide (fst (fst kv) = userId)
          then Some (snd (fst kv), snd kv) else None)
       (map_to_list t).

(** the partition of [userId] as a query walks it *)
Definition partition (t : table) (userId : pystr) : list (pystr * item) :=
  merge_sort newer_first (owned t userId).

(** how an f-string renders an [int] *)
Definition str_of_int (z : Z) : pystr :=
  Py.lit (NilZero.string_of_int (Z.to_int z)).

(** [table.query(KeyConditionExpression=Key("userId").eq(userId),
       Limit=limit, ScanIndexForward=False)], first page only: [page] is the
    number of records the service puts on that page (it stops at 1 MB).
    A [Limit] below 1 is refused before the request is sent. *)
Definition query (f : DDB.fault) (page : nat) (userId : pystr) (limit : Z)
  : M (list (pystr * item)) :=
  fun w =>
    if (limit <? 1)%Z then (Raise (OtherError (Py.lit "ParamValidationError")), w)
    else
      match f with
      | DDB.Fault e => (Raise e, w)
      | DDB.NoFault =>
          (Ok (take (Nat.min (Z.to_nat limit) page) (partition (tbl w) userId)), w)
      end.

(** [get_itineraries]; the rows are returned with their sort key, the
    caller sees the items ([snd]) *)
Definition get_itineraries_rows (f : DDB.fault) (page : nat) (userId : pystr)
    (limit : Z) : M (list (pystr * item)) :=
  log_info (Py.lit "[tool] get_itineraries(userId=" ++ userId
            ++ Py.lit ", limit=" ++ str_of_int limit ++ Py.lit ")") ;;;
  rows <- query f page userId limit ;;
  log_info (Py.lit "[tool] get_itineraries -> "
            ++ Py.str_of_nat (length rows) ++ Py.lit " item(s)") ;;;
  ret rows.

Definition get_itineraries (f : DDB.fault) (page : nat) (userId : pystr)
    (limit : Z) : M (list item) :=
  rows <- get_itineraries_rows f page userId limit ;;
  ret (List.map snd rows).

End Query.

(** ** A job's run of progress appends *)

Module Run.

(** one call of [append_progress] for the job: the local time and the
    [iso_now()] it reads, the answer of the store, and the line *)
Record append_call := {
  ac_tm : Py.struct_time;
  ac_now : pystr;
  ac_fault : DDB.fault;
  ac_line : pystr
}.

(** the calls made one after the other *)
Fixpoint append_all (user_id request_id : pystr) (calls : list append_call)
    (w : World) : World :=
  match calls with
  | [] => w
  | c :: rest =>
      append_all user_id request_id rest
        (snd (Jobs.append_progress (ac_tm c) (ac_now c) (ac_fault c)
                user_id request_id (VStr (ac_line c)) w))
  end.

(** what a call adds to the list: nothing for a blank line or a failed
    store, else the stamped, capped line *)
Definition entry_of (c : append_call) : option value :=
  match ac_fault c with
  | DDB.Fault _ => None
  | DDB.NoFault =>
      if Py.truthy (Py.strip (ac_line c))
      then Some (VStr (Jobs.stamped (ac_tm c) (Jobs.cap_line (Py.strip (ac_line c)))))
      else None
  end.

End Run.

(** More concrete inputs. *)
Module Sample2.

(** a run: a line, a blank line, a line the store fails, a line *)
Definition calls : list Run.append_call :=
  [ {| Run.ac_tm := Sample.tm0; Run.ac_now := Sample.t0;
       Run.ac_fault := DDB.NoFault; Run.ac_line := Sample.status_line |};
    {| Run.ac_tm := Sample.tm0; Run.ac_now := Sample.t1;
       Run.ac_fault := DDB.NoFault; Run.ac_line := Py.lit "   " |};
    {| Run.ac_tm := Sample.tm0; Run.ac_now := Sample.t1;
       Run.ac_fault := DDB.Fault (ClientError (Py.lit "ThrottlingException"));
       Run.ac_line := Py.lit "TOOL: lost" |};
    {| Run.ac_tm := Sample.tm0; Run.ac_now := Sample.t2;
       Run.ac_fault := DDB.NoFault; Run.ac_line := Sample.tool_hash_line |} ].

(** a table whose job record carries a string where the list should be *)
Definition w_bad_progress : World :=
  set_tbl
    (<[(Sample.u1, Jobs._job_sk Sample.r1) :=
         <[Jobs.a_progress := VStr (Py.lit "oops")]> ∅]> ∅)
    Sample.w0.

(** a job created and completed *)
Definition w_completed : World :=
  snd (Jobs.complete_job Sample.t1 DDB.NoFault Sample.u1 Sample.r1
         Jobs.SUCCEEDED (Some (Py.lit "done")) None
         (snd (Jobs.create_job Sample.t0 Sample.t0 DDB.NoFault
                 Sample.u1 Sample.r1 None None Sample.w0))).

(** the world after a grant of [tok1] for 300 s read at clock 1001 *)
Definition w_cached : World :=
  snd (Config.get_gateway_access_token Sample.cfg0 1000
         (Sample.granted Sample.tok1 300) 1001 Sample.w0).

(** the settings with the client secret emptied *)
Definition cfg_no_secret : Config.Settings :=
  {| Config.GATEWAY_URL := Config.GATEWAY_URL Sample.cfg0;
     Config.GATEWAY_ACCESS_TOKEN := [];
     Config.COGNITO_TOKEN_URL := Config.COGNITO_TOKEN_URL Sample.cfg0;
     Config.COGNITO_CLIENT_ID := Config.COGNITO_CLIENT_ID Sample.cfg0;
     Config.COGNITO_CLIENT_SECRET := [];
     Config.COGNITO_SCOPE := [] |}.

(** stand-ins for the two abstract built-ins, for closed examples *)
Definition uuid5_stub (name : pystr) : pystr := Py.lit "uuid5:" ++ name.
Definition repr_stub (v : value) : pystr := Py.lit "<repr>".
Definition accept_all (name : pystr) (schema description : value) : option exn :=
  None.

End Sample2.

(** ** agent_builder.py: the proxy and the agent *)

Module GatewayProxy.
Section Invocation.

(** The gateway's answer to [mcp.call_tool_sync(tool_use_id=.., name=..,
    arguments=..)] inside [with client as mcp], as a function of what it is
    sent. *)
Variable call_tool_sync :
  AgentBuilder.client -> value -> pystr -> option (list (pystr * value))
  -> result value.

(** [d.get(k)] telling an absent key from a stored [None] *)
Fixpoint find (d : list (pystr * value)) (k : pystr) : option value :=
  match d with
  | [] => None
  | (k', v) :: d' => if bool_decide (k' = k) then Some v else find d' k
  end.

(** [tool_context.get("tool_use", {}).get("toolUseId")] *)
Definition context_tool_use_id (tool_context : list (pystr * value)) : M value :=
  match find tool_context (Py.lit "tool_use") with
  | None => ret VNull
  | Some (VMap m) => ret (AgentBuilder.assoc m (Py.lit "toolUseId"))
  | Some _ => raise (OtherError (Py.lit "AttributeError"))
  end.

(** The function [_wrap_mcp_tool] returns, called with [tool_context] and
    the keyword arguments [kwargs]. The first five arguments are what the
    token acquisition reads; [fresh_uuid4] is [new_uuid()], drawn only when
    the context gives no id. *)
Definition _gateway_proxy (px : AgentBuilder.proxy)
    (mcp_available : bool) (cfg : Config.Settings) (now : Z)
    (resp : Config.token_response) (t_mint : Z) (fresh_uuid4 : pystr)
    (tool_context kwargs : list (pystr * value)) : M value :=
  c <- AgentBuilder._mcp_client_or_none mcp_available cfg now resp t_mint ;;
  match c with
  | None => raise (OtherError (Py.lit "RuntimeError"))
  | Some client =>
      from_context <- context_tool_use_id tool_context ;;
      let tool_use_id :=
        if value_truthy from_context then from_context else VStr fresh_uuid4 in
      let arguments := match kwargs with [] => None | _ => Some kwargs end in
      try_except
        (fun w => (call_tool_sync client tool_use_id (AgentBuilder.px_name px)
                     arguments, w))
        (fun e =>
           Some (log_exception
                   (Py.lit "[gateway] tool " ++ AgentBuilder.px_name px
                    ++ Py.lit " failed") e ;;;
                 raise e))
  end.

End Invocation.
End GatewayProxy.

(** ** entrypoint.py *)

Module Entrypoint.
Section Runtime.

Variable py_repr : value -> pystr.
Variable tool_rejects : pystr -> value -> value -> option exn.

(** a tool of the agent: one of the three built in, or a gateway proxy *)
Inductive tool_ref :=
| Baseline (name : pystr)
| Gateway (px : AgentBuilder.proxy).

(** The agent, by what [build_agent] passes to its constructor: the tools
    and, when the conversation manager is there, its window size. *)
Record agent := { ag_tools : list tool_ref; ag_window : option nat }.

Definition baseline_tools : list tool_ref :=
  [Baseline (Py.lit "http_request"); Baseline (Py.lit "save_itinerary");
   Baseline (Py.lit "get_itineraries")].

(** the exceptions the three constructors raise on this call, if any *)
Record ctor_faults := {
  bedrock_fails : option exn;     (* BedrockModel(...) *)
  manager_fails : option exn;     (* SlidingWindowConversationManager(...) *)
  agent_fails : option exn        (* Agent(...) *)
}.

Definition construct (fails : option exn) : M unit :=
  match fails with Some e => raise e | None => ret tt end.

(** [swcm_available]: the import of the conversation manager succeeded *)
Definition build_agent (swcm_available : bool) (cf : ctor_faults)
    (extra_tools : option (list AgentBuilder.proxy)) : M agent :=
  let extra := match extra_tools with Some l => l | None => [] end in
  log_debug (Py.lit "[agent] building agent with "
             ++ Py.str_of_nat (length extra) ++ Py.lit " gateway tool(s)") ;;;
  construct (bedrock_fails cf) ;;;
  (match extra with
   | [] => log_debug (Py.lit "[agent] using baseline tool set only")
   | _ => log_debug (Py.lit "[agent] appending " ++ Py.str_of_nat (length extra)
                     ++ Py.lit " gateway tool(s) to baseline set")
   end) ;;;
  let tools := baseline_tools ++ List.map Gateway extra in
  window <- (if swcm_available
             then construct (manager_fails cf) ;;;
                  log_debug (Py.lit "[agent] SlidingWindowConversationManager enabled") ;;;
                  ret (Some 18%nat)
             else log_debug (Py.lit "[agent] SlidingWindowConversationManager unavailable; proceeding without it") ;;;
                  ret None) ;;
  construct (agent_fails cf) ;;;
  ret {| ag_tools := tools; ag_window := window |}.

(** [_agent_for_request]; [baseline] is the module's [_baseline_agent] *)
Definition _agent_for_request (baseline : agent)
    (mcp_available : bool) (cfg : Config.Settings) (now : Z)
    (resp : Config.token_response) (t_mint : Z) (answer : AgentBuilder.listing)
    (swcm_available : bool) (cf : ctor_faults) : M agent :=
  extra_tools <- AgentBuilder.discover_gateway_tools py_repr tool_rejects
                   mcp_available cfg now resp t_mint answer ;;
  match extra_tools with
  | [] =>
      log_debug (Py.lit "[invoke] using baseline agent (no gateway tools available)") ;;;
      ret baseline
  | _ =>
      log_debug (Py.lit "[invoke] rebuilding agent with "
                 ++ Py.str_of_nat (length extra_tools) ++ Py.lit " gateway tool(s)") ;;;
      try_except
        (build_agent swcm_available cf (Some extra_tools))
        (fun e =>
           Some (log_exception
                   (Py.lit "[gateway] failed to build agent with extra tools; falling back to baseline")
                   e ;;;
                 ret baseline))
  end.

(** The run of the agent on a prompt: what [str(result)] is ([None] when
    the result is [None]) or the exception it raises, and what it does to
    the world through its tools. *)
Variable run_agent : agent -> pystr -> M (option pystr).

(** [str(exc)] and [traceback.format_exc()] for a caught exception *)
Variable str_exc : exn -> pystr.
Variable format_exc : exn -> pystr.

Definition str_of (v : value) : pystr :=
  match v with VStr s => s | _ => py_repr v end.

(** [payload.get(k, default)] *)
Definition get_or (payload : list (pystr * value)) (k : pystr) (default : value)
  : value :=
  match GatewayProxy.find payload k with
  | Some v => v
  | None => default
  end.

Definition k_result : pystr := Eval cbv in Py.lit "result".
Definition k_userId : pystr := Eval cbv in Py.lit "userId".
Definition k_requestId : pystr := Eval cbv in Py.lit "requestId".
Definition k_message : pystr := Eval cbv in Py.lit "message".
Definition k_error : pystr := Eval cbv in Py.lit "error".
Definition k_trace : pystr := Eval cbv in Py.lit "trace".

(** [invoke]; [fresh_a], [fresh_b] are the two [uuid.uuid4()] drawn for the
    defaults of userId and requestId *)
Definition invoke (baseline : agent) (fresh_a fresh_b : pystr)
    (aws_region ddb_region : pystr)
    (mcp_available : bool) (cfg : Config.Settings) (now : Z)
    (resp : Config.token_response) (t_mint : Z) (answer : AgentBuilder.listing)
    (swcm_available : bool) (cf : ctor_faults)
    (payload : list (pystr * value)) : M item :=
  let user_id := get_or payload (Py.lit "userId") (VStr (Py.lit "u-" ++ fresh_a)) in
  let request_id := get_or payload (Py.lit "requestId") (VStr fresh_b) in
  let destination := get_or payload (Py.lit "destination") (VStr []) in
  let start_date := get_or payload (Py.lit "startDate") (VStr []) in
  let end_date := get_or payload (Py.lit "endDate") (VStr []) in
  let prefs := get_or payload (Py.lit "preferences") (VStr []) in
  let prompt := get_or payload (Py.lit "prompt") VNull in
  let nl_query :=
    if value_truthy prompt then str_of prompt
    else Py.lit "Plan a trip to " ++ str_of destination ++ Py.lit " from "
         ++ str_of start_date ++ Py.lit " to " ++ str_of end_date
         ++ Py.lit ". Preferences: " ++ str_of prefs in
  log_info (Py.lit "[invoke] userId=" ++ str_of user_id ++ Py.lit " requestId="
            ++ str_of request_id ++ Py.lit " region=" ++ aws_region
            ++ Py.lit " ddb_region=" ++ ddb_region) ;;;
  log_info (Py.lit "[invoke] nl_query=" ++ nl_query) ;;;
  log_debug (Py.lit "[invoke] destination=" ++ str_of destination
             ++ Py.lit " start=" ++ str_of start_date ++ Py.lit " end="
             ++ str_of end_date ++ Py.lit " prefs=" ++ str_of prefs) ;;;
  let context :=
    Py.lit "UserId: " ++ str_of user_id ++ [10]
    ++ Py.lit "RequestId: " ++ str_of request_id ++ [10]
    ++ Py.lit "Destination: " ++ str_of destination ++ [10]
    ++ Py.lit "Dates: " ++ str_of start_date ++ Py.lit " to " ++ str_of end_date
    ++ [10]
    ++ Py.lit "Preferences: " ++ str_of prefs ++ [10; 10]
    ++ Py.lit "Follow the protocol; emit STATUS/TOOL lines; call save_itinerary exactly once." in
  agent <- _agent_for_request baseline mcp_available cfg now resp t_mint answer
             swcm_available cf ;;
  try_except
    (result <- run_agent agent (context ++ [10; 10] ++ Py.lit "User request: "
                                ++ nl_query) ;;
     ret (<[k_result := VStr (Py.lit "ok")]>
          (<[k_userId := user_id]>
          (<[k_requestId := request_id]>
          (<[k_message := VStr (Py.or_empty result)]> ∅)))))
    (fun e =>
       Some (log_at ERROR (Py.lit "[invoke] error") (Some e) ;;;
             ret (<[k_result := VStr (Py.lit "error")]>
                  (<[k_error := VStr (str_exc e)]>
                  (<[k_trace := VStr (Py.slice_to 3800 (format_exc e))]>
                  (<[k_userId := user_id]>
                  (<[k_requestId := request_id]> ∅))))))).

End Runtime.
End Entrypoint.

(** ** streamlit_app.py: the trace shown to the user *)

Module Streamlit.

Definition trace_prefixes : list pystr :=
  Eval cbv in
    [Py.lit "STATUS:"; Py.lit "TOOL:"; Py.lit "TOOL_RESULT:"; Py.lit "RESULT:"].

Definition has_trace_prefix (line : pystr) : bool :=
  existsb (Py.startswith line) trace_prefixes.

(** the pieces of [s] between line feeds; there is always one *)
Fixpoint lines_lf (cur s : pystr) : list pystr :=
  match s with
  | [] => [cur]
  | c :: s' => if c =? 10 then cur :: lines_lf [] s' else lines_lf (cur ++ [c]) s'
  end.

(** [TRACE_PATTERN], [^(STATUS|TOOL|TOOL_RESULT|RESULT):.*] with
    [re.MULTILINE]: [^] matches at the start of the text and after every
    line feed, [.] matches everything but a line feed. Its matches are the
    line-feed-delimited lines that start with one of the four words and a
    colon, each whole. *)
Definition trace_matches (text : pystr) : list pystr :=
  List.filter has_trace_prefix (lines_lf [] text).

(** the line boundaries of [str.splitlines] *)
Definition is_linebreak (c : N) : bool :=
  ((10 <=? c) && (c <=? 13)) || ((28 <=? c) && (c <=? 30))
  || (c =? 133) || (c =? 8232) || (c =? 8233).

(** [s.splitlines()]: a carriage return followed by a line feed is one
    boundary, and a boundary at the very end opens no empty last line *)
Fixpoint splitlines_from (cur s : pystr) : list pystr :=
  match s with
  | [] => match cur with [] => [] | _ => [cur] end
  | c :: s' =>
      if is_linebreak c then
        cur :: match s' with
               | d :: s'' =>
                   if (c =? 13) && (d =? 10) then splitlines_from [] s''
                   else splitlines_from [] s'
               | [] => splitlines_from [] s'
               end
      else splitlines_from (cur ++ [c]) s'
  end.

Definition splitlines (s : pystr) : list pystr := splitlines_from [] s.

(** [l] occurs in [text] as a contiguous piece *)
Definition part_of (l text : pystr) : Prop :=
  exists a b, text = a ++ l ++ b.

Definition extract_trace (final_text : pystr) : list pystr :=
  if negb (Py.truthy final_text) then []
  else
    match trace_matches final_text with
    | (_ :: _) as matches => matches
    | [] =>
        omap (fun line =>
                let stripped := Py.strip line in
                if has_trace_prefix stripped then Some stripped else None)
             (splitlines final_text)
    end.

End Streamlit.

(** ** tail_logs.py *)

Module TailLogs.

(** one event of [filter_log_events] *)
Record event := { timestamp : Z; message : pystr }.

(** The [for] loop of [tail] over one page of events, from the
    [start_time] it is entered with: the lines printed, and [start_time]
    after it. *)
Fixpoint page_step (printed : list pystr) (start_time : Z) (events : list event)
  : list pystr * Z :=
  match events with
  | [] => (printed, start_time)
  | ev :: rest =>
      page_step (printed ++ [Py.rstrip (message ev)])
        (if (start_time <? timestamp ev + 1)%Z then (timestamp ev + 1)%Z
         else start_time)
        rest
  end.

(** the iterations of the [while] loop over the pages the service returns
    one after the other *)
Fixpoint tail_pages (printed : list pystr) (start_time : Z)
    (pages : list (list event)) : list pystr * Z :=
  match pages with
  | [] => (printed, start_time)
  | page :: rest =>
      let '(printed', start_time') := page_step printed start_time page in
      tail_pages printed' start_time' rest
  end.

End TailLogs.

(** Concrete inputs for the proxy and the tail. *)
Module Sample3.

(** a gateway that answers every call with the name of the tool *)
Definition echo_gateway (c : AgentBuilder.client) (tool_use_id : value)
    (name : pystr) (arguments : option (list (pystr * value))) : result value :=
  Ok (VStr name).

Definition geoname : AgentBuilder.proxy :=
  {| AgentBuilder.px_name := Py.lit "otmGeoname";
     AgentBuilder.px_schema := AgentBuilder.default_schema;
     AgentBuilder.px_description := VStr (Py.lit "MCP tool proxy for otmGeoname") |}.

Definition listed : AgentBuilder.listing :=
  AgentBuilder.Listed
    (Some [ {| AgentBuilder.tool_name := VStr (Py.lit "otmGeoname");
               AgentBuilder.tool_spec := None |};
            {| AgentBuilder.tool_name := VNull;
               AgentBuilder.tool_spec := None |} ]).

End Sample3.

(** * Properties *)

(** ** Python strings *)

Section PyFacts.

Lemma lstrip_split (s : pystr) :
  exists a, s = a ++ Py.lstrip s /\ Forall (fun c => Py.isspace c = true) a.
Proof.
  induction s as [|c s IH]; simpl.
  - exists []. split; [reflexivity | constructor].
  - destruct (Py.isspace c) eqn:Hc.
    + destruct IH as (a & Heq & Ha).
      exists (c :: a). split; [simpl; congruence | constructor; assumption].
    + exists []. split; [reflexivity | constructor].
Qed.

Lemma lstrip_head (s : pystr) (c : N) :
  head (Py.lstrip s) = Some c -> Py.isspace c = false.
Proof.
  induction s as [|x s IH]; simpl; [discriminate |].
  destruct (Py.isspace x) eqn:Hx; [exact IH |].
  simpl. intros [= <-]. exact Hx.
Qed.

Lemma last_rev_head (s : pystr) : last (rev s) = head s.
Proof.
  destruct s as [|x s]; [reflexivity |].
  simpl. rewrite last_snoc. reflexivity.
Qed.

Lemma rstrip_split (s : pystr) :
  exists b, s = Py.rstrip s ++ b /\ Forall (fun c => Py.isspace c = true) b.
Proof.
  unfold Py.rstrip.
  destruct (lstrip_split (rev s)) as (a & Heq & Ha).
  exists (rev a). split.
  - rewrite <- rev_app_distr, <- Heq, rev_involutive. reflexivity.
  - apply Forall_forall. intros c Hc.
    rewrite Forall_forall in Ha. apply Ha.
    apply list_elem_of_In. apply in_rev. apply list_elem_of_In. exact Hc.
Qed.

Lemma rstrip_last (s : pystr) (c : N) :
  last (Py.rstrip s) = Some c -> Py.isspace c = false.
Proof.
  unfold Py.rstrip. rewrite last_rev_head. apply lstrip_head.
Qed.

Lemma rstrip_head (s : pystr) (c : N) :
  head (Py.rstrip s) = Some c -> head s = Some c.
Proof.
  destruct (rstrip_split s) as (b & Heq & _).
  intros H. rewrite Heq.
  destruct (Py.rstrip s) as [|x t]; [discriminate |]. exact H.
Qed.

(** [strip] computes the trimmed line. *)
Lemma strip_is_trim (line : pystr) : is_trim_of line (Py.strip line).
Proof.
  unfold is_trim_of, Py.strip.
  destruct (lstrip_split line) as (a & Ha & Hwa).
  destruct (rstrip_split (Py.lstrip line)) as (b & Hb & Hwb).
  exists a, b. repeat split; try assumption.
  - rewrite <- Hb. exact Ha.
  - intros c Hc. apply rstrip_head in Hc. apply lstrip_head in Hc. exact Hc.
  - apply rstrip_last.
Qed.

Lemma strip_nil : Py.strip [] = [].
Proof. reflexivity. Qed.

Lemma truthy_nonempty (s : pystr) : Py.truthy s = true <-> s <> [].
Proof. destruct s; simpl; split; congruence. Qed.

Lemma startswith_prefix (s p : pystr) :
  Py.startswith s p = true <-> p `prefix_of` s.
Proof.
  revert s. induction p as [|a p IH]; intros s; simpl.
  - split; [intros _; apply prefix_nil | reflexivity].
  - destruct s as [|b s].
    + split; [discriminate |]. intros [k Hk]. discriminate.
    + rewrite andb_true_iff, N.eqb_eq, IH. split.
      * intros [-> Hp]. apply prefix_cons. exact Hp.
      * intros [k Hk]. simpl in Hk. injection Hk as -> ->.
        split; [reflexivity | exists k; reflexivity].
Qed.

Lemma two_digits_length (n : N) : length (Py.two_digits n) = 2%nat.
Proof. reflexivity. Qed.

Lemma strftime_HMS_length (tm : Py.struct_time) :
  length (Py.strftime_HMS tm) = 8%nat.
Proof. reflexivity. Qed.

(** the stamp starts with a digit *)
Lemma strftime_HMS_head (tm : Py.struct_time) :
  exists c rest, Py.strftime_HMS tm = c :: rest /\ Py.isspace c = false.
Proof.
  unfold Py.strftime_HMS, Py.two_digits. simpl.
  eexists _, _. split; [reflexivity |].
  assert (H : (Py.tm_hour tm / 10) mod 10 < 10) by (apply N.mod_lt; lia).
  remember ((Py.tm_hour tm / 10) mod 10) as d eqn:Hd. clear Hd.
  unfold Py.isspace.
  repeat match goal with
         | |- context [?a <=? ?b] => destruct (N.leb_spec a b)
         | |- context [?a =? ?b] => destruct (N.eqb_spec a b)
         end; simpl; try reflexivity; lia.
Qed.

End PyFacts.

(** ** jobs.py: progress append *)

Section AppendProgress.

Variables (tm : Py.struct_time) (t_now : pystr).
Variables (user_id request_id : pystr).

Let key : pystr * pystr := (user_id, Jobs._job_sk request_id).

Lemma append_progress_str (f : DDB.fault) (line : pystr) (w : World) :
  Jobs.append_progress tm t_now f user_id request_id (VStr line) w =
  if Py.truthy (Py.strip line)
  then try_except
         (DDB.update_item f key
            (Jobs.append_expression tm t_now (Jobs.cap_line (Py.strip line))))
         (fun e => Some (log_exception (Py.lit "[job] append_progress error") e)) w
  else (Ok tt, w).
Proof.
  unfold Jobs.append_progress, try_except, bind, Jobs.or_empty_strip.
  assert (Hs : (if value_truthy (VStr line) then VStr line else VStr [])
               = VStr line) by (destruct line; reflexivity).
  rewrite Hs. unfold ret.
  destruct (Py.truthy (Py.strip line)); reflexivity.
Qed.

Lemma update_item_append (line : pystr) (old : list value) (w : World) :
  Observe.progress_or_empty w user_id request_id = Some old ->
  DDB.update_item DDB.NoFault key (Jobs.append_expression tm t_now line) w
  = (Ok tt,
     Observe.appended w user_id request_id old (Jobs.stamped tm line) t_now).
Proof.
  unfold Observe.progress_or_empty, Observe.job_attr, Observe.job_record.
  unfold DDB.update_item, Observe.appended, Observe.appended_item,
    Observe.item_or_key.
  fold key. intros H.
  destruct (tbl w !! key) as [it|] eqn:Hk.
  - cbn [mbind option_bind] in H.
    unfold Jobs.append_expression, DDB.apply_set, DDB.eval.
    destruct (it !! Jobs.a_progress) as [v|] eqn:Hp.
    + destruct v; try discriminate. injection H as ->. reflexivity.
    + injection H as <-. reflexivity.
  - injection H as <-. reflexivity.
Qed.

Lemma appended_progress (w : World) (old : list value) (entry : pystr) :
  Observe.job_attr (Observe.appended w user_id request_id old entry t_now)
    user_id request_id Jobs.a_progress
  = Some (VList (old ++ [VStr entry])).
Proof.
  unfold Observe.job_attr, Observe.job_record, Observe.appended,
    Observe.appended_item.
  cbn [tbl set_tbl]. rewrite lookup_insert_eq. cbn [mbind option_bind].
  rewrite lookup_insert_ne by discriminate.
  apply lookup_insert_eq.
Qed.

Lemma append_progress_served (line : pystr) (old : list value) (w : World) :
  Py.strip line <> [] ->
  Observe.progress_or_empty w user_id request_id = Some old ->
  Jobs.append_progress tm t_now DDB.NoFault user_id request_id (VStr line) w
  = (Ok tt,
     Observe.appended w user_id request_id old
       (Jobs.stamped tm (Jobs.cap_line (Py.strip line))) t_now).
Proof.
  intros Hne Hold. rewrite append_progress_str.
  apply truthy_nonempty in Hne. rewrite Hne.
  unfold try_except. fold key.
  rewrite (update_item_append _ old) by exact Hold. reflexivity.
Qed.

(** C5. [append_progress] trims the line of surrounding whitespace; when
    nothing is left it appends nothing (whatever the store would have
    answered); when more than 600 code points are left it appends the first
    600 followed by the marker " ..."; otherwise it appends the trimmed
    line with its content unchanged. *)
Theorem append_progress_sanitizes (line : pystr) (w : World) :
  let trimmed := Py.strip line in
  let content :=
    if (600 <? length trimmed)%nat
    then take 600 trimmed ++ Py.lit " ..." else trimmed in
  is_trim_of line trimmed
  /\ (trimmed = [] ->
      forall f,
        Jobs.append_progress tm t_now f user_id request_id (VStr line) w
        = (Ok tt, w))
  /\ (trimmed <> [] ->
      forall old,
        Observe.progress_or_empty w user_id request_id = Some old ->
        exists w',
          Jobs.append_progress tm t_now DDB.NoFault user_id request_id
            (VStr line) w = (Ok tt, w')
          /\ Observe.job_attr w' user_id request_id Jobs.a_progress
             = Some (VList (old ++
                 [VStr (Py.strftime_HMS tm ++ Py.lit "  " ++ content)]))).
Proof.
  intros trimmed content. split; [apply strip_is_trim |]. split.
  - intros Hnil f. rewrite append_progress_str. fold trimmed. rewrite Hnil.
    reflexivity.
  - intros Hne old Hold. eexists. split.
    + apply append_progress_served; eassumption.
    + rewrite appended_progress. reflexivity.
Qed.

(** A stamped line is never the line it was trimmed from. *)
Lemma stamped_differs (line : pystr) :
  Py.strip line <> [] -> Jobs.stamped tm (Py.strip line) <> line.
Proof.
  intros Hne Heq.
  destruct (strip_is_trim line) as (a & b & Hline & Ha & Hb & _ & Hlast).
  destruct (strftime_HMS_head tm) as (c & rest & Hstamp & Hc).
  unfold Jobs.stamped in Heq.
  destruct a as [|x a].
  - assert (Hlb : length b = 10%nat).
    { apply (f_equal length) in Heq. rewrite Hline in Heq at 2.
      rewrite !length_app, strftime_HMS_length in Heq. simpl in Heq. lia. }
    destruct (last b) as [y|] eqn:Hy.
    + assert (Hwy : Py.isspace y = true).
      { rewrite Forall_forall in Hb. apply Hb.
        apply last_Some_elem_of. exact Hy. }
      assert (Hl1 : last line = Some y).
      { rewrite Hline. simpl. rewrite last_app, Hy. reflexivity. }
      destruct (last (Py.strip line)) as [z|] eqn:Hz.
      * assert (Hl2 : last line = Some z).
        { rewrite <- Heq. rewrite !app_assoc, last_app, Hz. reflexivity. }
        rewrite Hl1 in Hl2. injection Hl2 as ->.
        rewrite (Hlast z eq_refl) in Hwy. discriminate.
      * apply last_None in Hz. contradiction.
    + apply last_None in Hy. subst b. discriminate.
  - rewrite Hline, Hstamp in Heq. simpl in Heq. injection Heq as -> _.
    inversion Ha; subst. congruence.
Qed.

(** C9. What a served append stores is the sanitized line prefixed with the
    wall-clock time HH:MM:SS and two spaces, never the sanitized line
    itself: it is 10 code points longer, and 614 code points long when the
    line was cut at the cap of 600. *)
Theorem stored_progress_is_stamped (line : pystr) (old : list value) (w : World) :
  Py.strip line <> [] ->
  Observe.progress_or_empty w user_id request_id = Some old ->
  let sanitized := Jobs.cap_line (Py.strip line) in
  exists entry w',
    Jobs.append_progress tm t_now DDB.NoFault user_id request_id (VStr line) w
    = (Ok tt, w')
    /\ Observe.job_attr w' user_id request_id Jobs.a_progress
       = Some (VList (old ++ [VStr entry]))
    /\ entry = Py.strftime_HMS tm ++ Py.lit "  " ++ sanitized
    /\ entry <> sanitized
    /\ length entry = (10 + length sanitized)%nat
    /\ ((length (Py.strip line) <= 600)%nat -> entry <> line)
    /\ ((600 < length (Py.strip line))%nat -> length entry = 614%nat).
Proof.
  intros Hne Hold sanitized.
  exists (Jobs.stamped tm sanitized). eexists.
  split; [apply append_progress_served; eassumption |].
  split; [apply appended_progress |].
  split; [reflexivity |].
  assert (Hlen : length (Jobs.stamped tm sanitized) = (10 + length sanitized)%nat).
  { unfold Jobs.stamped. rewrite !length_app, strftime_HMS_length. reflexivity. }
  split; [| split; [exact Hlen | split]].
  - intros Heq. rewrite Heq in Hlen. lia.
  - intros Hshort.
    assert (Hs : sanitized = Py.strip line).
    { subst sanitized. unfold Jobs.cap_line.
      destruct (Nat.ltb_spec 600 (length (Py.strip line))); [lia | reflexivity]. }
    rewrite Hs in *. clear Hs sanitized.
    apply stamped_differs; assumption.
  - intros Hlong. rewrite Hlen. subst sanitized. unfold Jobs.cap_line.
    destruct (Nat.ltb_spec 600 (length (Py.strip line))) as [_|Hle]; [| lia].
    unfold Py.slice_to. rewrite length_app, length_take.
    change (N.to_nat 600) with 600%nat.
    change (length (Py.lit " ...")) with 4%nat. lia.
Qed.

(** C10. [append_progress] does not ask for the job record to exist: on a
    table without it, a served append creates a record made of the key, a
    one-element progress list and updatedAt, and nothing else; it has no
    status, startedAt or type. *)
Theorem append_progress_upserts (line : pystr) (w : World) :
  Observe.job_record w user_id request_id = None ->
  Py.strip line <> [] ->
  exists w' it,
    Jobs.append_progress tm t_now DDB.NoFault user_id request_id (VStr line) w
    = (Ok tt, w')
    /\ Observe.job_record w' user_id request_id = Some it
    /\ it = <[Jobs.a_updatedAt := VStr t_now]>
             (<[Jobs.a_progress :=
                  VList [VStr (Jobs.stamped tm (Jobs.cap_line (Py.strip line)))]]>
             (<[DDB.userId := VStr user_id]>
             (<[DDB.itineraryId := VStr (Jobs._job_sk request_id)]> ∅)))
    /\ dom it = {[DDB.userId; DDB.itineraryId; Jobs.a_progress; Jobs.a_updatedAt]}
    /\ it !! Jobs.a_status = None
    /\ it !! Jobs.a_startedAt = None
    /\ it !! Jobs.a_type = None.
Proof.
  intros Habs Hne.
  assert (Hold : Observe.progress_or_empty w user_id request_id = Some []).
  { unfold Observe.progress_or_empty, Observe.job_attr. rewrite Habs. reflexivity. }
  eexists. eexists.
  split; [apply append_progress_served; eassumption |].
  unfold Observe.job_record in *.
  unfold Observe.appended, Observe.appended_item, Observe.item_or_key.
  cbn [tbl set_tbl]. rewrite Habs.
  split; [apply lookup_insert_eq |].
  split; [reflexivity |].
  split.
  - rewrite !dom_insert_L, dom_empty_L. set_solver.
  - repeat split; reflexivity.
Qed.

End AppendProgress.

(** C5 at a concrete line: "  STATUS: planning  " is stored trimmed. *)
Lemma append_progress_sanitizes_witness :
  exists w',
    Jobs.append_progress Sample.tm0 Sample.t1 DDB.NoFault Sample.u1 Sample.r1
      (VStr Sample.status_line) Sample.w0 = (Ok tt, w')
    /\ Observe.job_attr w' Sample.u1 Sample.r1 Jobs.a_progress
       = Some (VList [VStr (Py.lit "09:05:59  STATUS: planning")]).
Proof.
  destruct (append_progress_sanitizes Sample.tm0 Sample.t1 Sample.u1 Sample.r1
              Sample.status_line Sample.w0) as (_ & _ & H).
  apply (H ltac:(vm_compute; discriminate) [] eq_refl).
Defined.

(** C5: a whitespace-only line and [None] are dropped, and a line longer
    than the cap is cut. *)
Example append_progress_drops_blank (f : DDB.fault) :
  Jobs.append_progress Sample.tm0 Sample.t1 f Sample.u1 Sample.r1
    (VStr (Py.lit "   ")) Sample.w0 = (Ok tt, Sample.w0)
  /\ Jobs.append_progress Sample.tm0 Sample.t1 f Sample.u1 Sample.r1
       VNull Sample.w0 = (Ok tt, Sample.w0).
Proof. split; reflexivity. Qed.

Example append_progress_cuts_long_line :
  Observe.job_attr
    (snd (Jobs.append_progress Sample.tm0 Sample.t1 DDB.NoFault Sample.u1 Sample.r1
            (VStr (repeat 97 601)) Sample.w0))
    Sample.u1 Sample.r1 Jobs.a_progress
  = Some (VList [VStr (Py.lit "09:05:59  " ++ repeat 97 600 ++ Py.lit " ...")]).
Proof. vm_compute. reflexivity. Qed.

(** C9 at a concrete line. *)
Lemma stored_progress_is_stamped_witness :
  exists entry w',
    Jobs.append_progress Sample.tm0 Sample.t1 DDB.NoFault Sample.u1 Sample.r1
      (VStr Sample.status_line) Sample.w0 = (Ok tt, w')
    /\ Observe.job_attr w' Sample.u1 Sample.r1 Jobs.a_progress
       = Some (VList ([] ++ [VStr entry]))
    /\ entry = Py.lit "09:05:59  STATUS: planning"
    /\ entry <> Py.lit "STATUS: planning"
    /\ length entry = 26%nat
    /\ ((length (Py.strip Sample.status_line) <= 600)%nat
        -> entry <> Sample.status_line)
    /\ ((600 < length (Py.strip Sample.status_line))%nat
        -> length entry = 614%nat).
Proof.
  apply (stored_progress_is_stamped Sample.tm0 Sample.t1 Sample.u1 Sample.r1
           Sample.status_line [] Sample.w0).
  - vm_compute. discriminate.
  - reflexivity.
Defined.

(** C10 on the empty table. *)
Lemma append_progress_upserts_witness :
  exists w' it,
    Jobs.append_progress Sample.tm0 Sample.t1 DDB.NoFault Sample.u1 Sample.r1
      (VStr Sample.status_line) Sample.w0 = (Ok tt, w')
    /\ Observe.job_record w' Sample.u1 Sample.r1 = Some it
    /\ it = <[Jobs.a_updatedAt := VStr Sample.t1]>
             (<[Jobs.a_progress :=
                  VList [VStr (Py.lit "09:05:59  STATUS: planning")]]>
             (<[DDB.userId := VStr Sample.u1]>
             (<[DDB.itineraryId := VStr (Py.lit "job#r1")]> ∅)))
    /\ dom it = {[DDB.userId; DDB.itineraryId; Jobs.a_progress; Jobs.a_updatedAt]}
    /\ it !! Jobs.a_status = None
    /\ it !! Jobs.a_startedAt = None
    /\ it !! Jobs.a_type = None.
Proof.
  apply (append_progress_upserts Sample.tm0 Sample.t1 Sample.u1 Sample.r1
           Sample.status_line Sample.w0).
  - reflexivity.
  - vm_compute. discriminate.
Defined.

(** ** jobs.py: telemetry is best-effort *)

Section Telemetry.

(** A [try] whose handler catches every exception and only logs returns
    normally. *)
Lemma try_log_never_raises (body : M unit) (msg : pystr) (w : World) :
  fst (try_except body (fun e => Some (log_exception msg e)) w) = Ok tt.
Proof.
  unfold try_except. destruct (body w) as [[[]|e] w']; reflexivity.
Qed.

Lemma try_log_fault (body : M unit) (msg : pystr) (e : exn) (w : World) :
  body w = (Raise e, w) ->
  try_except body (fun e => Some (log_exception msg e)) w
  = (Ok tt,
     Observe.with_log w {| log_level := ERROR; log_msg := msg; log_exc := Some e |}).
Proof. unfold try_except. intros ->. reflexivity. Qed.

(** C6. [append_progress] and [complete_job] return normally on every
    input and whatever the store answers; when the store fails with [e],
    the table is left as it was and one ERROR record carrying [e] is
    logged. *)
Theorem telemetry_never_raises :
  (forall tm t_now f user_id request_id line w,
      fst (Jobs.append_progress tm t_now f user_id request_id line w) = Ok tt)
  /\ (forall t_now f user_id request_id status final_message itinerary_id w,
        fst (Jobs.complete_job t_now f user_id request_id status final_message
               itinerary_id w) = Ok tt)
  /\ (forall tm t_now e user_id request_id (line : pystr) w,
        Py.strip line <> [] ->
        Jobs.append_progress tm t_now (DDB.Fault e) user_id request_id
          (VStr line) w
        = (Ok tt,
           Observe.with_log w
             {| log_level := ERROR;
                log_msg := Py.lit "[job] append_progress error";
                log_exc := Some e |}))
  /\ (forall t_now e user_id request_id status final_message itinerary_id w,
        Jobs.complete_job t_now (DDB.Fault e) user_id request_id status
          final_message itinerary_id w
        = (Ok tt,
           Observe.with_log w
             {| log_level := ERROR;
                log_msg := Py.lit "[job] complete_job error";
                log_exc := Some e |})).
Proof.
  split; [| split; [| split]].
  - intros. apply try_log_never_raises.
  - intros. apply try_log_never_raises.
  - intros tm t_now e u r line w Hne. rewrite append_progress_str.
    apply truthy_nonempty in Hne. rewrite Hne.
    apply try_log_fault. reflexivity.
  - intros. unfold Jobs.complete_job. apply try_log_fault. reflexivity.
Qed.

(** An input without a [strip] method, and a stored [progress] that is not
    a list, end in the same handler. *)
Example append_progress_swallows_type_error :
  Jobs.append_progress Sample.tm0 Sample.t1 DDB.NoFault Sample.u1 Sample.r1
    (VNum 5) Sample.w0
  = (Ok tt,
     Observe.with_log Sample.w0
       {| log_level := ERROR;
          log_msg := Py.lit "[job] append_progress error";
          log_exc := Some (OtherError (Py.lit "AttributeError")) |}).
Proof. reflexivity. Qed.

End Telemetry.

(** C6 under a throttled store. *)
Lemma telemetry_never_raises_witness :
  Jobs.append_progress Sample.tm0 Sample.t1
    (DDB.Fault (ClientError (Py.lit "ProvisionedThroughputExceededException")))
    Sample.u1 Sample.r1 (VStr Sample.status_line) Sample.w0
  = (Ok tt,
     Observe.with_log Sample.w0
       {| log_level := ERROR;
          log_msg := Py.lit "[job] append_progress error";
          log_exc :=
            Some (ClientError (Py.lit "ProvisionedThroughputExceededException")) |}).
Proof.
  destruct telemetry_never_raises as (_ & _ & H & _).
  apply H. vm_compute. discriminate.
Defined.

(** ** jobs.py: the log mirror *)

Section Emit.

Variables (self : Jobs.JobProgressHandler).
Variables (tm : Py.struct_time) (t_now : pystr) (f : DDB.fault).

Lemma is_mirrored_prefix (msg : pystr) :
  Jobs.is_mirrored msg = true
  <-> exists p, In p Jobs.mirrored_prefixes /\ p `prefix_of` msg.
Proof.
  unfold Jobs.is_mirrored. rewrite existsb_exists.
  split; intros (p & Hin & Hp); exists p; split; try assumption;
    apply startswith_prefix; assumption.
Qed.

(** C7, as the code has it. [emit] hands the formatted line to
    [append_progress] if and only if it starts with one of the four
    prefixes STATUS:, TOOL:, TOOL_RESULT: and "Tool #"; any other line
    leaves the world untouched. *)
Theorem emit_filters_by_prefix (msg : pystr) (w : World) :
  let prefixes :=
    [Py.lit "STATUS:"; Py.lit "TOOL:"; Py.lit "TOOL_RESULT:"; Py.lit "Tool #"] in
  ((exists p, In p prefixes /\ p `prefix_of` msg) ->
     Jobs.emit self tm t_now f msg w
     = Jobs.append_progress tm t_now f (Jobs.h_user_id self)
         (Jobs.h_request_id self) (VStr msg) w)
  /\ (~ (exists p, In p prefixes /\ p `prefix_of` msg) ->
      Jobs.emit self tm t_now f msg w = (Ok tt, w)).
Proof.
  intros prefixes. unfold Jobs.emit.
  change prefixes with Jobs.mirrored_prefixes.
  split; intros H.
  - apply is_mirrored_prefix in H. rewrite H. reflexivity.
  - destruct (Jobs.is_mirrored msg) eqn:Hm; [| reflexivity].
    apply is_mirrored_prefix in Hm. contradiction.
Qed.

End Emit.

(** C7 fails as stated: a line starting with "Tool #" starts with none of
    STATUS:, TOOL:, TOOL_RESULT:, and [emit] appends it all the same. *)
Lemma emit_mirrors_tool_hash_line :
  Forall (fun p => Py.startswith Sample.tool_hash_line p = false)
    [Py.lit "STATUS:"; Py.lit "TOOL:"; Py.lit "TOOL_RESULT:"]
  /\ Observe.job_attr
       (snd (Jobs.emit Sample.handler Sample.tm0 Sample.t1 DDB.NoFault
               Sample.tool_hash_line Sample.w0))
       Sample.u1 Sample.r1 Jobs.a_progress
     = Some (VList [VStr (Py.lit "09:05:59  Tool #1: http_request")]).
Proof.
  split.
  - repeat constructor.
  - vm_compute. reflexivity.
Qed.

(** C7 amended, at that line. *)
Lemma emit_filters_by_prefix_witness :
  Jobs.emit Sample.handler Sample.tm0 Sample.t1 DDB.NoFault
    Sample.tool_hash_line Sample.w0
  = Jobs.append_progress Sample.tm0 Sample.t1 DDB.NoFault Sample.u1 Sample.r1
      (VStr Sample.tool_hash_line) Sample.w0.
Proof.
  apply (emit_filters_by_prefix Sample.handler Sample.tm0 Sample.t1 DDB.NoFault
           Sample.tool_hash_line Sample.w0).
  exists (Py.lit "Tool #"). split.
  - simpl. auto.
  - exists (Py.lit "1: http_request"). reflexivity.
Defined.

Example emit_drops_other_line :
  Jobs.emit Sample.handler Sample.tm0 Sample.t1 DDB.NoFault
    (Py.lit "[invoke] userId=u1") Sample.w0 = (Ok tt, Sample.w0).
Proof. reflexivity. Qed.

(** ** jobs.py: completion *)

Section CompleteJob.

Variables (t_now user_id request_id status : pystr).
Variables (final_message itinerary_id : option pystr).

Let key : pystr * pystr := (user_id, Jobs._job_sk request_id).

Lemma update_item_complete (w : World) :
  DDB.update_item DDB.NoFault key
    (Jobs.complete_expression t_now status final_message itinerary_id) w
  = (Ok tt,
     set_tbl
       (<[key := Observe.completed_item (Observe.item_or_key w key) t_now status
                   final_message itinerary_id]> (tbl w)) w).
Proof.
  unfold DDB.update_item, Jobs.complete_expression, Observe.completed_item.
  fold (Observe.item_or_key w key).
  destruct (Py.truthy_opt final_message), (Py.truthy_opt itinerary_id);
    reflexivity.
Qed.

Lemma completed_item_status (before : item) :
  Observe.completed_item before t_now status final_message itinerary_id
    !! Jobs.a_status = Some (VStr status)
  /\ Observe.completed_item before t_now status final_message itinerary_id
       !! Jobs.a_completedAt = Some (VStr t_now)
  /\ Observe.completed_item before t_now status final_message itinerary_id
       !! Jobs.a_updatedAt = Some (VStr t_now).
Proof.
  unfold Observe.completed_item.
  destruct (Py.truthy_opt final_message), (Py.truthy_opt itinerary_id);
    repeat split;
    repeat (rewrite lookup_insert_ne by discriminate);
    apply lookup_insert_eq.
Qed.

Lemma completed_item_final_message (before : item) :
  Observe.completed_item before t_now status final_message itinerary_id
    !! Jobs.a_finalMessage
  = if Py.truthy_opt final_message
    then Some (VStr (Py.slice_to 180000 (Py.or_empty final_message)))
    else before !! Jobs.a_finalMessage.
Proof.
  unfold Observe.completed_item.
  destruct (Py.truthy_opt final_message), (Py.truthy_opt itinerary_id);
    repeat (rewrite lookup_insert_ne by discriminate);
    try apply lookup_insert_eq; reflexivity.
Qed.

Lemma completed_item_result (before : item) :
  Observe.completed_item before t_now status final_message itinerary_id
    !! Jobs.a_resultItineraryId
  = if Py.truthy_opt itinerary_id
    then Some (VStr (Py.or_empty itinerary_id))
    else before !! Jobs.a_resultItineraryId.
Proof.
  unfold Observe.completed_item.
  destruct (Py.truthy_opt final_message), (Py.truthy_opt itinerary_id);
    repeat (rewrite lookup_insert_ne by discriminate);
    try apply lookup_insert_eq; reflexivity.
Qed.

Lemma item_or_key_attr (w : World) (a : pystr) :
  a <> DDB.userId -> a <> DDB.itineraryId ->
  Observe.item_or_key w key !! a = Observe.job_attr w user_id request_id a.
Proof.
  intros H1 H2.
  unfold Observe.item_or_key, Observe.job_attr, Observe.job_record. fold key.
  destruct (tbl w !! key); cbn [mbind option_bind]; [reflexivity |].
  rewrite !lookup_insert_ne by congruence. apply lookup_empty.
Qed.

(** C2, as the code has it. [complete_job] carries no guard on the current
    status: every served call, whatever the record holds, sets status to
    its argument and completedAt and updatedAt to its clock reading, sets
    finalMessage (cut at 180000 code points) and resultItineraryId when
    they are given and non-empty, and keeps their stored values
    otherwise. The last write wins. *)
Theorem complete_job_last_write_wins (w : World) :
  exists w',
    Jobs.complete_job t_now DDB.NoFault user_id request_id status
      final_message itinerary_id w = (Ok tt, w')
    /\ Observe.job_attr w' user_id request_id Jobs.a_status
       = Some (VStr status)
    /\ Observe.job_attr w' user_id request_id Jobs.a_completedAt
       = Some (VStr t_now)
    /\ Observe.job_attr w' user_id request_id Jobs.a_updatedAt
       = Some (VStr t_now)
    /\ Observe.job_attr w' user_id request_id Jobs.a_finalMessage
       = (if Py.truthy_opt final_message
          then Some (VStr (Py.slice_to 180000 (Py.or_empty final_message)))
          else Observe.job_attr w user_id request_id Jobs.a_finalMessage)
    /\ Observe.job_attr w' user_id request_id Jobs.a_resultItineraryId
       = (if Py.truthy_opt itinerary_id
          then Some (VStr (Py.or_empty itinerary_id))
          else Observe.job_attr w user_id request_id Jobs.a_resultItineraryId).
Proof.
  eexists. split.
  - unfold Jobs.complete_job, try_except, bind. fold key.
    rewrite update_item_complete. reflexivity.
  - unfold Observe.job_attr at 1 2 3 4 6, Observe.job_record.
    cbn [tbl set_tbl log_info log_at fst snd]. fold key.
    rewrite lookup_insert_eq. cbn [mbind option_bind].
    destruct (completed_item_status (Observe.item_or_key w key))
      as (Hs & Hc & Hu).
    rewrite Hs, Hc, Hu, completed_item_final_message, completed_item_result.
    rewrite !item_or_key_attr by discriminate.
    repeat split; reflexivity.
Qed.

End CompleteJob.

(** C2 fails as stated: a job completed as SUCCEEDED with message "first"
    and then completed as FAILED with message "second" ends FAILED with
    message "second". *)
Lemma second_completion_overwrites :
  let w1 := snd (Jobs.create_job Sample.t0 Sample.t0 DDB.NoFault
                   Sample.u1 Sample.r1 None None Sample.w0) in
  let w2 := snd (Jobs.complete_job Sample.t1 DDB.NoFault Sample.u1 Sample.r1
                   Jobs.SUCCEEDED (Some (Py.lit "first")) None w1) in
  let w3 := snd (Jobs.complete_job Sample.t2 DDB.NoFault Sample.u1 Sample.r1
                   Jobs.FAILED (Some (Py.lit "second")) None w2) in
  Observe.job_attr w1 Sample.u1 Sample.r1 Jobs.a_status = Some (VStr Jobs.RUNNING)
  /\ Observe.job_attr w2 Sample.u1 Sample.r1 Jobs.a_status
     = Some (VStr Jobs.SUCCEEDED)
  /\ Observe.job_attr w3 Sample.u1 Sample.r1 Jobs.a_status
     = Some (VStr Jobs.FAILED)
  /\ Observe.job_attr w3 Sample.u1 Sample.r1 Jobs.a_finalMessage
     = Some (VStr (Py.lit "second")).
Proof. vm_compute. repeat split; reflexivity. Qed.

(** ** jobs.py: creation *)

Section CreateJob.

Variables (user_id request_id : pystr).

Let key : pystr * pystr := (user_id, Jobs._job_sk request_id).

Lemma job_item_key t_started t_updated meta job_id :
  DDB.key_of (Jobs.job_item t_started t_updated user_id request_id meta job_id)
  = Some key.
Proof.
  unfold Jobs.job_item.
  destruct meta as [m|]; [destruct (value_truthy m) |];
    (destruct job_id as [j|]; [destruct (Py.truthy j) |]); reflexivity.
Qed.

Lemma job_item_status t_started t_updated meta job_id :
  Jobs.job_item t_started t_updated user_id request_id meta job_id
    !! Jobs.a_status = Some (VStr Jobs.RUNNING).
Proof.
  unfold Jobs.job_item.
  destruct meta as [m|]; [destruct (value_truthy m) |];
    (destruct job_id as [j|]; [destruct (Py.truthy j) |]); reflexivity.
Qed.

Lemma create_job_fresh t_started t_updated meta job_id (w : World) :
  tbl w !! key = None ->
  Jobs.create_job t_started t_updated DDB.NoFault user_id request_id meta job_id w
  = (Ok tt,
     Observe.with_log
       (set_tbl (<[key := Jobs.job_item t_started t_updated user_id request_id
                            meta job_id]> (tbl w)) w)
       {| log_level := INFO;
          log_msg := Py.lit "[job] created userId=" ++ user_id
                     ++ Py.lit " requestId=" ++ request_id;
          log_exc := None |}).
Proof.
  intros Habs.
  unfold Jobs.create_job, try_except, bind, DDB.put_item_if_absent.
  rewrite job_item_key, Habs. reflexivity.
Qed.

Lemma create_job_existing t_started t_updated meta job_id (w : World) :
  tbl w !! key <> None ->
  Jobs.create_job t_started t_updated DDB.NoFault user_id request_id meta job_id w
  = (Ok tt,
     Observe.with_log w
       {| log_level := INFO;
          log_msg := Py.lit "[job] already exists userId=" ++ user_id
                     ++ Py.lit " requestId=" ++ request_id;
          log_exc := None |}).
Proof.
  intros Hpres.
  unfold Jobs.create_job, try_except, bind, DDB.put_item_if_absent.
  rewrite job_item_key.
  destruct (tbl w !! key) as [it|]; [reflexivity | contradiction].
Qed.

(** C3. On a table without the job record, two calls of [create_job] for
    the same (owner, request), in either order and whatever their
    timestamps, [meta] and [job_id], both return normally; the second
    changes nothing; the table has gained exactly one record, the item of
    the first call, with status RUNNING. And [create_job] raises [e]
    exactly when the store's conditional put raises [e] and [e] is not the
    rejection ConditionalCheckFailedException. *)
Theorem create_job_idempotent
    (ta ta' : pystr) (ma : option value) (ja : option pystr)
    (tb tb' : pystr) (mb : option value) (jb : option pystr) (w : World) :
  (Observe.job_record w user_id request_id = None ->
   exists w1 w2,
     Jobs.create_job ta ta' DDB.NoFault user_id request_id ma ja w = (Ok tt, w1)
     /\ Jobs.create_job tb tb' DDB.NoFault user_id request_id mb jb w1
        = (Ok tt, w2)
     /\ tbl w1 = <[key := Jobs.job_item ta ta' user_id request_id ma ja]> (tbl w)
     /\ tbl w2 = tbl w1
     /\ size (tbl w2) = S (size (tbl w))
     /\ Observe.job_attr w2 user_id request_id Jobs.a_status
        = Some (VStr Jobs.RUNNING))
  /\ (forall f e,
        fst (Jobs.create_job ta ta' f user_id request_id ma ja w) = Raise e
        <-> (fst (DDB.put_item_if_absent f
                    (Jobs.job_item ta ta' user_id request_id ma ja) w) = Raise e
             /\ e <> ClientError DDB.ConditionalCheckFailedException)).
Proof.
  split.
  - unfold Observe.job_record. fold key. intros Habs.
    eexists. eexists.
    split; [apply create_job_fresh; exact Habs |].
    split.
    { apply create_job_existing. cbn [tbl set_tbl Observe.with_log].
      rewrite lookup_insert_eq. discriminate. }
    cbn [tbl set_tbl Observe.with_log].
    split; [reflexivity |]. split; [reflexivity |].
    split; [apply map_size_insert_None; exact Habs |].
    unfold Observe.job_attr, Observe.job_record.
    cbn [tbl set_tbl Observe.with_log]. fold key.
    rewrite lookup_insert_eq. cbn [mbind option_bind].
    apply job_item_status.
  - intros f e.
    unfold Jobs.create_job, try_except, bind.
    destruct (DDB.put_item_if_absent f
                (Jobs.job_item ta ta' user_id request_id ma ja) w)
      as [[[]|e'] w'] eqn:Hput; cbn [fst].
    + split; [discriminate | intros [H _]; discriminate].
    + destruct e' as [code|name].
      * destruct (bool_decide (code = DDB.ConditionalCheckFailedException)) eqn:Hc.
        -- apply bool_decide_eq_true in Hc. subst code. cbn.
           split; [discriminate |].
           intros [[= <-] Hne]. contradiction.
        -- apply bool_decide_eq_false in Hc. cbn.
           split.
           ++ intros [= <-]. split; [reflexivity | congruence].
           ++ intros [[= <-] _]. reflexivity.
      * cbn. split.
        -- intros [= <-]. split; [reflexivity | discriminate].
        -- intros [[= <-] _]. reflexivity.
Qed.

End CreateJob.

(** C3 on the empty table, with different arguments in the two calls. *)
Lemma create_job_idempotent_witness :
  exists w1 w2,
    Jobs.create_job Sample.t0 Sample.t0 DDB.NoFault Sample.u1 Sample.r1
      None None Sample.w0 = (Ok tt, w1)
    /\ Jobs.create_job Sample.t1 Sample.t2 DDB.NoFault Sample.u1 Sample.r1
         (Some (VMap [(Py.lit "destination", VStr (Py.lit "Kyoto"))]))
         (Some (Py.lit "rt-7")) w1 = (Ok tt, w2)
    /\ tbl w1
       = <[(Sample.u1, Jobs._job_sk Sample.r1) :=
             Jobs.job_item Sample.t0 Sample.t0 Sample.u1 Sample.r1 None None]>
           (tbl Sample.w0)
    /\ tbl w2 = tbl w1
    /\ size (tbl w2) = S (size (tbl Sample.w0))
    /\ Observe.job_attr w2 Sample.u1 Sample.r1 Jobs.a_status
       = Some (VStr Jobs.RUNNING).
Proof.
  destruct (create_job_idempotent Sample.u1 Sample.r1
              Sample.t0 Sample.t0 None None
              Sample.t1 Sample.t2
              (Some (VMap [(Py.lit "destination", VStr (Py.lit "Kyoto"))]))
              (Some (Py.lit "rt-7")) Sample.w0) as [H _].
  apply H. reflexivity.
Defined.

(** The three answers of the store, seen through [create_job]. *)
Example create_job_store_answers :
  let w1 := snd (Jobs.create_job Sample.t0 Sample.t0 DDB.NoFault
                   Sample.u1 Sample.r1 None None Sample.w0) in
  fst (Jobs.create_job Sample.t1 Sample.t1 DDB.NoFault
         Sample.u1 Sample.r1 None None w1) = Ok tt
  /\ fst (Jobs.create_job Sample.t1 Sample.t1
            (DDB.Fault (ClientError (Py.lit "ThrottlingException")))
            Sample.u1 Sample.r1 None None w1)
     = Raise (ClientError (Py.lit "ThrottlingException"))
  /\ fst (Jobs.create_job Sample.t1 Sample.t1
            (DDB.Fault (OtherError (Py.lit "EndpointConnectionError")))
            Sample.u1 Sample.r1 None None w1)
     = Raise (OtherError (Py.lit "EndpointConnectionError")).
Proof. vm_compute. repeat split; reflexivity. Qed.

(** ** config.py: the credential cache *)

Section TokenCache.

Variable cfg : Config.Settings.

Lemma get_token_static now resp t_mint (w : World) :
  Config.GATEWAY_ACCESS_TOKEN cfg <> [] ->
  Config.get_gateway_access_token cfg now resp t_mint w
  = (Ok (Config.GATEWAY_ACCESS_TOKEN cfg), w).
Proof.
  intros H. unfold Config.get_gateway_access_token.
  apply truthy_nonempty in H. rewrite H. reflexivity.
Qed.

Lemma get_token_cached now resp t_mint (w : World) (tok : pystr) :
  Config.GATEWAY_ACCESS_TOKEN cfg = [] ->
  Observe.cache_serves w now tok ->
  Config.get_gateway_access_token cfg now resp t_mint w = (Ok tok, w).
Proof.
  intros Henv (Htok & Hne & Hlt). unfold Config.get_gateway_access_token.
  rewrite Henv. cbn [Py.truthy]. rewrite Htok.
  cbn [Py.truthy_opt Py.or_empty].
  apply truthy_nonempty in Hne. rewrite Hne.
  apply Z.ltb_lt in Hlt. rewrite Hlt. reflexivity.
Qed.

Lemma get_token_mints now resp t_mint (w : World) :
  Config.GATEWAY_ACCESS_TOKEN cfg = [] ->
  (forall tok, ~ Observe.cache_serves w now tok) ->
  Config.get_gateway_access_token cfg now resp t_mint w
  = Config._mint_cognito_token cfg resp t_mint w.
Proof.
  intros Henv Hmiss. unfold Config.get_gateway_access_token. rewrite Henv.
  cbn [Py.truthy].
  destruct (access_token (cache w)) as [tok|] eqn:Htok; [| reflexivity].
  cbn [Py.truthy_opt].
  destruct (Py.truthy tok) eqn:Ht; [| reflexivity].
  destruct (now <? exp (cache w))%Z eqn:Hlt; [| reflexivity].
  exfalso. apply (Hmiss tok). repeat split.
  - exact Htok.
  - apply truthy_nonempty. exact Ht.
  - apply Z.ltb_lt. exact Hlt.
Qed.

(** the world after one successful mint *)
Lemma mint_granted otok ttl t_mint (w : World) :
  Config.cognito_configured cfg = true ->
  Config._mint_cognito_token cfg
    (Config.Body {| Config.p_access_token := otok;
                    Config.p_expires_in := Config.ExpInt ttl |}) t_mint w
  = (Ok (Py.or_empty otok),
     {| tbl := tbl w; logs := logs w;
        cache := {| access_token := otok; exp := t_mint + ttl - 30 |};
        http_posts := S (http_posts w) |}).
Proof.
  intros Hcfg. unfold Config._mint_cognito_token. rewrite Hcfg. reflexivity.
Qed.

(** C4. [get_gateway_access_token] returns the configured token when there
    is one, touching nothing; otherwise a cached token while the clock
    reads less than the cached expiry, with no request sent; otherwise it
    sends exactly one request to the token endpoint and, on a grant of
    [tok] for [ttl] seconds, caches [tok] with expiry
    (time of the mint + ttl - 30) and returns it. After a grant for 300
    seconds, every call made while the clock reads less than 270 seconds
    past the mint returns the same token and sends no request. *)
Theorem get_gateway_access_token_contract
    (now : Z) (resp : Config.token_response) (t_mint : Z) (w : World) :
  (Config.GATEWAY_ACCESS_TOKEN cfg <> [] ->
     Config.get_gateway_access_token cfg now resp t_mint w
     = (Ok (Config.GATEWAY_ACCESS_TOKEN cfg), w))
  /\ (Config.GATEWAY_ACCESS_TOKEN cfg = [] ->
      forall tok, Observe.cache_serves w now tok ->
        Config.get_gateway_access_token cfg now resp t_mint w = (Ok tok, w))
  /\ (Config.GATEWAY_ACCESS_TOKEN cfg = [] ->
      (forall tok, ~ Observe.cache_serves w now tok) ->
      Config.cognito_configured cfg = true ->
      forall tok ttl,
        resp = Config.Body {| Config.p_access_token := Some tok;
                              Config.p_expires_in := Config.ExpInt ttl |} ->
        exists w',
          Config.get_gateway_access_token cfg now resp t_mint w = (Ok tok, w')
          /\ http_posts w' = S (http_posts w)
          /\ cache w' = {| access_token := Some tok; exp := t_mint + ttl - 30 |}
          /\ (tok <> [] ->
              forall now' resp' t_mint',
                (now' < t_mint + ttl - 30)%Z ->
                Config.get_gateway_access_token cfg now' resp' t_mint' w'
                = (Ok tok, w'))
          /\ (ttl = 300%Z -> tok <> [] ->
              forall now' resp' t_mint',
                (now' - t_mint < 270)%Z ->
                Config.get_gateway_access_token cfg now' resp' t_mint' w'
                = (Ok tok, w'))).
Proof.
  split; [apply get_token_static |].
  split; [intros Henv tok; apply get_token_cached; exact Henv |].
  intros Henv Hmiss Hcfg tok ttl ->.
  eexists. split.
  { rewrite get_token_mints by assumption. apply mint_granted. exact Hcfg. }
  cbn [http_posts cache].
  split; [reflexivity |]. split; [reflexivity |].
  assert (Hserve : tok <> [] ->
            forall now' resp' t_mint', (now' < t_mint + ttl - 30)%Z ->
            Config.get_gateway_access_token cfg now' resp' t_mint'
              {| tbl := tbl w; logs := logs w;
                 cache := {| access_token := Some tok; exp := t_mint + ttl - 30 |};
                 http_posts := S (http_posts w) |}
            = (Ok tok,
               {| tbl := tbl w; logs := logs w;
                  cache := {| access_token := Some tok; exp := t_mint + ttl - 30 |};
                  http_posts := S (http_posts w) |})).
  { intros Hne now' resp' t_mint' Hlt.
    apply get_token_cached; [exact Henv |].
    repeat split; [exact Hne | exact Hlt]. }
  split; [exact Hserve |].
  intros -> Hne now' resp' t_mint' Hlt. apply Hserve; [exact Hne | lia].
Qed.

End TokenCache.

(** C4 on an empty cache: a grant of [tok1] for 300 seconds read at clock
    1001 is cached until 1271. *)
Lemma get_gateway_access_token_contract_witness :
  exists w',
    Config.get_gateway_access_token Sample.cfg0 1000
      (Sample.granted Sample.tok1 300) 1001 Sample.w0 = (Ok Sample.tok1, w')
    /\ http_posts w' = 1%nat
    /\ cache w' = {| access_token := Some Sample.tok1; exp := 1271 |}
    /\ (forall now' resp' t_mint',
          (now' - 1001 < 270)%Z ->
          Config.get_gateway_access_token Sample.cfg0 now' resp' t_mint' w'
          = (Ok Sample.tok1, w')).
Proof.
  destruct (get_gateway_access_token_contract Sample.cfg0 1000
              (Sample.granted Sample.tok1 300) 1001 Sample.w0) as (_ & _ & H).
  assert (Hmiss : forall tok, ~ Observe.cache_serves Sample.w0 1000 tok).
  { intros tok (Habs & _). discriminate. }
  destruct (H eq_refl Hmiss eq_refl Sample.tok1 300%Z eq_refl)
    as (w' & H1 & H2 & H3 & _ & H5).
  exists w'. split; [exact H1 |]. split; [exact H2 |]. split; [exact H3 |].
  apply H5; [reflexivity | vm_compute; discriminate].
Defined.

(** At the expiry itself the cached token is no longer served: the call whose
    clock reads 270 seconds past the mint sends a second request. *)
Example get_token_refreshes_at_expiry :
  let w1 := snd (Config.get_gateway_access_token Sample.cfg0 1000
                   (Sample.granted Sample.tok1 300) 1001 Sample.w0) in
  Config.get_gateway_access_token Sample.cfg0 1270
    (Sample.granted Sample.tok2 300) 1270 w1
  = (Ok Sample.tok1, w1)
  /\ fst (Config.get_gateway_access_token Sample.cfg0 1271
            (Sample.granted Sample.tok2 300) 1271 w1) = Ok Sample.tok2
  /\ http_posts (snd (Config.get_gateway_access_token Sample.cfg0 1271
                        (Sample.granted Sample.tok2 300) 1271 w1)) = 2%nat.
Proof. vm_compute. repeat split; reflexivity. Qed.

(** A failed request is swallowed: the empty token comes back, one warning
    is logged, the cache is untouched. *)
Example get_token_request_failed :
  Config.get_gateway_access_token Sample.cfg0 1000
    (Config.RequestFailed (OtherError (Py.lit "ConnectionError"))) 1001 Sample.w0
  = (Ok [],
     {| tbl := ∅;
        logs := [{| log_level := WARNING;
                    log_msg := Py.lit "[gateway] failed to mint token via Cognito";
                    log_exc := Some (OtherError (Py.lit "ConnectionError")) |}];
        cache := Config.empty_cache;
        http_posts := 1 |}).
Proof. reflexivity. Qed.

(** ** ddb_tools.py: itinerary creation *)

Section SaveItinerary.

Variable uuid5_url : pystr -> pystr.
Variable py_repr : value -> pystr.

(** The derived identity hashes the request id alone when there is one. *)
Lemma stable_id_of_request (user_id request_id : pystr) (d s e : value) :
  request_id <> [] ->
  DdbTools._stable_itinerary_id uuid5_url py_repr user_id d s e request_id
  = uuid5_url (Py.lit "agentcore-poc:" ++ request_id).
Proof.
  intros H. unfold DdbTools._stable_itinerary_id.
  apply truthy_nonempty in H. rewrite H. reflexivity.
Qed.

(** [_ensure_itinerary_shape] gives a dict without [itineraryId] the fresh
    uuid4, so [save_itinerary] never derives an identity for it. *)
Lemma setdefault_other (d : item) (k a : pystr) (v : value) :
  k <> a -> DdbTools.setdefault k v d !! a = d !! a.
Proof.
  intros Hk. unfold DdbTools.setdefault.
  destruct (d !! k); [reflexivity |].
  apply lookup_insert_ne. exact Hk.
Qed.

Lemma ensure_shape_absent_id (fresh : pystr) (it : item) :
  it !! DDB.itineraryId = None ->
  DdbTools._ensure_itinerary_shape fresh (Some it) !! DDB.itineraryId
  = Some (VStr fresh).
Proof.
  intros Habs. unfold DdbTools._ensure_itinerary_shape.
  rewrite !setdefault_other by discriminate.
  unfold DdbTools.setdefault. rewrite Habs. apply lookup_insert_eq.
Qed.

Lemma absent_id_is_random (fresh : pystr) (it : item) (user_id request_id : pystr) :
  it !! DDB.itineraryId = None ->
  fresh <> [] ->
  DdbTools.saved_id uuid5_url py_repr fresh user_id (Some it) request_id
  = VStr fresh.
Proof.
  intros Habs Hne.
  unfold DdbTools.saved_id, DdbTools.shaped, DdbTools.itinerary_id_of,
    DdbTools.get_or.
  rewrite lookup_insert_ne by discriminate.
  rewrite ensure_shape_absent_id by exact Habs.
  cbn [value_truthy]. apply truthy_nonempty in Hne. rewrite Hne. reflexivity.
Qed.

(** C1 at the failing input: the itinerary [{"destination": "Kyoto"}]
    saved twice for owner "u1" and request "r1". Each call draws its own
    uuid4, both report [saved], under two different ids, and the table
    holds two records. *)
Theorem save_itinerary_absent_id_saves_twice :
  let first := DdbTools.save_itinerary uuid5_url py_repr Sample.uuid_a Sample.t0 DDB.NoFault
                 Sample.u1 (Some Sample.kyoto) Sample.r1 Sample.w0 in
  let second := DdbTools.save_itinerary uuid5_url py_repr Sample.uuid_b Sample.t1 DDB.NoFault
                  Sample.u1 (Some Sample.kyoto) Sample.r1 (snd first) in
  fst first = Ok (Py.lit "saved:" ++ Sample.uuid_a)
  /\ fst second = Ok (Py.lit "saved:" ++ Sample.uuid_b)
  /\ Sample.uuid_a <> Sample.uuid_b
  /\ size (tbl (snd second)) = 2%nat.
Proof.
  vm_compute. repeat split; try reflexivity. discriminate.
Qed.

Lemma saved_item_key (fresh t_now user_id : pystr) (itinerary : option item)
    (request_id id : pystr) :
  DdbTools.saved_id uuid5_url py_repr fresh user_id itinerary request_id = VStr id ->
  DDB.key_of
    (DdbTools.saved_item uuid5_url py_repr fresh t_now user_id itinerary request_id)
  = Some (user_id, id).
Proof.
  intros Hid. unfold DDB.key_of, DdbTools.saved_item, DdbTools.shaped.
  rewrite Hid.
  rewrite (lookup_insert_ne _ DdbTools.a_createdAt DDB.userId) by discriminate.
  rewrite (lookup_insert_ne _ DDB.itineraryId DDB.userId) by discriminate.
  rewrite lookup_insert_eq.
  rewrite (lookup_insert_ne _ DdbTools.a_createdAt DDB.itineraryId) by discriminate.
  rewrite lookup_insert_eq. reflexivity.
Qed.

(** A non-empty string [itineraryId] of the client is kept. *)
Lemma supplied_id_is_kept (fresh user_id : pystr) (it : item)
    (request_id id : pystr) :
  it !! DDB.itineraryId = Some (VStr id) ->
  id <> [] ->
  DdbTools.saved_id uuid5_url py_repr fresh user_id (Some it) request_id = VStr id.
Proof.
  intros Hsup Hne.
  unfold DdbTools.saved_id, DdbTools.itinerary_id_of, DdbTools.get_or,
    DdbTools.shaped, DdbTools._ensure_itinerary_shape.
  rewrite lookup_insert_ne by discriminate.
  rewrite !setdefault_other by discriminate.
  unfold DdbTools.setdefault. rewrite Hsup, Hsup.
  cbn [value_truthy]. apply truthy_nonempty in Hne. rewrite Hne. reflexivity.
Qed.

(** a served save under an identity that is free: created *)
Lemma save_itinerary_created (fresh t_now user_id : pystr)
    (itinerary : option item) (request_id id : pystr) (w : World) :
  DdbTools.saved_id uuid5_url py_repr fresh user_id itinerary request_id = VStr id ->
  tbl w !! (user_id, id) = None ->
  exists w',
    DdbTools.save_itinerary uuid5_url py_repr fresh t_now DDB.NoFault
      user_id itinerary request_id w = (Ok (Py.lit "saved:" ++ id), w')
    /\ tbl w'
       = <[(user_id, id) :=
             DdbTools.saved_item uuid5_url py_repr fresh t_now user_id itinerary
               request_id]> (tbl w).
Proof.
  intros Hid Hfree. eexists.
  unfold DdbTools.save_itinerary, try_except, bind, DDB.put_item_if_absent.
  cbn [log_info log_at tbl].
  rewrite (saved_item_key _ _ _ _ _ id) by exact Hid.
  rewrite Hfree, Hid. cbn. split; reflexivity.
Qed.

(** a served save under an identity that is taken: duplicate, nothing
    written *)
Lemma save_itinerary_duplicate (fresh t_now user_id : pystr)
    (itinerary : option item) (request_id id : pystr) (w : World) :
  DdbTools.saved_id uuid5_url py_repr fresh user_id itinerary request_id = VStr id ->
  tbl w !! (user_id, id) <> None ->
  exists w',
    DdbTools.save_itinerary uuid5_url py_repr fresh t_now DDB.NoFault
      user_id itinerary request_id w = (Ok (Py.lit "duplicate:" ++ id), w')
    /\ tbl w' = tbl w.
Proof.
  intros Hid Htaken. eexists.
  unfold DdbTools.save_itinerary, try_except, bind, DDB.put_item_if_absent.
  cbn [log_info log_at tbl].
  rewrite (saved_item_key _ _ _ _ _ id) by exact Hid.
  destruct (tbl w !! (user_id, id)); [| contradiction].
  rewrite Hid. cbn. split; reflexivity.
Qed.

(** An [itineraryId] that is present and empty is replaced by the derived
    identity, the same on every call. *)
Lemma blank_id_is_derived (fresh user_id : pystr) (it : item)
    (request_id : pystr) :
  it !! DDB.itineraryId = Some (VStr []) ->
  DdbTools.saved_id uuid5_url py_repr fresh user_id (Some it) request_id
  = VStr (DdbTools._stable_itinerary_id uuid5_url py_repr user_id
            (DdbTools.get_or (DdbTools.shaped fresh user_id (Some it))
               DdbTools.a_destination (VStr []))
            (DdbTools.get_or (DdbTools.shaped fresh user_id (Some it))
               DdbTools.a_startDate (VStr []))
            (DdbTools.get_or (DdbTools.shaped fresh user_id (Some it))
               DdbTools.a_endDate (VStr []))
            request_id).
Proof.
  intros Hblank.
  unfold DdbTools.saved_id, DdbTools.itinerary_id_of.
  assert (Hget : DdbTools.get_or (DdbTools.shaped fresh user_id (Some it))
                   DDB.itineraryId VNull = VStr []).
  { unfold DdbTools.get_or, DdbTools.shaped, DdbTools._ensure_itinerary_shape.
    rewrite lookup_insert_ne by discriminate.
    rewrite !setdefault_other by discriminate.
    unfold DdbTools.setdefault. rewrite Hblank, Hblank. reflexivity. }
  rewrite Hget. reflexivity.
Qed.

(** With such an itinerary, saving twice creates once and then reports the
    duplicate, under the same identity. *)
Lemma save_itinerary_blank_id_is_idempotent :
  let id := uuid5_url (Py.lit "agentcore-poc:r1") in
  exists w1 w2,
    DdbTools.save_itinerary uuid5_url py_repr Sample.uuid_a Sample.t0 DDB.NoFault
      Sample.u1 (Some Sample.kyoto_blank_id) Sample.r1 Sample.w0
    = (Ok (Py.lit "saved:" ++ id), w1)
    /\ DdbTools.save_itinerary uuid5_url py_repr Sample.uuid_b Sample.t1 DDB.NoFault
         Sample.u1 (Some Sample.kyoto_blank_id) Sample.r1 w1
       = (Ok (Py.lit "duplicate:" ++ id), w2)
    /\ tbl w2 = tbl w1.
Proof.
  intros id.
  assert (Hid : forall fresh,
             DdbTools.saved_id uuid5_url py_repr fresh Sample.u1
               (Some Sample.kyoto_blank_id) Sample.r1 = VStr id).
  { intros fresh. rewrite blank_id_is_derived by reflexivity.
    rewrite stable_id_of_request by discriminate. reflexivity. }
  destruct (save_itinerary_created Sample.uuid_a Sample.t0 Sample.u1
              (Some Sample.kyoto_blank_id) Sample.r1 id Sample.w0
              (Hid _) (lookup_empty _)) as (w1 & Hsave1 & Htbl1).
  destruct (save_itinerary_duplicate Sample.uuid_b Sample.t1 Sample.u1
              (Some Sample.kyoto_blank_id) Sample.r1 id w1 (Hid _))
    as (w2 & Hsave2 & Htbl2).
  { rewrite Htbl1, lookup_insert_eq. discriminate. }
  exists w1, w2. auto.
Qed.

End SaveItinerary.

(** ** agent_builder.py: tool discovery *)

Section Discovery.

Variable py_repr : value -> pystr.
Variable tool_rejects : pystr -> value -> value -> option exn.

Lemma wrap_one_spec (d : AgentBuilder.descriptor)
    (acc : list AgentBuilder.proxy) (w : World) :
  fst (AgentBuilder.wrap_one py_repr tool_rejects d acc w)
  = Ok (acc ++ match AgentBuilder.wrappable tool_rejects d with
               | Some px => [px]
               | None => []
               end).
Proof.
  unfold AgentBuilder.wrap_one, AgentBuilder.wrappable, try_except.
  destruct (AgentBuilder.tool_name d) as [| | |name| |];
    try (cbn; rewrite app_nil_r; reflexivity).
  set (spec := match AgentBuilder.tool_spec d with
               | Some s => if value_truthy s then s else VMap []
               | None => VMap []
               end).
  destruct spec as [| | | | |m];
    try (cbn; rewrite app_nil_r; reflexivity).
  unfold bind, AgentBuilder.spec_get, ret.
  destruct (value_truthy (AgentBuilder.assoc m (Py.lit "inputSchema")));
    unfold AgentBuilder._wrap_mcp_tool;
    match goal with
    | |- context [tool_rejects ?a ?b ?c] => destruct (tool_rejects a b c)
    end; cbn; rewrite ?app_nil_r; reflexivity.
Qed.

(** The second loop never raises: it returns the proxies of the descriptors
    that wrap, in the order listed, and skips the others. *)
Lemma wrap_all_spec (tools : list AgentBuilder.descriptor)
    (acc : list AgentBuilder.proxy) (w : World) :
  fst (AgentBuilder.wrap_all py_repr tool_rejects tools acc w)
  = Ok (acc ++ omap (AgentBuilder.wrappable tool_rejects) tools).
Proof.
  revert acc w. induction tools as [|d tools IH]; intros acc w.
  - cbn. rewrite app_nil_r. reflexivity.
  - cbn [AgentBuilder.wrap_all]. unfold bind.
    pose proof (wrap_one_spec d acc w) as Hone.
    destruct (AgentBuilder.wrap_one py_repr tool_rejects d acc w) as [[acc'|e] w'];
      cbn [fst] in Hone; [| discriminate].
    injection Hone as ->. rewrite IH. cbn [omap list_omap].
    destruct (AgentBuilder.wrappable tool_rejects d);
      rewrite <- ?app_assoc; reflexivity.
Qed.

(** Token acquisition returns normally on a well-formed answer. *)
Lemma get_token_well_formed (cfg : Config.Settings) (now : Z)
    (resp : Config.token_response) (t_mint : Z) (w : World) :
  Config.well_formed resp = true ->
  exists tok, fst (Config.get_gateway_access_token cfg now resp t_mint w) = Ok tok.
Proof.
  intros Hwf. unfold Config.get_gateway_access_token.
  destruct (Py.truthy (Config.GATEWAY_ACCESS_TOKEN cfg)); [eexists; reflexivity |].
  destruct (Py.truthy_opt (access_token (cache w)) && (now <? exp (cache w))%Z);
    [eexists; reflexivity |].
  unfold Config._mint_cognito_token.
  destruct (Config.cognito_configured cfg); [| eexists; reflexivity].
  destruct resp as [e|e|[otok [| z |e]]]; try discriminate;
    eexists; reflexivity.
Qed.

(** What discovery returns, by the outcome of the client's creation and of
    the listing. *)
Lemma discover_by_cases (mcp_available : bool) (cfg : Config.Settings) (now : Z)
    (resp : Config.token_response) (t_mint : Z) (answer : AgentBuilder.listing)
    (w : World) :
  let w1 := snd (log_debug (Py.lit "[gateway] attempting to discover available tools") w) in
  fst (AgentBuilder.discover_gateway_tools py_repr tool_rejects mcp_available cfg
         now resp t_mint answer w)
  = match fst (AgentBuilder._mcp_client_or_none mcp_available cfg now resp t_mint w1) with
    | Raise e => Raise e
    | Ok None => Ok []
    | Ok (Some _) =>
        match answer with
        | AgentBuilder.ListFailed _ => Ok []
        | AgentBuilder.Listed tools =>
            Ok (omap (AgentBuilder.wrappable tool_rejects) (AgentBuilder.or_nil tools))
        end
    end.
Proof.
  intros w1. unfold AgentBuilder.discover_gateway_tools, bind.
  cbn [log_debug log_at]. fold w1.
  change {| tbl := tbl w;
            logs := logs w ++
                    [{| log_level := DEBUG;
                        log_msg := Py.lit "[gateway] attempting to discover available tools";
                        log_exc := None |}];
            cache := cache w; http_posts := http_posts w |} with w1.
  destruct (AgentBuilder._mcp_client_or_none mcp_available cfg now resp t_mint w1)
    as [[[c|]|e] w2]; cbn [fst]; try reflexivity.
  destruct answer as [e|tools]; [reflexivity |].
  destruct (AgentBuilder.named (AgentBuilder.or_nil tools));
    cbn [log_info log_at]; apply wrap_all_spec.
Qed.

(** No client is made without the libraries, without a gateway URL, or
    without a token. *)
Lemma no_client_cases (mcp_available : bool) (cfg : Config.Settings) (now : Z)
    (resp : Config.token_response) (t_mint : Z) (w : World) :
  (mcp_available = false \/ Config.GATEWAY_URL cfg = []
   \/ (forall w', fst (Config.get_gateway_access_token cfg now resp t_mint w') = Ok [])) ->
  fst (AgentBuilder._mcp_client_or_none mcp_available cfg now resp t_mint w) = Ok None.
Proof.
  unfold AgentBuilder._mcp_client_or_none.
  intros [-> | [Hurl | Htok]]; [reflexivity | |].
  - destruct mcp_available; [| reflexivity]. rewrite Hurl. reflexivity.
  - destruct mcp_available; [| reflexivity].
    destruct (Py.truthy (Config.GATEWAY_URL cfg)); [| reflexivity].
    unfold bind. cbn [negb log_debug log_at].
    match goal with
    | |- context [Config.get_gateway_access_token cfg now resp t_mint ?w'] =>
        specialize (Htok w');
        destruct (Config.get_gateway_access_token cfg now resp t_mint w')
          as [[tok|e] w2]
    end; cbn [fst] in Htok; [| discriminate].
    injection Htok as ->. reflexivity.
Qed.


(** C8 at the failing input: the libraries are there, the gateway URL is
    set, no token is configured or cached, and the token endpoint answers
    with a success status and a body that is not JSON. [resp.json()] raises
    outside the try of [_mint_cognito_token], and nothing on the way up
    catches it: discovery raises. *)
Theorem discover_raises_on_malformed_token_body :
  fst (AgentBuilder.discover_gateway_tools py_repr tool_rejects true Sample.cfg0
         1000 (Config.BadBody (OtherError (Py.lit "JSONDecodeError"))) 1001
         (AgentBuilder.Listed (Some [])) Sample.w0)
  = Raise (OtherError (Py.lit "JSONDecodeError")).
Proof. reflexivity. Qed.

(** A descriptor without a string name, one whose [tool_spec] has no [get]
    and one the decorator rejects are skipped; the others are wrapped. *)
Example discover_skips_malformed :
  let good1 := {| AgentBuilder.tool_name := VStr (Py.lit "otmGeoname");
                  AgentBuilder.tool_spec := None |} in
  let unnamed := {| AgentBuilder.tool_name := VNull;
                    AgentBuilder.tool_spec := None |} in
  let bad_spec := {| AgentBuilder.tool_name := VStr (Py.lit "broken");
                     AgentBuilder.tool_spec := Some (VStr (Py.lit "oops")) |} in
  let good2 := {| AgentBuilder.tool_name := VStr (Py.lit "otmPlaceDetails");
                  AgentBuilder.tool_spec :=
                    Some (VMap [(Py.lit "description", VStr (Py.lit "details"))]) |} in
  (forall n s d, tool_rejects n s d = None) ->
  fst (AgentBuilder.discover_gateway_tools py_repr tool_rejects true Sample.cfg0
         1000 (Sample.granted Sample.tok1 300) 1001
         (AgentBuilder.Listed (Some [good1; unnamed; bad_spec; good2])) Sample.w0)
  = Ok [ {| AgentBuilder.px_name := Py.lit "otmGeoname";
            AgentBuilder.px_schema := AgentBuilder.default_schema;
            AgentBuilder.px_description :=
              VStr (Py.lit "MCP tool proxy for otmGeoname") |};
         {| AgentBuilder.px_name := Py.lit "otmPlaceDetails";
            AgentBuilder.px_schema := AgentBuilder.default_schema;
            AgentBuilder.px_description := VStr (Py.lit "details") |} ].
Proof.
  intros good1 unnamed bad_spec good2 Hacc.
  rewrite discover_by_cases. cbn.
  unfold AgentBuilder.wrappable. cbn. rewrite !Hacc. reflexivity.
Qed.

End Discovery.

(** ** ddb_tools.py: get_itineraries *)

Section QueryFacts.

Lemma key_le_refl (a : pystr) : Query.key_le a a = true.
Proof.
  induction a as [|x a IH]; [reflexivity |].
  simpl. rewrite N.ltb_irrefl. exact IH.
Qed.

Lemma key_le_total (a b : pystr) :
  Query.key_le a b = true \/ Query.key_le b a = true.
Proof.
  revert b. induction a as [|x a IH]; intros [|y b]; simpl; auto.
  destruct (N.ltb_spec x y), (N.ltb_spec y x); auto; lia.
Qed.

Lemma key_le_antisym (a b : pystr) :
  Query.key_le a b = true -> Query.key_le b a = true -> a = b.
Proof.
  revert b. induction a as [|x a IH]; intros [|y b]; simpl;
    try reflexivity; try discriminate.
  destruct (N.ltb_spec x y), (N.ltb_spec y x); try discriminate; try lia.
  intros H1 H2. assert (x = y) by lia. subst. f_equal. auto.
Qed.

Lemma key_le_trans (a b c : pystr) :
  Query.key_le a b = true -> Query.key_le b c = true -> Query.key_le a c = true.
Proof.
  revert b c. induction a as [|x a IH]; intros [|y b] [|z c]; simpl;
    try reflexivity; try discriminate.
  destruct (N.ltb_spec x y), (N.ltb_spec y x), (N.ltb_spec y z),
    (N.ltb_spec z y), (N.ltb_spec x z), (N.ltb_spec z x);
    try discriminate; try reflexivity; try lia.
  apply IH.
Qed.

Lemma newer_first_total : Total Query.newer_first.
Proof. intros p q. unfold Query.newer_first. apply key_le_total. Qed.

Lemma newer_first_trans : Transitive Query.newer_first.
Proof.
  intros p q r. unfold Query.newer_first. intros H1 H2.
  eapply key_le_trans; eassumption.
Qed.

Lemma owned_spec (t : table) (u sk : pystr) (it : item) :
  (sk, it) ∈ Query.owned t u <-> t !! (u, sk) = Some it.
Proof.
  unfold Query.owned. rewrite list_elem_of_omap. split.
  - intros ([[pk sk'] it'] & Hin & Hsel). cbn in Hsel.
    destruct (bool_decide (pk = u)) eqn:Hpk; [| discriminate].
    apply bool_decide_eq_true in Hpk. injection Hsel as -> ->. subst pk.
    apply elem_of_map_to_list in Hin. exact Hin.
  - intros Hlk. exists ((u, sk), it). split.
    + apply elem_of_map_to_list. exact Hlk.
    + cbn. rewrite bool_decide_eq_true_2 by reflexivity. reflexivity.
Qed.

Lemma partition_spec (t : table) (u sk : pystr) (it : item) :
  (sk, it) ∈ Query.partition t u <-> t !! (u, sk) = Some it.
Proof.
  unfold Query.partition. rewrite merge_sort_Permutation. apply owned_spec.
Qed.

Lemma partition_sorted (t : table) (u : pystr) :
  StronglySorted Query.newer_first (Query.partition t u).
Proof.
  apply (@StronglySorted_merge_sort _ Query.newer_first _
           newer_first_trans newer_first_total).
Qed.

Lemma owned_keys_NoDup (t : table) (u : pystr) :
  NoDup ((Query.owned t u).*1).
Proof.
  unfold Query.owned.
  pose proof (NoDup_fst_map_to_list t) as Hnd.
  induction (map_to_list t) as [|[[pk sk] it] l IH]; [constructor |].
  cbn in Hnd. apply NoDup_cons in Hnd as [Hnotin Hnd].
  cbn [omap list_omap fst snd].
  destruct (bool_decide (pk = u)) eqn:Hpk; [| apply IH; exact Hnd].
  apply bool_decide_eq_true in Hpk. subst pk.
  cbn. apply NoDup_cons. split; [| apply IH; exact Hnd].
  intros Hin. apply Hnotin.
  apply list_elem_of_fmap in Hin as ([sk' it'] & Heq & Hin). cbn in Heq. subst sk'.
  apply list_elem_of_omap in Hin as ([[pk2 sk2] it2] & Hin2 & Hsel). cbn in Hsel.
  destruct (bool_decide (pk2 = u)) eqn:Hpk2; [| discriminate].
  apply bool_decide_eq_true in Hpk2. injection Hsel as -> ->. subst pk2.
  apply list_elem_of_fmap. exists ((u, sk), it'). split; [reflexivity | exact Hin2].
Qed.

Lemma partition_keys_NoDup (t : table) (u : pystr) :
  NoDup ((Query.partition t u).*1).
Proof.
  unfold Query.partition. rewrite merge_sort_Permutation. apply owned_keys_NoDup.
Qed.

(** strictly descending sort keys *)
Lemma sorted_strict (l : list (pystr * item)) :
  StronglySorted Query.newer_first l -> NoDup (l.*1) ->
  StronglySorted
    (fun p q => Query.key_le (fst q) (fst p) = true /\ fst p <> fst q) l.
Proof.
  induction 1 as [|p l Hs IH Hall]; intros Hnd; [constructor |].
  cbn in Hnd. apply NoDup_cons in Hnd as [Hnotin Hnd].
  constructor; [apply IH; exact Hnd |].
  rewrite Forall_forall in Hall |- *. intros q Hq. split; [apply Hall; exact Hq |].
  intros Heq. apply Hnotin. rewrite Heq.
  apply list_elem_of_fmap. exists q. split; [reflexivity | exact Hq].
Qed.

Lemma sorted_take {A} (R : relation A) (n : nat) (l : list A) :
  StronglySorted R l -> StronglySorted R (take n l).
Proof.
  intros H. rewrite <- (take_drop n l) in H.
  apply StronglySorted_app in H. tauto.
Qed.

Lemma query_served (page : nat) (u : pystr) (limit : Z) (w : World) :
  (1 <= limit)%Z ->
  Query.query DDB.NoFault page u limit w
  = (Ok (take (Nat.min (Z.to_nat limit) page) (Query.partition (tbl w) u)), w).
Proof.
  intros Hl. unfold Query.query.
  destruct (Z.ltb_spec limit 1); [lia | reflexivity].
Qed.

(** X14. A served [get_itineraries] answers with records that are stored under
    the owner, at most [limit] of them, by strictly descending sort key (so
    none twice); the table is not changed. *)
Theorem get_itineraries_sound (page : nat) (u : pystr) (limit : Z) (w : World) :
  (1 <= limit)%Z ->
  exists rows w',
    Query.get_itineraries DDB.NoFault page u limit w = (Ok (List.map snd rows), w')
    /\ tbl w' = tbl w
    /\ (length rows <= Z.to_nat limit)%nat
    /\ (forall sk it, (sk, it) ∈ rows -> tbl w !! (u, sk) = Some it)
    /\ StronglySorted
         (fun p q => Query.key_le (fst q) (fst p) = true /\ fst p <> fst q) rows.
Proof.
  intros Hl.
  exists (take (Nat.min (Z.to_nat limit) page) (Query.partition (tbl w) u)).
  eexists. split.
  { unfold Query.get_itineraries, Query.get_itineraries_rows, bind.
    cbn [log_info log_at]. rewrite query_served by exact Hl. reflexivity. }
  cbn [tbl]. split; [reflexivity |]. split.
  { rewrite length_take. lia. }
  split.
  - intros sk it Hin. apply partition_spec.
    eapply subseteq_take. exact Hin.
  - apply sorted_take. apply sorted_strict.
    + apply partition_sorted.
    + apply partition_keys_NoDup.
Qed.

(** X15. [get_itineraries] filters nothing: when the owner's partition fits in
    the limit and in the page, every record stored under the owner is in the
    answer, the job records of [create_job] and [append_progress] among
    them. *)
Theorem get_itineraries_returns_job_records
    (page : nat) (u : pystr) (limit : Z) (w : World) (sk : pystr) (it : item) :
  (1 <= limit)%Z ->
  (length (Query.partition (tbl w) u) <= Nat.min (Z.to_nat limit) page)%nat ->
  tbl w !! (u, sk) = Some it ->
  exists items w',
    Query.get_itineraries DDB.NoFault page u limit w = (Ok items, w')
    /\ it ∈ items.
Proof.
  intros Hl Hfit Hlk. eexists. eexists. split.
  { unfold Query.get_itineraries, Query.get_itineraries_rows, bind.
    cbn [log_info log_at]. rewrite query_served by exact Hl. reflexivity. }
  rewrite take_ge by exact Hfit.
  apply list_elem_of_fmap. exists (sk, it). split; [reflexivity |].
  apply partition_spec. exact Hlk.
Qed.

(** X16. [get_itineraries] has no handler: it raises exactly when the limit is
    below 1 (refused before any request) or the store fails, with the
    store's exception; the table is never changed. *)
Theorem get_itineraries_raises (f : DDB.fault) (page : nat) (u : pystr)
    (limit : Z) (w : World) (e : exn) :
  (fst (Query.get_itineraries f page u limit w) = Raise e
   <-> ((limit < 1)%Z /\ e = OtherError (Py.lit "ParamValidationError"))
       \/ ((1 <= limit)%Z /\ f = DDB.Fault e))
  /\ tbl (snd (Query.get_itineraries f page u limit w)) = tbl w.
Proof.
  unfold Query.get_itineraries, Query.get_itineraries_rows, bind, Query.query.
  cbn [log_info log_at tbl].
  destruct (Z.ltb_spec limit 1) as [Hlt|Hge].
  - cbn. split; [| reflexivity]. split.
    + intros [= <-]. left. split; [exact Hlt | reflexivity].
    + intros [[_ ->] | [Hc _]]; [reflexivity | lia].
  - destruct f as [|e']; cbn.
    + split; [| reflexivity]. split; [discriminate |].
      intros [[Hc _] | [_ Hc]]; [lia | discriminate].
    + split; [| reflexivity]. split.
      * intros [= <-]. right. split; [exact Hge | reflexivity].
      * intros [[Hc _] | [_ [= <-]]]; [lia | reflexivity].
Qed.

End QueryFacts.

(** the default limit on the empty table *)
Lemma get_itineraries_sound_witness :
  exists rows w',
    Query.get_itineraries DDB.NoFault 100 Sample.u1 10 Sample.w0
    = (Ok (List.map snd rows), w')
    /\ tbl w' = tbl Sample.w0
    /\ (length rows <= Z.to_nat 10)%nat
    /\ (forall sk it, (sk, it) ∈ rows -> tbl Sample.w0 !! (Sample.u1, sk) = Some it)
    /\ StronglySorted
         (fun p q => Query.key_le (fst q) (fst p) = true /\ fst p <> fst q) rows.
Proof.
  apply (get_itineraries_sound 100 Sample.u1 10 Sample.w0). lia.
Defined.

(** a job created for "r1" comes back from [get_itineraries] *)
Lemma get_itineraries_returns_job_records_witness :
  let w1 := snd (Jobs.create_job Sample.t0 Sample.t0 DDB.NoFault
                   Sample.u1 Sample.r1 None None Sample.w0) in
  exists items w',
    Query.get_itineraries DDB.NoFault 100 Sample.u1 10 w1 = (Ok items, w')
    /\ Jobs.job_item Sample.t0 Sample.t0 Sample.u1 Sample.r1 None None ∈ items.
Proof.
  intros w1.
  apply (get_itineraries_returns_job_records 100 Sample.u1 10 w1
           (Jobs._job_sk Sample.r1)).
  - lia.
  - vm_compute. lia.
  - reflexivity.
Defined.

(** ** jobs.py: how the operations compose *)

Section JobsCompose.

Variables (user_id request_id : pystr).

Lemma progress_or_empty_appended (w : World) (old : list value)
    (entry t_now : pystr) :
  Observe.progress_or_empty
    (Observe.appended w user_id request_id old entry t_now) user_id request_id
  = Some (old ++ [VStr entry]).
Proof.
  unfold Observe.progress_or_empty. rewrite appended_progress. reflexivity.
Qed.

Lemma progress_or_empty_with_log (w : World) (r : log_record) :
  Observe.progress_or_empty (Observe.with_log w r) user_id request_id
  = Observe.progress_or_empty w user_id request_id.
Proof. reflexivity. Qed.

(** X1. Appends accumulate in call order: after any run of calls on a job whose
    progress is the list [old] (or absent), the stored list is [old]
    followed by one stamped entry per served, non-blank call, in the order
    of the calls; blank lines and calls the store failed add nothing and
    disturb nothing. *)
Theorem appends_accumulate_in_order (calls : list Run.append_call)
    (old : list value) (w : World) :
  Observe.progress_or_empty w user_id request_id = Some old ->
  Observe.progress_or_empty (Run.append_all user_id request_id calls w)
    user_id request_id
  = Some (old ++ omap Run.entry_of calls).
Proof.
  revert old w. induction calls as [|c calls IH]; intros old w Hold.
  - cbn. rewrite app_nil_r. exact Hold.
  - cbn [Run.append_all omap list_omap]. unfold Run.entry_of at 1.
    rewrite append_progress_str.
    destruct (Py.truthy (Py.strip (Run.ac_line c))) eqn:Hline.
    + destruct (Run.ac_fault c) as [|e] eqn:Hf.
      * unfold try_except.
        rewrite (update_item_append (Run.ac_tm c) (Run.ac_now c) user_id
                   request_id (Jobs.cap_line (Py.strip (Run.ac_line c))) old)
          by exact Hold.
        cbn [snd].
        rewrite (IH (old ++ [VStr (Jobs.stamped (Run.ac_tm c)
                                     (Jobs.cap_line (Py.strip (Run.ac_line c))))])).
        -- rewrite <- app_assoc. reflexivity.
        -- apply progress_or_empty_appended.
      * cbn [try_except DDB.update_item snd]. unfold try_except. cbn.
        apply IH. exact Hold.
    + cbn [snd]. destruct (Run.ac_fault c); apply IH; exact Hold.
Qed.

Let key : pystr * pystr := (user_id, Jobs._job_sk request_id).

Lemma update_item_append_invalid (tm : Py.struct_time) (t_now line : pystr)
    (w : World) :
  Observe.progress_or_empty w user_id request_id = None ->
  DDB.update_item DDB.NoFault key (Jobs.append_expression tm t_now line) w
  = (Raise (ClientError DDB.ValidationException), w).
Proof.
  unfold Observe.progress_or_empty, Observe.job_attr, Observe.job_record.
  unfold DDB.update_item. fold key. intros H.
  destruct (tbl w !! key) as [it|] eqn:Hk; [| discriminate].
  cbn [mbind option_bind] in H.
  unfold Jobs.append_expression, DDB.apply_set, DDB.eval.
  destruct (it !! Jobs.a_progress) as [v|] eqn:Hp; [| discriminate].
  destruct v; try discriminate; reflexivity.
Qed.

(** the world after an append: the table as it was, or the one record
    extended *)
Lemma append_progress_world (tm : Py.struct_time) (t_now : pystr)
    (f : DDB.fault) (line : value) (w : World) :
  tbl (snd (Jobs.append_progress tm t_now f user_id request_id line w)) = tbl w
  \/ exists old entry,
       tbl (snd (Jobs.append_progress tm t_now f user_id request_id line w))
       = tbl (Observe.appended w user_id request_id old entry t_now).
Proof.
  destruct line as [|b|z|s|l|m].
  - left. reflexivity.
  - left. destruct b; reflexivity.
  - left. unfold Jobs.append_progress, try_except, bind, Jobs.or_empty_strip.
    cbn [value_truthy]. destruct (negb (z =? 0)%Z); reflexivity.
  - rewrite append_progress_str.
    destruct (Py.truthy (Py.strip s)); [| left; reflexivity].
    unfold try_except. destruct f as [|e]; [| left; reflexivity].
    fold key.
    destruct (Observe.progress_or_empty w user_id request_id) as [old|] eqn:Hold.
    + rewrite (update_item_append tm t_now user_id request_id _ old) by exact Hold.
      right. eexists. eexists. reflexivity.
    + rewrite update_item_append_invalid by exact Hold. left. reflexivity.
  - left. destruct l; reflexivity.
  - left. destruct m; reflexivity.
Qed.

Lemma appended_other_key (w : World) (old : list value) (entry t_now : pystr)
    (k : pystr * pystr) :
  k <> key ->
  tbl (Observe.appended w user_id request_id old entry t_now) !! k = tbl w !! k.
Proof.
  intros Hk. unfold Observe.appended. cbn [tbl set_tbl]. fold key.
  apply lookup_insert_ne. congruence.
Qed.

Lemma appended_other_attr (w : World) (old : list value) (entry t_now a : pystr) :
  a <> Jobs.a_progress -> a <> Jobs.a_updatedAt ->
  a <> DDB.userId -> a <> DDB.itineraryId ->
  tbl (Observe.appended w user_id request_id old entry t_now) !! key
    ≫= (fun it => it !! a)
  = Observe.job_attr w user_id request_id a.
Proof.
  intros H1 H2 H3 H4. unfold Observe.appended, Observe.appended_item.
  cbn [tbl set_tbl]. fold key. rewrite lookup_insert_eq. cbn [mbind option_bind].
  rewrite !lookup_insert_ne by congruence.
  apply item_or_key_attr; assumption.
Qed.

(** X2. An append touches nothing but [progress] and [updatedAt] of its own job
    record, whatever its input and whatever the store answers: every other
    record, and every other attribute of the record (status, startedAt,
    finalMessage, ...), is as before; so are the token cache and the count
    of token requests. *)
Theorem append_progress_frame (tm : Py.struct_time) (t_now : pystr)
    (f : DDB.fault) (line : value) (w : World) :
  let w' := snd (Jobs.append_progress tm t_now f user_id request_id line w) in
  (forall k, k <> (user_id, Jobs._job_sk request_id) -> tbl w' !! k = tbl w !! k)
  /\ (forall a,
        a <> Jobs.a_progress -> a <> Jobs.a_updatedAt ->
        a <> DDB.userId -> a <> DDB.itineraryId ->
        Observe.job_attr w' user_id request_id a
        = Observe.job_attr w user_id request_id a).
Proof.
  intros w'. subst w'.
  destruct (append_progress_world tm t_now f line w) as [Hsame | (old & entry & Happ)].
  - unfold Observe.job_attr, Observe.job_record. rewrite Hsame.
    split; intros; reflexivity.
  - unfold Observe.job_attr at 1, Observe.job_record. rewrite Happ. split.
    + intros k Hk. apply appended_other_key. exact Hk.
    + intros a H1 H2 H3 H4. apply appended_other_attr; assumption.
Qed.

(** X3. When the stored [progress] is not a list the store refuses the update:
    the line is lost, the record stays as it was, and the refusal is only
    logged. *)
Theorem append_progress_on_non_list (tm : Py.struct_time) (t_now line : pystr)
    (v : value) (w : World) :
  Observe.job_attr w user_id request_id Jobs.a_progress = Some v ->
  (forall l, v <> VList l) ->
  Py.strip line <> [] ->
  Jobs.append_progress tm t_now DDB.NoFault user_id request_id (VStr line) w
  = (Ok tt,
     Observe.with_log w
       {| log_level := ERROR;
          log_msg := Py.lit "[job] append_progress error";
          log_exc := Some (ClientError DDB.ValidationException) |}).
Proof.
  intros Hv Hnl Hne. rewrite append_progress_str.
  apply truthy_nonempty in Hne. rewrite Hne.
  apply try_log_fault. fold key. apply update_item_append_invalid.
  unfold Observe.progress_or_empty. rewrite Hv.
  destruct v; try reflexivity. exfalso. eapply Hnl. reflexivity.
Qed.

Lemma completed_item_other (before : item) (t_now status : pystr)
    (final_message itinerary_id : option pystr) (a : pystr) :
  a <> Jobs.a_status -> a <> Jobs.a_completedAt -> a <> Jobs.a_updatedAt ->
  a <> Jobs.a_finalMessage -> a <> Jobs.a_resultItineraryId ->
  Observe.completed_item before t_now status final_message itinerary_id !! a
  = before !! a.
Proof.
  intros H1 H2 H3 H4 H5. unfold Observe.completed_item.
  destruct (Py.truthy_opt final_message), (Py.truthy_opt itinerary_id);
    rewrite !lookup_insert_ne by congruence; reflexivity.
Qed.

(** X4. A completion touches only status, completedAt, updatedAt, finalMessage
    and resultItineraryId of its own job record, whatever the store
    answers: every other record is as before, and so are the record's
    progress list, startedAt, type and meta. In particular completing a job
    that was never created leaves a record without progress and
    startedAt. *)
Theorem complete_job_frame (t_now : pystr) (f : DDB.fault) (status : pystr)
    (final_message itinerary_id : option pystr) (w : World) :
  let w' := snd (Jobs.complete_job t_now f user_id request_id status
                   final_message itinerary_id w) in
  (forall k, k <> (user_id, Jobs._job_sk request_id) -> tbl w' !! k = tbl w !! k)
  /\ (forall a,
        a <> Jobs.a_status -> a <> Jobs.a_completedAt -> a <> Jobs.a_updatedAt ->
        a <> Jobs.a_finalMessage -> a <> Jobs.a_resultItineraryId ->
        a <> DDB.userId -> a <> DDB.itineraryId ->
        Observe.job_attr w' user_id request_id a
        = Observe.job_attr w user_id request_id a).
Proof.
  intros w'. subst w'. unfold Jobs.complete_job, try_except, bind.
  destruct f as [|e].
  - rewrite update_item_complete.
    unfold Observe.job_attr at 1, Observe.job_record.
    cbn [log_info log_at snd fst tbl set_tbl]. fold key. split.
    + intros k Hk. apply lookup_insert_ne. congruence.
    + intros a H1 H2 H3 H4 H5 H6 H7.
      rewrite lookup_insert_eq. cbn [mbind option_bind].
      rewrite completed_item_other by assumption.
      apply item_or_key_attr; assumption.
  - cbn. split; intros; reflexivity.
Qed.

(** X5. [create_job] never changes or removes a record that exists, whatever
    the store answers: a repeated submission after progress or completion
    leaves the job's status, progress and final message in place. *)
Theorem create_job_preserves (t_started t_updated : pystr) (f : DDB.fault)
    (meta : option value) (job_id : option pystr) (w : World)
    (k : pystr * pystr) :
  tbl w !! k <> None ->
  tbl (snd (Jobs.create_job t_started t_updated f user_id request_id meta job_id w))
    !! k
  = tbl w !! k.
Proof.
  intros Hk. destruct f as [|e].
  - destruct (tbl w !! key) as [it|] eqn:Hkey.
    + rewrite create_job_existing by (fold key; congruence). reflexivity.
    + rewrite create_job_fresh by exact Hkey.
      cbn [snd tbl Observe.with_log set_tbl]. fold key.
      apply lookup_insert_ne. intros ->. contradiction.
  - unfold Jobs.create_job, try_except, bind. cbn [DDB.put_item_if_absent].
    destruct e as [code|name]; [| reflexivity].
    destruct (bool_decide (code = DDB.ConditionalCheckFailedException));
      reflexivity.
Qed.

(** X6. The stored final message is the given one cut at 180000 code points: a
    prefix of it, of length min(len, 180000). *)
Theorem final_message_is_bounded (t_now status m : pystr)
    (itinerary_id : option pystr) (w : World) :
  m <> [] ->
  exists stored,
    Observe.job_attr
      (snd (Jobs.complete_job t_now DDB.NoFault user_id request_id status
              (Some m) itinerary_id w))
      user_id request_id Jobs.a_finalMessage = Some (VStr stored)
    /\ stored `prefix_of` m
    /\ N.of_nat (length stored) = N.min (N.of_nat (length m)) 180000.
Proof.
  intros Hm. exists (Py.slice_to 180000 m). split.
  - unfold Jobs.complete_job, try_except, bind.
    rewrite update_item_complete.
    unfold Observe.job_attr, Observe.job_record.
    cbn [log_info log_at snd fst tbl set_tbl].
    rewrite lookup_insert_eq. cbn [mbind option_bind].
    rewrite completed_item_final_message.
    cbn [Py.truthy_opt Py.or_empty].
    apply truthy_nonempty in Hm. rewrite Hm. reflexivity.
  - unfold Py.slice_to. split.
    + apply prefix_take.
    + rewrite length_take. lia.
Qed.

End JobsCompose.

(** X7. The log mirror never raises into the logging call that triggered it,
    and it touches no record but its own job's. *)
Theorem emit_is_harmless (self : Jobs.JobProgressHandler)
    (tm : Py.struct_time) (t_now : pystr) (f : DDB.fault) (msg : pystr)
    (w : World) :
  fst (Jobs.emit self tm t_now f msg w) = Ok tt
  /\ (forall k,
        k <> (Jobs.h_user_id self, Jobs._job_sk (Jobs.h_request_id self)) ->
        tbl (snd (Jobs.emit self tm t_now f msg w)) !! k = tbl w !! k).
Proof.
  unfold Jobs.emit. destruct (Jobs.is_mirrored msg).
  - split; [apply try_log_never_raises |].
    intros k Hk.
    destruct (append_progress_world (Jobs.h_user_id self)
                (Jobs.h_request_id self) tm t_now f (VStr msg) w)
      as [Hsame | (old & entry & Happ)].
    + rewrite Hsame. reflexivity.
    + rewrite Happ. unfold Observe.appended. cbn [tbl set_tbl].
      apply lookup_insert_ne. congruence.
  - split; reflexivity.
Qed.

(** a run of four calls on the empty table leaves two entries *)
Lemma appends_accumulate_in_order_witness :
  Observe.progress_or_empty
    (Run.append_all Sample.u1 Sample.r1 Sample2.calls Sample.w0)
    Sample.u1 Sample.r1
  = Some ([] ++ [VStr (Py.lit "09:05:59  STATUS: planning");
                 VStr (Py.lit "09:05:59  Tool #1: http_request")]).
Proof.
  apply (appends_accumulate_in_order Sample.u1 Sample.r1 Sample2.calls []
           Sample.w0).
  reflexivity.
Defined.

Lemma append_progress_on_non_list_witness :
  Jobs.append_progress Sample.tm0 Sample.t1 DDB.NoFault Sample.u1 Sample.r1
    (VStr Sample.status_line) Sample2.w_bad_progress
  = (Ok tt,
     Observe.with_log Sample2.w_bad_progress
       {| log_level := ERROR;
          log_msg := Py.lit "[job] append_progress error";
          log_exc := Some (ClientError DDB.ValidationException) |}).
Proof.
  apply (append_progress_on_non_list Sample.u1 Sample.r1 Sample.tm0 Sample.t1
           Sample.status_line (VStr (Py.lit "oops")) Sample2.w_bad_progress).
  - reflexivity.
  - intros l. discriminate.
  - vm_compute. discriminate.
Defined.

(** a submission repeated after completion leaves the SUCCEEDED record *)
Lemma create_job_preserves_witness :
  tbl (snd (Jobs.create_job Sample.t2 Sample.t2 DDB.NoFault Sample.u1 Sample.r1
              None None Sample2.w_completed))
    !! (Sample.u1, Jobs._job_sk Sample.r1)
  = tbl Sample2.w_completed !! (Sample.u1, Jobs._job_sk Sample.r1).
Proof.
  apply (create_job_preserves Sample.u1 Sample.r1 Sample.t2 Sample.t2 DDB.NoFault
           None None Sample2.w_completed).
  vm_compute. discriminate.
Defined.

Lemma final_message_is_bounded_witness :
  exists stored,
    Observe.job_attr
      (snd (Jobs.complete_job Sample.t1 DDB.NoFault Sample.u1 Sample.r1
              Jobs.SUCCEEDED (Some (Py.lit "done")) None Sample.w0))
      Sample.u1 Sample.r1 Jobs.a_finalMessage = Some (VStr stored)
    /\ stored `prefix_of` Py.lit "done"
    /\ N.of_nat (length stored) = N.min (N.of_nat (length (Py.lit "done"))) 180000.
Proof.
  apply (final_message_is_bounded Sample.u1 Sample.r1 Sample.t1 Jobs.SUCCEEDED
           (Py.lit "done") None Sample.w0).
  discriminate.
Defined.

(** ** ddb_tools.py: saving *)

Section SaveItineraryMore.

Variable uuid5_url : pystr -> pystr.
Variable py_repr : value -> pystr.

(** An [itineraryId] that is present and falsy (empty string, [None], 0,
    an empty list) is replaced by the identity derived from the request
    id. *)
Lemma falsy_id_is_derived (fresh user_id : pystr) (it : item)
    (request_id : pystr) (v : value) :
  it !! DDB.itineraryId = Some v ->
  value_truthy v = false ->
  request_id <> [] ->
  DdbTools.saved_id uuid5_url py_repr fresh user_id (Some it) request_id
  = VStr (uuid5_url (Py.lit "agentcore-poc:" ++ request_id)).
Proof.
  intros Hv Hfalsy Hreq.
  unfold DdbTools.saved_id, DdbTools.itinerary_id_of.
  assert (Hget : DdbTools.get_or (DdbTools.shaped fresh user_id (Some it))
                   DDB.itineraryId VNull = v).
  { unfold DdbTools.get_or, DdbTools.shaped, DdbTools._ensure_itinerary_shape.
    rewrite lookup_insert_ne by discriminate.
    rewrite !setdefault_other by discriminate.
    unfold DdbTools.setdefault. rewrite Hv, Hv. reflexivity. }
  rewrite Hget, Hfalsy.
  rewrite stable_id_of_request by exact Hreq. reflexivity.
Qed.

(** X9. Where the save is idempotent: for itineraries that carry a falsy
    [itineraryId] and a non-empty request id, the first served save creates
    the record under the identity derived from the request id and reports
    [saved], and any later save for the same owner and request, even of a
    different itinerary, reports [duplicate] under the same identity and
    writes nothing. *)
Theorem save_itinerary_idempotent_on_falsy_id
    (fresh1 t1 fresh2 t2 user_id request_id : pystr)
    (it1 it2 : item) (v1 v2 : value) (w : World) :
  it1 !! DDB.itineraryId = Some v1 -> value_truthy v1 = false ->
  it2 !! DDB.itineraryId = Some v2 -> value_truthy v2 = false ->
  request_id <> [] ->
  tbl w !! (user_id, uuid5_url (Py.lit "agentcore-poc:" ++ request_id)) = None ->
  exists w1 w2,
    DdbTools.save_itinerary uuid5_url py_repr fresh1 t1 DDB.NoFault
      user_id (Some it1) request_id w
    = (Ok (Py.lit "saved:" ++ uuid5_url (Py.lit "agentcore-poc:" ++ request_id)),
       w1)
    /\ DdbTools.save_itinerary uuid5_url py_repr fresh2 t2 DDB.NoFault
         user_id (Some it2) request_id w1
       = (Ok (Py.lit "duplicate:"
              ++ uuid5_url (Py.lit "agentcore-poc:" ++ request_id)), w2)
    /\ tbl w2 = tbl w1
    /\ tbl w1 !! (user_id, uuid5_url (Py.lit "agentcore-poc:" ++ request_id))
       = Some (DdbTools.saved_item uuid5_url py_repr fresh1 t1 user_id
                 (Some it1) request_id).
Proof.
  intros Hv1 Hf1 Hv2 Hf2 Hreq Hfree.
  set (id := uuid5_url (Py.lit "agentcore-poc:" ++ request_id)) in *.
  destruct (save_itinerary_created uuid5_url py_repr fresh1 t1 user_id
              (Some it1) request_id id w) as (w1 & Hs1 & Ht1).
  { eapply falsy_id_is_derived; eassumption. }
  { exact Hfree. }
  destruct (save_itinerary_duplicate uuid5_url py_repr fresh2 t2 user_id
              (Some it2) request_id id w1) as (w2 & Hs2 & Ht2).
  { eapply falsy_id_is_derived; eassumption. }
  { rewrite Ht1, lookup_insert_eq. discriminate. }
  exists w1, w2. split; [exact Hs1 |]. split; [exact Hs2 |].
  split; [exact Ht2 |]. rewrite Ht1. apply lookup_insert_eq.
Qed.

(** the table after a save: as it was, or with one record added under a key
    that was free *)
Lemma save_itinerary_world (fresh t_now : pystr) (f : DDB.fault)
    (user_id : pystr) (itinerary : option item) (request_id : pystr) (w : World) :
  tbl (snd (DdbTools.save_itinerary uuid5_url py_repr fresh t_now f user_id
              itinerary request_id w)) = tbl w
  \/ exists k,
       tbl w !! k = None
       /\ tbl (snd (DdbTools.save_itinerary uuid5_url py_repr fresh t_now f
                      user_id itinerary request_id w))
          = <[k := DdbTools.saved_item uuid5_url py_repr fresh t_now user_id
                     itinerary request_id]> (tbl w).
Proof.
  unfold DdbTools.save_itinerary, try_except, bind, DDB.put_item_if_absent.
  cbn [log_info log_at tbl].
  destruct f as [|e].
  - destruct (DDB.key_of
                (DdbTools.saved_item uuid5_url py_repr fresh t_now user_id
                   itinerary request_id)) as [k|].
    + destruct (tbl w !! k) eqn:Hk.
      * left. reflexivity.
      * right. exists k. split; [exact Hk | reflexivity].
    + left. reflexivity.
  - left. destruct e as [code|name]; [| reflexivity].
    destruct (bool_decide (code = DDB.ConditionalCheckFailedException));
      reflexivity.
Qed.

(** X10. [save_itinerary] never overwrites: whatever it is given and whatever
    the store answers, every record that exists is afterwards as it was. *)
Theorem save_itinerary_preserves (fresh t_now : pystr) (f : DDB.fault)
    (user_id : pystr) (itinerary : option item) (request_id : pystr) (w : World)
    (k : pystr * pystr) :
  tbl w !! k <> None ->
  tbl (snd (DdbTools.save_itinerary uuid5_url py_repr fresh t_now f user_id
              itinerary request_id w)) !! k
  = tbl w !! k.
Proof.
  intros Hk.
  destruct (save_itinerary_world fresh t_now f user_id itinerary request_id w)
    as [-> | (k' & Hfree & ->)]; [reflexivity |].
  apply lookup_insert_ne. intros ->. contradiction.
Qed.

(** X11. [save_itinerary] raises [e] exactly when the conditional put raises [e]
    and [e] is not the rejection ConditionalCheckFailedException; that
    rejection alone is turned into the [duplicate] answer. *)
Theorem save_itinerary_raises (fresh t_now : pystr) (f : DDB.fault)
    (user_id : pystr) (itinerary : option item) (request_id : pystr) (w : World)
    (e : exn) :
  fst (DdbTools.save_itinerary uuid5_url py_repr fresh t_now f user_id
         itinerary request_id w) = Raise e
  <-> (fst (DDB.put_item_if_absent f
              (DdbTools.saved_item uuid5_url py_repr fresh t_now user_id
                 itinerary request_id) w) = Raise e
       /\ e <> ClientError DDB.ConditionalCheckFailedException).
Proof.
  unfold DdbTools.save_itinerary, try_except, bind, DDB.put_item_if_absent.
  cbn [log_info log_at tbl].
  destruct f as [|e'].
  - destruct (DDB.key_of
                (DdbTools.saved_item uuid5_url py_repr fresh t_now user_id
                   itinerary request_id)) as [k|].
    + destruct (tbl w !! k); cbn.
      * split; [discriminate |]. intros [[= <-] Hne]. contradiction.
      * split; [discriminate | intros [H _]; discriminate].
    + cbn. split.
      * intros [= <-]. split; [reflexivity | discriminate].
      * intros [[= <-] _]. reflexivity.
  - destruct e' as [code|name]; cbn.
    + destruct (bool_decide (code = DDB.ConditionalCheckFailedException)) eqn:Hc.
      * apply bool_decide_eq_true in Hc. subst code. cbn.
        split; [discriminate |]. intros [[= <-] Hne]. contradiction.
      * apply bool_decide_eq_false in Hc. cbn. split.
        -- intros [= <-]. split; [reflexivity | congruence].
        -- intros [[= <-] _]. reflexivity.
    + split.
      * intros [= <-]. split; [reflexivity | discriminate].
      * intros [[= <-] _]. reflexivity.
Qed.

(** X12. A client id that is truthy and not a string cannot be a key: the store
    refuses the item and the refusal is raised. *)
Theorem save_itinerary_rejects_non_string_id (fresh t_now user_id : pystr)
    (it : item) (request_id : pystr) (v : value) (w : World) :
  it !! DDB.itineraryId = Some v ->
  value_truthy v = true ->
  (forall s, v <> VStr s) ->
  fst (DdbTools.save_itinerary uuid5_url py_repr fresh t_now DDB.NoFault user_id
         (Some it) request_id w)
  = Raise (ClientError DDB.ValidationException)
  /\ tbl (snd (DdbTools.save_itinerary uuid5_url py_repr fresh t_now DDB.NoFault
                 user_id (Some it) request_id w)) = tbl w.
Proof.
  intros Hv Ht Hns.
  assert (Hid : DdbTools.saved_id uuid5_url py_repr fresh user_id (Some it)
                  request_id = v).
  { unfold DdbTools.saved_id, DdbTools.itinerary_id_of, DdbTools.get_or,
      DdbTools.shaped, DdbTools._ensure_itinerary_shape.
    rewrite lookup_insert_ne by discriminate.
    rewrite !setdefault_other by discriminate.
    unfold DdbTools.setdefault. rewrite Hv, Hv, Ht. reflexivity. }
  assert (Hkey : DDB.key_of
                   (DdbTools.saved_item uuid5_url py_repr fresh t_now user_id
                      (Some it) request_id) = None).
  { unfold DDB.key_of, DdbTools.saved_item, DdbTools.shaped. rewrite Hid.
    rewrite (lookup_insert_ne _ DdbTools.a_createdAt DDB.userId) by discriminate.
    rewrite (lookup_insert_ne _ DDB.itineraryId DDB.userId) by discriminate.
    rewrite lookup_insert_eq.
    rewrite (lookup_insert_ne _ DdbTools.a_createdAt DDB.itineraryId) by discriminate.
    rewrite lookup_insert_eq.
    destruct v; try reflexivity. exfalso. eapply Hns. reflexivity. }
  unfold DdbTools.save_itinerary, try_except, bind, DDB.put_item_if_absent.
  cbn [log_info log_at tbl]. rewrite Hkey. cbn. split; reflexivity.
Qed.

Lemma setdefault_keeps (d : item) (k a : pystr) (v x : value) :
  d !! a = Some x -> DdbTools.setdefault k v d !! a = Some x.
Proof.
  intros Ha. unfold DdbTools.setdefault.
  destruct (d !! k) eqn:Hk; [exact Ha |].
  rewrite lookup_insert_ne; [exact Ha |]. intros ->. congruence.
Qed.

Lemma setdefault_present (d : item) (k : pystr) (v : value) :
  DdbTools.setdefault k v d !! k <> None.
Proof.
  unfold DdbTools.setdefault.
  destruct (d !! k) eqn:Hk; [congruence |].
  rewrite lookup_insert_eq. discriminate.
Qed.

Lemma saved_item_keeps (fresh t_now user_id : pystr) (d : item)
    (request_id a : pystr) (x : value) :
  a <> DDB.userId -> a <> DDB.itineraryId -> a <> DdbTools.a_createdAt ->
  d !! a = Some x ->
  DdbTools.saved_item uuid5_url py_repr fresh t_now user_id (Some d) request_id
    !! a = Some x.
Proof.
  intros H1 H2 H3 Ha. unfold DdbTools.saved_item, DdbTools.shaped.
  rewrite !lookup_insert_ne by congruence.
  unfold DdbTools._ensure_itinerary_shape.
  repeat apply setdefault_keeps. exact Ha.
Qed.

(** X13. What is stored: the record carries the caller's [userId] (whatever
    [userId] the itinerary dict had), the identity and [createdAt]; the
    attributes destination, startDate, endDate, items and sources are
    always present; and every other attribute of the client's itinerary is
    kept as given. *)
Theorem saved_item_shape (fresh t_now user_id : pystr) (d : item)
    (request_id : pystr) :
  let rec := DdbTools.saved_item uuid5_url py_repr fresh t_now user_id
               (Some d) request_id in
  rec !! DDB.userId = Some (VStr user_id)
  /\ rec !! DdbTools.a_createdAt = Some (VStr t_now)
  /\ rec !! DDB.itineraryId
     = Some (DdbTools.saved_id uuid5_url py_repr fresh user_id (Some d) request_id)
  /\ Forall (fun a => rec !! a <> None)
       [DdbTools.a_destination; DdbTools.a_startDate; DdbTools.a_endDate;
        DdbTools.a_items; DdbTools.a_sources]
  /\ (forall a x,
        a <> DDB.userId -> a <> DDB.itineraryId -> a <> DdbTools.a_createdAt ->
        d !! a = Some x -> rec !! a = Some x).
Proof.
  intros rec. subst rec. unfold DdbTools.saved_item, DdbTools.shaped.
  split.
  { rewrite !lookup_insert_ne by discriminate. apply lookup_insert_eq. }
  split; [apply lookup_insert_eq |].
  split.
  { rewrite lookup_insert_ne by discriminate. apply lookup_insert_eq. }
  split.
  - unfold DdbTools._ensure_itinerary_shape.
    repeat constructor;
      rewrite !lookup_insert_ne by discriminate;
      rewrite ?setdefault_other by discriminate;
      apply setdefault_present.
  - intros a x H1 H2 H3 Ha.
    apply (saved_item_keeps fresh t_now user_id d request_id a x H1 H2 H3 Ha).
Qed.

(** X8. Jobs and itineraries share one key space. An itinerary saved under the
    client-supplied id "job#<requestId>" takes the key of that request's
    job: a later [create_job] reports success and creates nothing, so the
    request has no RUNNING record. *)
Theorem itinerary_can_take_job_key (fresh t_now ta tb user_id request_id : pystr)
    (d : item) (meta : option value) (job_id : option pystr) (w : World) :
  d !! DDB.itineraryId = Some (VStr (Jobs._job_sk request_id)) ->
  Observe.job_record w user_id request_id = None ->
  exists w1 w2,
    DdbTools.save_itinerary uuid5_url py_repr fresh t_now DDB.NoFault user_id
      (Some d) request_id w
    = (Ok (Py.lit "saved:" ++ Jobs._job_sk request_id), w1)
    /\ Jobs.create_job ta tb DDB.NoFault user_id request_id meta job_id w1
       = (Ok tt, w2)
    /\ tbl w2 = tbl w1
    /\ Observe.job_record w2 user_id request_id
       = Some (DdbTools.saved_item uuid5_url py_repr fresh t_now user_id
                 (Some d) request_id)
    /\ Observe.job_attr w2 user_id request_id Jobs.a_status = d !! Jobs.a_status.
Proof.
  intros Hid Habs.
  assert (Hsaved : DdbTools.saved_id uuid5_url py_repr fresh user_id (Some d)
                     request_id = VStr (Jobs._job_sk request_id)).
  { apply supplied_id_is_kept; [exact Hid | discriminate]. }
  destruct (save_itinerary_created uuid5_url py_repr fresh t_now user_id (Some d)
              request_id (Jobs._job_sk request_id) w Hsaved Habs)
    as (w1 & Hs1 & Ht1).
  exists w1. eexists. split; [exact Hs1 |].
  split.
  { apply create_job_existing. rewrite Ht1, lookup_insert_eq. discriminate. }
  cbn [tbl Observe.with_log]. split; [reflexivity |].
  unfold Observe.job_attr, Observe.job_record. cbn [tbl Observe.with_log].
  rewrite Ht1, lookup_insert_eq. split; [reflexivity |].
  cbn [mbind option_bind].
  destruct (d !! Jobs.a_status) as [x|] eqn:Hst.
  - apply saved_item_keeps; try discriminate. exact Hst.
  - unfold DdbTools.saved_item, DdbTools.shaped, DdbTools._ensure_itinerary_shape.
    rewrite !lookup_insert_ne by discriminate.
    rewrite !setdefault_other by discriminate. exact Hst.
Qed.

End SaveItineraryMore.

(** an itinerary with an empty id, saved twice for request "r1" *)
Lemma save_itinerary_idempotent_on_falsy_id_witness :
  exists w1 w2,
    DdbTools.save_itinerary Sample2.uuid5_stub Sample2.repr_stub
      Sample.uuid_a Sample.t0 DDB.NoFault Sample.u1 (Some Sample.kyoto_blank_id)
      Sample.r1 Sample.w0
    = (Ok (Py.lit "saved:uuid5:agentcore-poc:r1"), w1)
    /\ DdbTools.save_itinerary Sample2.uuid5_stub Sample2.repr_stub
         Sample.uuid_b Sample.t1 DDB.NoFault Sample.u1 (Some Sample.kyoto_blank_id)
         Sample.r1 w1
       = (Ok (Py.lit "duplicate:uuid5:agentcore-poc:r1"), w2)
    /\ tbl w2 = tbl w1
    /\ tbl w1 !! (Sample.u1, Py.lit "uuid5:agentcore-poc:r1")
       = Some (DdbTools.saved_item Sample2.uuid5_stub Sample2.repr_stub
                 Sample.uuid_a Sample.t0 Sample.u1 (Some Sample.kyoto_blank_id)
                 Sample.r1).
Proof.
  apply (save_itinerary_idempotent_on_falsy_id Sample2.uuid5_stub Sample2.repr_stub
           Sample.uuid_a Sample.t0 Sample.uuid_b Sample.t1 Sample.u1 Sample.r1
           Sample.kyoto_blank_id Sample.kyoto_blank_id (VStr []) (VStr [])
           Sample.w0);
    try reflexivity.
  discriminate.
Defined.

(** a second itinerary does not disturb the first *)
Lemma save_itinerary_preserves_witness :
  let w1 := snd (DdbTools.save_itinerary Sample2.uuid5_stub Sample2.repr_stub
                   Sample.uuid_a Sample.t0 DDB.NoFault Sample.u1
                   (Some Sample.kyoto) Sample.r1 Sample.w0) in
  tbl (snd (DdbTools.save_itinerary Sample2.uuid5_stub Sample2.repr_stub
              Sample.uuid_a Sample.t1 DDB.NoFault Sample.u1
              (Some Sample.kyoto) Sample.r1 w1)) !! (Sample.u1, Sample.uuid_a)
  = tbl w1 !! (Sample.u1, Sample.uuid_a).
Proof.
  intros w1.
  apply (save_itinerary_preserves Sample2.uuid5_stub Sample2.repr_stub
           Sample.uuid_a Sample.t1 DDB.NoFault Sample.u1 (Some Sample.kyoto)
           Sample.r1 w1 (Sample.u1, Sample.uuid_a)).
  vm_compute. discriminate.
Defined.

(** a numeric id *)
Lemma save_itinerary_rejects_non_string_id_witness :
  fst (DdbTools.save_itinerary Sample2.uuid5_stub Sample2.repr_stub
         Sample.uuid_a Sample.t0 DDB.NoFault Sample.u1
         (Some (<[DDB.itineraryId := VNum 7]> Sample.kyoto)) Sample.r1 Sample.w0)
  = Raise (ClientError DDB.ValidationException)
  /\ tbl (snd (DdbTools.save_itinerary Sample2.uuid5_stub Sample2.repr_stub
                 Sample.uuid_a Sample.t0 DDB.NoFault Sample.u1
                 (Some (<[DDB.itineraryId := VNum 7]> Sample.kyoto)) Sample.r1
                 Sample.w0)) = tbl Sample.w0.
Proof.
  apply (save_itinerary_rejects_non_string_id Sample2.uuid5_stub Sample2.repr_stub
           Sample.uuid_a Sample.t0 Sample.u1
           (<[DDB.itineraryId := VNum 7]> Sample.kyoto) Sample.r1 (VNum 7)
           Sample.w0).
  - reflexivity.
  - reflexivity.
  - intros s0. discriminate.
Defined.

(** the itinerary saved under "job#r1" before the job of "r1" is created *)
Lemma itinerary_can_take_job_key_witness :
  exists w1 w2,
    DdbTools.save_itinerary Sample2.uuid5_stub Sample2.repr_stub
      Sample.uuid_a Sample.t0 DDB.NoFault Sample.u1
      (Some (<[DDB.itineraryId := VStr (Py.lit "job#r1")]> Sample.kyoto))
      Sample.r1 Sample.w0
    = (Ok (Py.lit "saved:job#r1"), w1)
    /\ Jobs.create_job Sample.t1 Sample.t1 DDB.NoFault Sample.u1 Sample.r1
         None None w1 = (Ok tt, w2)
    /\ tbl w2 = tbl w1
    /\ Observe.job_record w2 Sample.u1 Sample.r1
       = Some (DdbTools.saved_item Sample2.uuid5_stub Sample2.repr_stub
                 Sample.uuid_a Sample.t0 Sample.u1
                 (Some (<[DDB.itineraryId := VStr (Py.lit "job#r1")]> Sample.kyoto))
                 Sample.r1)
    /\ Observe.job_attr w2 Sample.u1 Sample.r1 Jobs.a_status = None.
Proof.
  exact (itinerary_can_take_job_key Sample2.uuid5_stub Sample2.repr_stub
           Sample.uuid_a Sample.t0 Sample.t1 Sample.t1 Sample.u1 Sample.r1
           (<[DDB.itineraryId := VStr (Py.lit "job#r1")]> Sample.kyoto)
           None None Sample.w0 eq_refl eq_refl).
Defined.

(** ** config.py: the credential cache, failures and effects *)

Section TokenCacheMore.

Variable cfg : Config.Settings.

Lemma mint_unconfigured (resp : Config.token_response) (t_mint : Z) (w : World) :
  Config.cognito_configured cfg = false ->
  Config._mint_cognito_token cfg resp t_mint w = (Ok [], w).
Proof.
  intros H. unfold Config._mint_cognito_token. rewrite H. reflexivity.
Qed.

Lemma mint_request_failed (e : exn) (t_mint : Z) (w : World) :
  Config.cognito_configured cfg = true ->
  Config._mint_cognito_token cfg (Config.RequestFailed e) t_mint w
  = (Ok [],
     {| tbl := tbl w;
        logs := logs w ++
                [{| log_level := WARNING;
                    log_msg := Py.lit "[gateway] failed to mint token via Cognito";
                    log_exc := Some e |}];
        cache := cache w;
        http_posts := S (http_posts w) |}).
Proof.
  intros H. unfold Config._mint_cognito_token. rewrite H. reflexivity.
Qed.

(** X17. No credential is a soft failure. With no static token and nothing
    served from the cache: if a Cognito setting is empty, the call sends no
    request and returns the empty token with the world untouched; if the
    request fails, it returns the empty token, logs one warning carrying
    the exception, and leaves the cache as it was. Neither raises. *)
Theorem token_failure_is_soft (now : Z) (resp : Config.token_response)
    (t_mint : Z) (w : World) :
  Config.GATEWAY_ACCESS_TOKEN cfg = [] ->
  (forall tok, ~ Observe.cache_serves w now tok) ->
  (Config.cognito_configured cfg = false ->
     Config.get_gateway_access_token cfg now resp t_mint w = (Ok [], w))
  /\ (Config.cognito_configured cfg = true ->
      forall e, resp = Config.RequestFailed e ->
        Config.get_gateway_access_token cfg now resp t_mint w
        = (Ok [],
           {| tbl := tbl w;
              logs := logs w ++
                      [{| log_level := WARNING;
                          log_msg := Py.lit "[gateway] failed to mint token via Cognito";
                          log_exc := Some e |}];
              cache := cache w;
              http_posts := S (http_posts w) |})).
Proof.
  intros Henv Hmiss. split.
  - intros Hcfg. rewrite get_token_mints by assumption.
    apply mint_unconfigured. exact Hcfg.
  - intros Hcfg e ->. rewrite get_token_mints by assumption.
    apply mint_request_failed. exact Hcfg.
Qed.

(** X18. The cache never hands out an expired token: with no static token, a
    non-empty token that comes back without a request having been sent is
    the cached one, and the clock read less than its expiry; the call
    changed nothing. *)
Theorem token_without_request_is_unexpired (now : Z)
    (resp : Config.token_response) (t_mint : Z) (w w' : World) (tok : pystr) :
  Config.GATEWAY_ACCESS_TOKEN cfg = [] ->
  Config.get_gateway_access_token cfg now resp t_mint w = (Ok tok, w') ->
  tok <> [] ->
  http_posts w' = http_posts w ->
  Observe.cache_serves w now tok /\ w' = w.
Proof.
  intros Henv Hget Hne Hposts.
  unfold Config.get_gateway_access_token in Hget. rewrite Henv in Hget.
  cbn [Py.truthy] in Hget.
  destruct (access_token (cache w)) as [c|] eqn:Hc.
  - cbn [Py.truthy_opt Py.or_empty] in Hget.
    destruct (Py.truthy c) eqn:Htc.
    + destruct (now <? exp (cache w))%Z eqn:Hlt.
      * cbn in Hget. injection Hget as <- <-.
        split; [| reflexivity]. repeat split.
        -- exact Hc.
        -- exact Hne.
        -- apply Z.ltb_lt. exact Hlt.
      * cbn [andb] in Hget. exfalso.
        unfold Config._mint_cognito_token in Hget.
        destruct (Config.cognito_configured cfg).
        -- destruct resp as [e|e|[otok [|z|e]]]; cbn in Hget;
             injection Hget as Hr Hw; subst w'; cbn in Hposts; lia.
        -- cbn in Hget. injection Hget as <- _. contradiction.
    + cbn [andb] in Hget. exfalso.
      unfold Config._mint_cognito_token in Hget.
      destruct (Config.cognito_configured cfg).
      * destruct resp as [e|e|[otok [|z|e]]]; cbn in Hget;
          injection Hget as Hr Hw; subst w'; cbn in Hposts; lia.
      * cbn in Hget. injection Hget as <- _. contradiction.
  - cbn [Py.truthy_opt andb] in Hget. exfalso.
    unfold Config._mint_cognito_token in Hget.
    destruct (Config.cognito_configured cfg).
    + destruct resp as [e|e|[otok [|z|e]]]; cbn in Hget;
        injection Hget as Hr Hw; subst w'; cbn in Hposts; lia.
    + cbn in Hget. injection Hget as <- _. contradiction.
Qed.

Lemma mint_effects (resp : Config.token_response) (t_mint : Z) (w : World) :
  let r := Config._mint_cognito_token cfg resp t_mint w in
  tbl (snd r) = tbl w
  /\ (http_posts w <= http_posts (snd r) <= S (http_posts w))%nat
  /\ (exists more, logs (snd r) = logs w ++ more)
  /\ (forall tok, fst r = Ok tok -> tok <> [] ->
        access_token (cache (snd r)) = Some tok).
Proof.
  intros r. subst r. unfold Config._mint_cognito_token.
  destruct (Config.cognito_configured cfg).
  - destruct resp as [e|e|[otok [|z|e]]]; cbn.
    + split; [reflexivity |]. split; [lia |].
      split; [eexists; reflexivity |].
      intros tok [= <-] Hne. contradiction.
    + split; [reflexivity |]. split; [lia |].
      split; [exists []; rewrite app_nil_r; reflexivity |].
      intros tok Hr. discriminate.
    + split; [reflexivity |]. split; [lia |].
      split; [exists []; rewrite app_nil_r; reflexivity |].
      intros tok [= <-] Hne. destruct otok; [reflexivity | contradiction].
    + split; [reflexivity |]. split; [lia |].
      split; [exists []; rewrite app_nil_r; reflexivity |].
      intros tok [= <-] Hne. destruct otok; [reflexivity | contradiction].
    + split; [reflexivity |]. split; [lia |].
      split; [exists []; rewrite app_nil_r; reflexivity |].
      intros tok Hr. discriminate.
  - cbn. split; [reflexivity |]. split; [lia |].
    split; [exists []; rewrite app_nil_r; reflexivity |].
    intros tok [= <-] Hne. contradiction.
Qed.

(** X19. What a call can do to the world: it never touches the table, sends at
    most one token request, only appends to the log; and, with no static
    token, a non-empty token it returns is the one the cache holds
    afterwards. *)
Theorem get_token_effects (now : Z) (resp : Config.token_response)
    (t_mint : Z) (w : World) :
  let r := Config.get_gateway_access_token cfg now resp t_mint w in
  tbl (snd r) = tbl w
  /\ (http_posts w <= http_posts (snd r) <= S (http_posts w))%nat
  /\ (exists more, logs (snd r) = logs w ++ more)
  /\ (Config.GATEWAY_ACCESS_TOKEN cfg = [] ->
      forall tok, fst r = Ok tok -> tok <> [] ->
        access_token (cache (snd r)) = Some tok).
Proof.
  intros r. subst r. unfold Config.get_gateway_access_token.
  destruct (Py.truthy (Config.GATEWAY_ACCESS_TOKEN cfg)) eqn:Henv.
  - cbn. split; [reflexivity |]. split; [lia |].
    split; [exists []; rewrite app_nil_r; reflexivity |].
    intros H. rewrite H in Henv. discriminate.
  - destruct (Py.truthy_opt (access_token (cache w)) && (now <? exp (cache w))%Z)
      eqn:Hserve.
    + cbn. split; [reflexivity |]. split; [lia |].
      split; [exists []; rewrite app_nil_r; reflexivity |].
      intros _ tok [= <-] _.
      destruct (access_token (cache w)); [reflexivity | discriminate].
    + destruct (mint_effects resp t_mint w) as (H1 & H2 & H3 & H4).
      split; [exact H1 |]. split; [exact H2 |]. split; [exact H3 |].
      intros _. exact H4.
Qed.

(** X20. A grant whose [expires_in] cannot be read as an integer is half
    written: the call raises, but the new token is already in the cache,
    under the expiry of the previous one. While the clock reads less than
    that old expiry, later calls serve the new token from the cache. *)
Theorem bad_expires_in_is_half_written (now : Z) (t_mint : Z) (w : World)
    (tok : pystr) (e : exn) :
  Config.GATEWAY_ACCESS_TOKEN cfg = [] ->
  (forall t, ~ Observe.cache_serves w now t) ->
  Config.cognito_configured cfg = true ->
  tok <> [] ->
  exists w',
    Config.get_gateway_access_token cfg now
      (Config.Body {| Config.p_access_token := Some tok;
                      Config.p_expires_in := Config.ExpBad e |}) t_mint w
    = (Raise e, w')
    /\ cache w' = {| access_token := Some tok; exp := exp (cache w) |}
    /\ (forall now' resp' t_mint',
          (now' < exp (cache w))%Z ->
          Config.get_gateway_access_token cfg now' resp' t_mint' w'
          = (Ok tok, w')).
Proof.
  intros Henv Hmiss Hcfg Hne. eexists. split.
  { rewrite get_token_mints by assumption.
    unfold Config._mint_cognito_token. rewrite Hcfg. reflexivity. }
  cbn [cache set_cache]. split; [reflexivity |].
  intros now' resp' t_mint' Hlt.
  apply get_token_cached; [exact Henv |].
  repeat split; [exact Hne | exact Hlt].
Qed.

End TokenCacheMore.

(** without a client secret nothing is sent *)
Lemma token_failure_is_soft_witness :
  Config.get_gateway_access_token Sample2.cfg_no_secret 1000
    (Sample.granted Sample.tok1 300) 1001 Sample.w0 = (Ok [], Sample.w0).
Proof.
  destruct (token_failure_is_soft Sample2.cfg_no_secret 1000
              (Sample.granted Sample.tok1 300) 1001 Sample.w0) as [H _].
  - reflexivity.
  - intros tok (Habs & _). discriminate.
  - apply H. reflexivity.
Defined.

(** a call at clock 1100 on the cache filled at 1001 for 300 s *)
Lemma token_without_request_is_unexpired_witness :
  Observe.cache_serves Sample2.w_cached 1100 Sample.tok1
  /\ Sample2.w_cached = Sample2.w_cached.
Proof.
  apply (token_without_request_is_unexpired Sample.cfg0 1100
           (Sample.granted Sample.tok2 300) 1100 Sample2.w_cached
           Sample2.w_cached Sample.tok1).
  - reflexivity.
  - reflexivity.
  - discriminate.
  - reflexivity.
Defined.

(** after the token of 1001 has expired (clock 2000), a grant of [tok2]
    with an unreadable lifetime *)
Lemma bad_expires_in_is_half_written_witness :
  exists w',
    Config.get_gateway_access_token Sample.cfg0 2000
      (Config.Body {| Config.p_access_token := Some Sample.tok2;
                      Config.p_expires_in :=
                        Config.ExpBad (OtherError (Py.lit "ValueError")) |})
      2001 Sample2.w_cached
    = (Raise (OtherError (Py.lit "ValueError")), w')
    /\ cache w' = {| access_token := Some Sample.tok2; exp := 1271 |}
    /\ (forall now' resp' t_mint',
          (now' < 1271)%Z ->
          Config.get_gateway_access_token Sample.cfg0 now' resp' t_mint' w'
          = (Ok Sample.tok2, w')).
Proof.
  apply (bad_expires_in_is_half_written Sample.cfg0 2000 2001 Sample2.w_cached
           Sample.tok2 (OtherError (Py.lit "ValueError"))).
  - reflexivity.
  - intros t (_ & _ & Hlt). vm_compute in Hlt. discriminate.
  - reflexivity.
  - discriminate.
Defined.

(** ** agent_builder.py: invoking a wrapped tool *)

Section ProxyFacts.

Variable call_tool_sync :
  AgentBuilder.client -> value -> pystr -> option (list (pystr * value))
  -> result value.

(** With the libraries, a gateway URL and a token served from the cache, the
    client is made from that URL and that token, and only two debug lines
    are logged. *)
Lemma client_from_cache (cfg : Config.Settings) (now : Z)
    (resp : Config.token_response) (t_mint : Z) (w : World) (tok : pystr) :
  Config.GATEWAY_URL cfg <> [] ->
  Config.GATEWAY_ACCESS_TOKEN cfg = [] ->
  Observe.cache_serves w now tok ->
  exists w1,
    AgentBuilder._mcp_client_or_none true cfg now resp t_mint w
    = (Ok (Some {| AgentBuilder.c_url := Config.GATEWAY_URL cfg;
                   AgentBuilder.c_token := tok |}), w1)
    /\ tbl w1 = tbl w /\ cache w1 = cache w /\ http_posts w1 = http_posts w.
Proof.
  intros Hurl Henv Hserve.
  unfold AgentBuilder._mcp_client_or_none.
  apply truthy_nonempty in Hurl. rewrite Hurl.
  unfold bind. cbn [negb log_debug log_at].
  match goal with
  | |- context [Config.get_gateway_access_token cfg now resp t_mint ?w'] =>
      rewrite (get_token_cached cfg now resp t_mint w' tok Henv Hserve)
  end.
  destruct Hserve as (_ & Hne & _). apply truthy_nonempty in Hne. rewrite Hne.
  cbn. eexists. split; [reflexivity |]. cbn. repeat split; reflexivity.
Qed.

(** X24. A wrapped tool forwards the call and hands back what the gateway
    answers. With a token served from the cache, the gateway is called with
    that token, the tool's name, the [toolUseId] of the context (a fresh
    uuid when the context has none) and the keyword arguments ([None] when
    there are none). The gateway's result is returned as it is; its
    exception is raised again, never swallowed. The table, the cache and
    the count of token requests are untouched. *)
Theorem gateway_proxy_forwards (px : AgentBuilder.proxy)
    (cfg : Config.Settings) (now : Z) (resp : Config.token_response)
    (t_mint : Z) (fresh : pystr) (tool_context kwargs : list (pystr * value))
    (w : World) (tok : pystr) :
  Config.GATEWAY_URL cfg <> [] ->
  Config.GATEWAY_ACCESS_TOKEN cfg = [] ->
  Observe.cache_serves w now tok ->
  (forall v, GatewayProxy.find tool_context (Py.lit "tool_use") = Some v ->
             exists m, v = VMap m) ->
  let from_context :=
    match GatewayProxy.find tool_context (Py.lit "tool_use") with
    | Some (VMap m) => AgentBuilder.assoc m (Py.lit "toolUseId")
    | _ => VNull
    end in
  let r := GatewayProxy._gateway_proxy call_tool_sync px true cfg now resp t_mint
             fresh tool_context kwargs w in
  fst r
  = call_tool_sync
      {| AgentBuilder.c_url := Config.GATEWAY_URL cfg; AgentBuilder.c_token := tok |}
      (if value_truthy from_context then from_context else VStr fresh)
      (AgentBuilder.px_name px)
      (match kwargs with [] => None | _ => Some kwargs end)
  /\ tbl (snd r) = tbl w
  /\ cache (snd r) = cache w
  /\ http_posts (snd r) = http_posts w.
Proof.
  intros Hurl Henv Hserve Hctx from_context r. subst r.
  destruct (client_from_cache cfg now resp t_mint w tok Hurl Henv Hserve)
    as (w1 & Hc & Ht & Hca & Hp).
  unfold GatewayProxy._gateway_proxy, bind. rewrite Hc.
  unfold GatewayProxy.context_tool_use_id. subst from_context.
  destruct (GatewayProxy.find tool_context (Py.lit "tool_use")) as [v|] eqn:Hf.
  - destruct (Hctx v eq_refl) as [m ->]. cbn [ret].
    unfold try_except.
    destruct (call_tool_sync _ _ _ _) as [res|e]; cbn;
      repeat split; assumption.
  - cbn [ret]. unfold try_except.
    destruct (call_tool_sync _ _ _ _) as [res|e]; cbn;
      repeat split; assumption.
Qed.


End ProxyFacts.

(** ** entrypoint.py *)

Section EntrypointFacts.

Variable py_repr : value -> pystr.
Variable tool_rejects : pystr -> value -> value -> option exn.
Variable run_agent : Entrypoint.agent -> pystr -> M (option pystr).
Variable str_exc : exn -> pystr.
Variable format_exc : exn -> pystr.

(** [build_agent] raises or returns the three baseline tools followed by
    the extra ones. *)
Lemma build_agent_result (swcm_available : bool) (cf : Entrypoint.ctor_faults)
    (extra : list AgentBuilder.proxy) (w : World) :
  (exists e, fst (Entrypoint.build_agent swcm_available cf (Some extra) w) = Raise e)
  \/ (exists a,
        fst (Entrypoint.build_agent swcm_available cf (Some extra) w) = Ok a
        /\ Entrypoint.ag_tools a
           = Entrypoint.baseline_tools ++ List.map Entrypoint.Gateway extra).
Proof.
  unfold Entrypoint.build_agent, bind, Entrypoint.construct.
  cbn [log_debug log_at].
  destruct (Entrypoint.bedrock_fails cf) as [e|]; [left; eexists; reflexivity |].
  cbn [ret].
  destruct extra as [|px extra]; cbn [log_debug log_at];
    (destruct swcm_available;
     [ destruct (Entrypoint.manager_fails cf) as [e|];
       [left; eexists; reflexivity |]
     | ];
     cbn [ret log_debug log_at];
     (destruct (Entrypoint.agent_fails cf) as [e|];
      [left; eexists; reflexivity |]);
     right; eexists; split; reflexivity).
Qed.


Lemma get_token_fst_cache (cfg : Config.Settings) (now : Z)
    (resp : Config.token_response) (t_mint : Z) (w1 w2 : World) :
  cache w1 = cache w2 ->
  fst (Config.get_gateway_access_token cfg now resp t_mint w1)
  = fst (Config.get_gateway_access_token cfg now resp t_mint w2).
Proof.
  intros Hc. unfold Config.get_gateway_access_token.
  destruct (Py.truthy (Config.GATEWAY_ACCESS_TOKEN cfg)); [reflexivity |].
  rewrite Hc.
  destruct (Py.truthy_opt (access_token (cache w2)) && (now <? exp (cache w2))%Z);
    [reflexivity |].
  unfold Config._mint_cognito_token.
  destruct (Config.cognito_configured cfg); [| reflexivity].
  destruct resp as [e|e|[otok [|z|e]]]; reflexivity.
Qed.

Lemma client_fst_cache (mcp_available : bool) (cfg : Config.Settings) (now : Z)
    (resp : Config.token_response) (t_mint : Z) (w1 w2 : World) :
  cache w1 = cache w2 ->
  fst (AgentBuilder._mcp_client_or_none mcp_available cfg now resp t_mint w1)
  = fst (AgentBuilder._mcp_client_or_none mcp_available cfg now resp t_mint w2).
Proof.
  intros Hc. unfold AgentBuilder._mcp_client_or_none.
  destruct mcp_available; [| reflexivity].
  destruct (Py.truthy (Config.GATEWAY_URL cfg)); [| reflexivity].
  unfold bind. cbn [negb log_debug log_at].
  match goal with
  | |- context [fst (match Config.get_gateway_access_token cfg now resp t_mint ?a
                     with _ => _ end)] =>
      match goal with
      | |- _ = fst (match Config.get_gateway_access_token cfg now resp t_mint ?b
                    with _ => _ end) =>
          pose proof (get_token_fst_cache cfg now resp t_mint a b Hc) as Hfst;
          destruct (Config.get_gateway_access_token cfg now resp t_mint a)
            as [[ta|ea] wa];
          destruct (Config.get_gateway_access_token cfg now resp t_mint b)
            as [[tb|eb] wb]
      end
  end; cbn [fst] in Hfst; try discriminate.
  - injection Hfst as ->. destruct (Py.truthy tb); reflexivity.
  - injection Hfst as ->. reflexivity.
Qed.

(** what discovery returns does not depend on the log or the table *)
Lemma discover_fst_cache (mcp_available : bool) (cfg : Config.Settings) (now : Z)
    (resp : Config.token_response) (t_mint : Z) (answer : AgentBuilder.listing)
    (w1 w2 : World) :
  cache w1 = cache w2 ->
  fst (AgentBuilder.discover_gateway_tools py_repr tool_rejects mcp_available cfg
         now resp t_mint answer w1)
  = fst (AgentBuilder.discover_gateway_tools py_repr tool_rejects mcp_available cfg
           now resp t_mint answer w2).
Proof.
  intros Hc. rewrite !discover_by_cases.
  rewrite (client_fst_cache mcp_available cfg now resp t_mint _
             (snd (log_debug (Py.lit "[gateway] attempting to discover available tools") w2)));
    [reflexivity | exact Hc].
Qed.

Lemma agent_for_request_raises (baseline : Entrypoint.agent)
    (mcp_available : bool) (cfg : Config.Settings) (now : Z)
    (resp : Config.token_response) (t_mint : Z) (answer : AgentBuilder.listing)
    (swcm_available : bool) (cf : Entrypoint.ctor_faults) (w : World) (e : exn) :
  fst (Entrypoint._agent_for_request py_repr tool_rejects baseline
         mcp_available cfg now resp t_mint answer swcm_available cf w) = Raise e
  <-> fst (AgentBuilder.discover_gateway_tools py_repr tool_rejects
             mcp_available cfg now resp t_mint answer w) = Raise e.
Proof.
  unfold Entrypoint._agent_for_request, bind.
  destruct (AgentBuilder.discover_gateway_tools py_repr tool_rejects
              mcp_available cfg now resp t_mint answer w) as [[extra|e0] w1];
    cbn [fst].
  - destruct extra as [|px extra]; [cbn; split; discriminate |].
    cbn [log_debug log_at]. unfold try_except.
    match goal with
    | |- context [Entrypoint.build_agent swcm_available cf (Some ?l) ?w'] =>
        destruct (Entrypoint.build_agent swcm_available cf (Some l) w')
          as [[a'|e'] w2]
    end; cbn; split; discriminate.
  - split; intros [= <-]; reflexivity.
Qed.


End EntrypointFacts.

(** ** streamlit_app.py: extract_trace *)

Section TraceFacts.

Lemma has_trace_prefix_spec (line : pystr) :
  Streamlit.has_trace_prefix line = true
  <-> exists p, In p Streamlit.trace_prefixes /\ p `prefix_of` line.
Proof.
  unfold Streamlit.has_trace_prefix. rewrite existsb_exists.
  split; intros (p & Hin & Hp); exists p; split; try assumption;
    apply startswith_prefix; assumption.
Qed.

Lemma lines_lf_sound (s cur pre : pystr) :
  10 ∉ cur ->
  Forall (fun l => (10 ∉ l) /\ Streamlit.part_of l (pre ++ cur ++ s))
    (Streamlit.lines_lf cur s).
Proof.
  revert cur pre. induction s as [|c s IH]; intros cur pre Hcur.
  - cbn. constructor; [| constructor]. split; [exact Hcur |].
    exists pre, []. reflexivity.
  - cbn [Streamlit.lines_lf]. destruct (N.eqb_spec c 10) as [-> | Hc].
    + constructor.
      * split; [exact Hcur |]. exists pre, (10 :: s). reflexivity.
      * specialize (IH [] (pre ++ cur ++ [10])).
        rewrite <- !app_assoc in IH. cbn in IH. apply IH.
        apply not_elem_of_nil.
    + specialize (IH (cur ++ [c]) pre).
      rewrite <- !app_assoc in IH. cbn in IH. apply IH.
      rewrite elem_of_app, list_elem_of_singleton. intros [H | H]; [auto | congruence].
Qed.

Lemma splitlines_from_sound (n : nat) (s cur pre : pystr) :
  (length s <= n)%nat ->
  Forall (fun c => Streamlit.is_linebreak c = false) cur ->
  Forall (fun l => Forall (fun c => Streamlit.is_linebreak c = false) l
                   /\ Streamlit.part_of l (pre ++ cur ++ s))
    (Streamlit.splitlines_from cur s).
Proof.
  revert s cur pre. induction n as [|n IH]; intros s cur pre Hlen Hcur.
  - destruct s; [| cbn in Hlen; lia]. cbn.
    destruct cur; constructor; [| constructor].
    split; [exact Hcur |]. exists pre, []. reflexivity.
  - destruct s as [|c s].
    + cbn. destruct cur; constructor; [| constructor].
      split; [exact Hcur |]. exists pre, []. reflexivity.
    + cbn [Streamlit.splitlines_from]. cbn in Hlen.
      destruct (Streamlit.is_linebreak c) eqn:Hc.
      * constructor.
        { split; [exact Hcur |]. exists pre, (c :: s). reflexivity. }
        destruct s as [|d s].
        -- cbn. constructor.
        -- destruct ((c =? 13) && (d =? 10)).
           ++ specialize (IH s [] (pre ++ cur ++ [c; d])).
              rewrite <- !app_assoc in IH. cbn in IH. apply IH.
              ** cbn in Hlen. lia.
              ** constructor.
           ++ specialize (IH (d :: s) [] (pre ++ cur ++ [c])).
              rewrite <- !app_assoc in IH. cbn in IH. apply IH.
              ** cbn in Hlen |- *. lia.
              ** constructor.
      * specialize (IH s (cur ++ [c]) pre).
        rewrite <- !app_assoc in IH. cbn in IH. apply IH.
        -- lia.
        -- apply Forall_app. split; [exact Hcur |].
           constructor; [exact Hc | constructor].
Qed.

Lemma strip_infix (line : pystr) : Streamlit.part_of (Py.strip line) line.
Proof.
  destruct (strip_is_trim line) as (a & b & Hline & _).
  exists a, b. exact Hline.
Qed.

(** X28. Every entry [extract_trace] returns starts with one of the four words
    STATUS:, TOOL:, TOOL_RESULT:, RESULT:, contains no line feed, and is a
    contiguous piece of the text; an empty text gives no entry. *)
Theorem extract_trace_sound (final_text : pystr) :
  Forall (fun l =>
            (exists p, In p Streamlit.trace_prefixes /\ p `prefix_of` l)
            /\ (10 ∉ l)
            /\ Streamlit.part_of l final_text)
    (Streamlit.extract_trace final_text)
  /\ Streamlit.extract_trace [] = [].
Proof.
  split; [| reflexivity].
  unfold Streamlit.extract_trace.
  destruct (Py.truthy final_text); cbn [negb]; [| constructor].
  destruct (Streamlit.trace_matches final_text) as [|m ms] eqn:Hm.
  - apply Forall_forall. intros l Hl.
    apply list_elem_of_omap in Hl as (line & Hline & Hsel).
    cbv beta zeta in Hsel.
    destruct (Streamlit.has_trace_prefix (Py.strip line)) eqn:Hp; [| discriminate].
    injection Hsel as <-.
    pose proof (splitlines_from_sound (length final_text) final_text [] []
                  (le_n _) (Forall_nil_2 _)) as Hs.
    rewrite Forall_forall in Hs. destruct (Hs line Hline) as [Hnl Hinf].
    cbn in Hinf.
    split; [apply has_trace_prefix_spec; exact Hp |]. split.
    + intros H10. destruct (strip_infix line) as (a & b & Heq).
      rewrite Forall_forall in Hnl.
      assert (Hin : 10 ∈ line).
      { rewrite Heq. rewrite !elem_of_app. right. left. exact H10. }
      specialize (Hnl 10 Hin). discriminate.
    + destruct (strip_infix line) as (a & b & Heq).
      destruct Hinf as (k & k' & Htext).
      exists (k ++ a), (b ++ k'). rewrite Htext.
      set (core := Py.strip line) in *. rewrite Heq.
      rewrite <- !app_assoc. reflexivity.
  - assert (H : Forall (fun l =>
                          (exists p, In p Streamlit.trace_prefixes /\ p `prefix_of` l)
                          /\ (10 ∉ l)
                          /\ Streamlit.part_of l final_text)
                  (Streamlit.trace_matches final_text)).
    { unfold Streamlit.trace_matches.
      apply Forall_forall. intros l Hl.
      apply list_elem_of_In in Hl. apply filter_In in Hl as [Hl Hp].
      apply list_elem_of_In in Hl.
      pose proof (lines_lf_sound final_text [] [] (not_elem_of_nil _)) as Hs.
      rewrite Forall_forall in Hs. destruct (Hs l Hl) as [Hnl Hinf].
      split; [apply has_trace_prefix_spec; exact Hp |].
      split; [exact Hnl | exact Hinf]. }
    rewrite Hm in H. exact H.
Qed.

(** Indented trace lines are read only when no line starts with a trace
    word: here the second entry is dropped in the first text and kept,
    stripped, in the second. *)
Example extract_trace_branches :
  Streamlit.extract_trace
    (Py.lit "STATUS: a" ++ [10] ++ Py.lit "  TOOL: b" ++ [10] ++ Py.lit "noise")
  = [Py.lit "STATUS: a"]
  /\ Streamlit.extract_trace
       (Py.lit " STATUS: a " ++ [13; 10] ++ Py.lit "  TOOL: b" ++ [10]
        ++ Py.lit "noise")
     = [Py.lit "STATUS: a"; Py.lit "TOOL: b"].
Proof. split; reflexivity. Qed.

End TraceFacts.

(** ** agent_builder.py: discovery, what it returns and what it touches *)

Section DiscoveryMore.

Variable py_repr : value -> pystr.
Variable tool_rejects : pystr -> value -> value -> option exn.

Lemma wrappable_name (d : AgentBuilder.descriptor) (px : AgentBuilder.proxy) :
  AgentBuilder.wrappable tool_rejects d = Some px ->
  AgentBuilder.tool_name d = VStr (AgentBuilder.px_name px).
Proof.
  unfold AgentBuilder.wrappable.
  destruct (AgentBuilder.tool_name d) as [| | |name| |]; try discriminate.
  destruct (match AgentBuilder.tool_spec d with
            | Some s => if value_truthy s then s else VMap []
            | None => VMap []
            end) as [| | | | |m]; try discriminate.
  cbv zeta.
  match goal with
  | |- context [tool_rejects ?a ?b ?c] => destruct (tool_rejects a b c)
  end; [discriminate |].
  intros [= <-]. reflexivity.
Qed.

(** X21. The wrapping loop never raises and never gives up on the rest: from any
    listing it returns the proxies of exactly the descriptors that wrap, in
    the order listed, each under the name of its descriptor; a descriptor
    without a string name, with a [tool_spec] that is no dict, or rejected
    by the decorator costs only itself. *)
Theorem wrapping_skips_only_the_malformed (tools : list AgentBuilder.descriptor)
    (w : World) :
  let wrapped := omap (AgentBuilder.wrappable tool_rejects) tools in
  fst (AgentBuilder.wrap_all py_repr tool_rejects tools [] w) = Ok wrapped
  /\ (length wrapped <= length tools)%nat
  /\ (forall px, px ∈ wrapped ->
        exists d, d ∈ tools
                  /\ AgentBuilder.tool_name d = VStr (AgentBuilder.px_name px))
  /\ (forall d px, d ∈ tools ->
        AgentBuilder.wrappable tool_rejects d = Some px -> px ∈ wrapped).
Proof.
  intros wrapped. subst wrapped.
  split; [rewrite wrap_all_spec; reflexivity |].
  split.
  { induction tools as [|d l IH]; [cbn; lia |].
    cbn [omap list_omap]. destruct (AgentBuilder.wrappable tool_rejects d);
      cbn [length]; fold (omap (AgentBuilder.wrappable tool_rejects) l); lia. }
  split.
  - intros px Hpx. apply list_elem_of_omap in Hpx as (d & Hd & Hw).
    exists d. split; [exact Hd |]. apply wrappable_name. exact Hw.
  - intros d px Hd Hw. apply list_elem_of_omap. exists d. split; assumption.
Qed.

Lemma get_token_world (cfg : Config.Settings) (now : Z)
    (resp : Config.token_response) (t_mint : Z) (w : World) :
  tbl (snd (Config.get_gateway_access_token cfg now resp t_mint w)) = tbl w
  /\ (http_posts w
      <= http_posts (snd (Config.get_gateway_access_token cfg now resp t_mint w))
      <= S (http_posts w))%nat.
Proof.
  unfold Config.get_gateway_access_token.
  destruct (Py.truthy (Config.GATEWAY_ACCESS_TOKEN cfg)); [cbn; split; [reflexivity | lia] |].
  destruct (Py.truthy_opt (access_token (cache w)) && (now <? exp (cache w))%Z);
    [cbn; split; [reflexivity | lia] |].
  destruct (mint_effects cfg resp t_mint w) as (H1 & H2 & _).
  split; assumption.
Qed.

Lemma client_world (mcp_available : bool) (cfg : Config.Settings) (now : Z)
    (resp : Config.token_response) (t_mint : Z) (w : World) :
  tbl (snd (AgentBuilder._mcp_client_or_none mcp_available cfg now resp t_mint w))
  = tbl w
  /\ (http_posts w
      <= http_posts
           (snd (AgentBuilder._mcp_client_or_none mcp_available cfg now resp t_mint w))
      <= S (http_posts w))%nat.
Proof.
  unfold AgentBuilder._mcp_client_or_none.
  destruct mcp_available; [| cbn; split; [reflexivity | lia]].
  destruct (Py.truthy (Config.GATEWAY_URL cfg)); [| cbn; split; [reflexivity | lia]].
  unfold bind. cbn [negb log_debug log_at].
  match goal with
  | |- context [Config.get_gateway_access_token cfg now resp t_mint ?w'] =>
      destruct (get_token_world cfg now resp t_mint w') as [Ht Hp];
      destruct (Config.get_gateway_access_token cfg now resp t_mint w')
        as [[tok|e] w2]
  end; cbn [snd tbl http_posts] in *.
  - destruct (Py.truthy tok); cbn; split; assumption.
  - split; assumption.
Qed.

Lemma wrap_one_world (d : AgentBuilder.descriptor)
    (acc : list AgentBuilder.proxy) (w : World) :
  tbl (snd (AgentBuilder.wrap_one py_repr tool_rejects d acc w)) = tbl w
  /\ http_posts (snd (AgentBuilder.wrap_one py_repr tool_rejects d acc w))
     = http_posts w.
Proof.
  unfold AgentBuilder.wrap_one, try_except.
  destruct (AgentBuilder.tool_name d) as [| | |name| |];
    try (cbn; split; reflexivity).
  set (spec := match AgentBuilder.tool_spec d with
               | Some s => if value_truthy s then s else VMap []
               | None => VMap []
               end).
  destruct spec as [| | | | |m]; try (cbn; split; reflexivity).
  unfold bind, AgentBuilder.spec_get, ret.
  destruct (value_truthy (AgentBuilder.assoc m (Py.lit "inputSchema")));
    unfold AgentBuilder._wrap_mcp_tool;
    match goal with
    | |- context [tool_rejects ?a ?b ?c] => destruct (tool_rejects a b c)
    end; cbn; split; reflexivity.
Qed.

Lemma wrap_all_world (tools : list AgentBuilder.descriptor)
    (acc : list AgentBuilder.proxy) (w : World) :
  tbl (snd (AgentBuilder.wrap_all py_repr tool_rejects tools acc w)) = tbl w
  /\ http_posts (snd (AgentBuilder.wrap_all py_repr tool_rejects tools acc w))
     = http_posts w.
Proof.
  revert acc w. induction tools as [|d tools IH]; intros acc w.
  - cbn. split; reflexivity.
  - cbn [AgentBuilder.wrap_all]. unfold bind.
    destruct (wrap_one_world d acc w) as [Ht Hp].
    pose proof (wrap_one_spec py_repr tool_rejects d acc w) as Hone.
    destruct (AgentBuilder.wrap_one py_repr tool_rejects d acc w) as [[acc'|e] w'];
      cbn [fst snd] in *; [| discriminate].
    destruct (IH acc' w') as [Ht' Hp']. split; congruence.
Qed.

(** X23. Discovery is read-only towards the store and cheap towards the token
    endpoint: whatever it is answered, it leaves the table as it was and
    sends at most one token request. *)
Theorem discovery_effects (mcp_available : bool) (cfg : Config.Settings)
    (now : Z) (resp : Config.token_response) (t_mint : Z)
    (answer : AgentBuilder.listing) (w : World) :
  let w' := snd (AgentBuilder.discover_gateway_tools py_repr tool_rejects
                   mcp_available cfg now resp t_mint answer w) in
  tbl w' = tbl w
  /\ (http_posts w <= http_posts w' <= S (http_posts w))%nat.
Proof.
  intros w'. subst w'.
  unfold AgentBuilder.discover_gateway_tools, bind. cbn [log_debug log_at].
  match goal with
  | |- context [AgentBuilder._mcp_client_or_none mcp_available cfg now resp t_mint ?w1] =>
      destruct (client_world mcp_available cfg now resp t_mint w1) as [Ht Hp];
      destruct (AgentBuilder._mcp_client_or_none mcp_available cfg now resp t_mint w1)
        as [[[c|]|e] w2]
  end; cbn [snd tbl http_posts] in *.
  - destruct answer as [e|tools].
    + cbn. split; assumption.
    + destruct (AgentBuilder.named (AgentBuilder.or_nil tools));
        cbn [log_info log_at];
        match goal with
        | |- context [AgentBuilder.wrap_all py_repr tool_rejects ?l ?a ?w3] =>
            destruct (wrap_all_world l a w3) as [Ht' Hp']
        end; cbn [tbl http_posts] in *; (split; [congruence | lia]).
  - cbn. split; assumption.
  - split; assumption.
Qed.

End DiscoveryMore.


(** a call of the proxy with the token cached at 1001 *)
Lemma gateway_proxy_forwards_witness :
  fst (GatewayProxy._gateway_proxy Sample3.echo_gateway Sample3.geoname true
         Sample.cfg0 1100 (Sample.granted Sample.tok2 300) 1100 Sample.uuid_a
         [] [(Py.lit "name", VStr (Py.lit "Kyoto"))] Sample2.w_cached)
  = Ok (VStr (Py.lit "otmGeoname")).
Proof.
  destruct (gateway_proxy_forwards Sample3.echo_gateway Sample3.geoname
              Sample.cfg0 1100 (Sample.granted Sample.tok2 300) 1100 Sample.uuid_a
              [] [(Py.lit "name", VStr (Py.lit "Kyoto"))] Sample2.w_cached
              Sample.tok1) as [H _].
  - discriminate.
  - reflexivity.
  - split; [reflexivity | split; [discriminate | reflexivity]].
  - intros v Hv. discriminate.
  - exact H.
Defined.


(** ** tail_logs.py *)

Section TailFacts.

Lemma page_step_spec (events : list TailLogs.event) (printed : list pystr)
    (start_time : Z) :
  fst (TailLogs.page_step printed start_time events)
  = printed ++ List.map (fun ev => Py.rstrip (TailLogs.message ev)) events
  /\ (start_time <= snd (TailLogs.page_step printed start_time events))%Z
  /\ Forall (fun ev => (TailLogs.timestamp ev
                        < snd (TailLogs.page_step printed start_time events))%Z)
       events.
Proof.
  revert printed start_time.
  induction events as [|ev events IH]; intros printed start_time.
  - cbn. rewrite app_nil_r. split; [reflexivity |]. split; [lia | constructor].
  - cbn [TailLogs.page_step List.map].
    match goal with
    | |- context [TailLogs.page_step ?p ?st events] =>
        destruct (IH p st) as (Hout & Hmono & Hall)
    end.
    split; [rewrite Hout, <- app_assoc; reflexivity |].
    destruct (Z.ltb_spec start_time (TailLogs.timestamp ev + 1)).
    + split; [lia |]. constructor; [lia | exact Hall].
    + split; [lia |]. constructor; [lia | exact Hall].
Qed.

(** X29. The tail never goes back in time. Over any run of pages, every message
    is printed once per occurrence, right-stripped and in order, and the
    start time asked of the next request never decreases and lies past the
    timestamp of every event seen so far. *)
Theorem tail_start_time_advances (pages : list (list TailLogs.event))
    (printed : list pystr) (start_time : Z) :
  fst (TailLogs.tail_pages printed start_time pages)
  = printed ++ List.map (fun ev => Py.rstrip (TailLogs.message ev)) (concat pages)
  /\ (start_time <= snd (TailLogs.tail_pages printed start_time pages))%Z
  /\ Forall (fun ev => (TailLogs.timestamp ev
                        < snd (TailLogs.tail_pages printed start_time pages))%Z)
       (concat pages).
Proof.
  revert printed start_time.
  induction pages as [|page pages IH]; intros printed start_time.
  - cbn. rewrite app_nil_r. split; [reflexivity |]. split; [lia | constructor].
  - cbn [TailLogs.tail_pages concat].
    destruct (page_step_spec page printed start_time) as (Hout & Hmono & Hall).
    destruct (TailLogs.page_step printed start_time page) as [printed' st'].
    cbn [fst snd] in *.
    destruct (IH printed' st') as (Hout' & Hmono' & Hall').
    split; [rewrite Hout', Hout, map_app, <- app_assoc; reflexivity |].
    split; [lia |].
    apply Forall_app. split; [| exact Hall'].
    eapply Forall_impl; [exact Hall |]. cbn. intros ev Hev. lia.
Qed.

End TailFacts.
